(** * The automated-ML tutorial notebook (tutorials/03.auto-train-models.ipynb)

    The notebook is a linear Python script: ten code cells that import
    and call the Azure ML SDK, scikit-learn, numpy, pandas and matplotlib.
    It is embedded here as a finite interaction tree ([prog]): every
    import and every call into a library is an [event] answered by the
    outside world, everything the script computes itself (slicing,
    indexing, the dict comprehension, the conditional expressions) is a
    Rocq function.  Python's global namespace is an explicit store
    ([env]) threaded through the cells; it holds the names bound by
    assignment and the names bound by [import]. *)

From Stdlib Require Ascii.
From Stdlib Require Import Floats.PrimFloat.
From stdpp Require Import gmap strings list fin_maps.

(** ** Values *)

(** A numpy float64 matrix, one row per sample. *)
Definition matrix := list (list float).

(** The object returned by [sklearn.datasets.load_digits()]: only the two
    attributes the notebook reads. *)
Record Bunch := { data : matrix; target : list Z }.

(** The attributes of the workspace object read by the set-up cell. *)
Record workspace := {
  subscription_id : string;
  name : string;
  resource_group : string;
  location : string
}.

(** Objects owned by the SDK are opaque handles. *)
Inductive automl_config := ConfigHandle (id : nat).
Inductive experiment_t := ExperimentHandle (id : nat).
Inductive run_t := RunHandle (id : nat).
Inductive model_t := ModelHandle (id : nat).
Inductive widget_t := WidgetHandle (id : nat).
Inductive dataframe := DataFrameHandle (id : nat).

(** What an [import] statement binds: a module or a class. *)
Inductive pyobject := ObjectHandle (id : nat).

(** [plt.cm.Greys] and [plt.cm.gray]. *)
Inductive colormap := Greys | gray.

(** Python values that cross the boundary untyped: keyword arguments of
    [AutoMLConfig] and the values of a metrics dictionary. *)
#[warnings="-register-all"]
Inductive pyval :=
| PNone
| PBool (b : bool)
| PInt (z : Z)
| PFloat (f : float)
| PStr (s : string)
| PList (l : list pyval)
| PArray1 (a : list Z)
| PArray2 (m : matrix).

(** [isinstance(v, float)]: [bool] and [int] are not floats. *)
Definition isinstance_float (v : pyval) : bool :=
  match v with PFloat _ => true | _ => false end.

(** ** Exceptions *)

(** The first four are raised by the notebook's own operations (indexing,
    dictionary lookup, [int], [reshape], an unbound name); [Sdk] is
    whatever an import or a library call raised. *)
Inductive exn :=
| IndexError
| KeyError
| ValueError
| NameError
| Sdk (what : string).

Inductive outcome (A : Type) :=
| Done (a : A)
| Err (e : exn).
Arguments Done {A} a.
Arguments Err {A} e.

(** ** Imports and library calls *)

(** [py_import module None] is [import module] (with or without [as]),
    [py_import module (Some name)] is [from module import name]; the
    answer is the object the statement binds. *)
Inductive event : Type -> Type :=
| py_import (module : string) (member : option string) : event pyobject
| Workspace_from_config : event workspace
| azureml_core_VERSION : event string
| pd_set_option (option_name : string) (v : Z) : event unit
| pd_DataFrame_T (d : list (string * string)) (index : list string) : event unit
| datasets_load_digits : event Bunch
| np_random_permutation (x : nat) : event (list nat)
| plt_figure (w h : nat) : event unit
| plt_subplot (nrows ncols index : nat) : event unit
| plt_axhline (y : string) : event unit
| plt_axvline (x : string) : event unit
| plt_text (x y : Z) (s : Z) (fontsize : nat) (color : option string) : event unit
| plt_imshow (img : matrix) (cmap : colormap) : event unit
| plt_show : event unit
| AutoMLConfig (kwargs : list (string * pyval)) : event automl_config
| Experiment (w : workspace) (nm : string) : event experiment_t
| experiment_submit (e : experiment_t) (c : automl_config) (show_output : bool) : event run_t
| RunDetails (r : run_t) : event widget_t
| widget_show (w : widget_t) : event unit
| get_children (r : run_t) : event (list run_t)
| get_properties (r : run_t) : event (gmap string string)
| get_metrics (r : run_t) : event (gmap string pyval)
| pd_DataFrame_sort_index (d : gmap Z (gmap string pyval)) (axis : Z) : event dataframe
| get_output (r : run_t) : event (run_t * model_t)
| register_model (r : run_t) (description : string) (tags : pyval) : event unit
| model_id (r : run_t) : event string
| predict (m : model_t) (X : matrix) : event (list Z).

(** One line of the call log: the import or call and what came back, an
    exception message or a value. *)
Inductive entry :=
| Entry {R : Type} (ev : event R) (res : string + R).

Definition trace := list entry.

(** ** Programs *)

(** [Try body handler k] is Python's [try: body except: handler], followed
    by [k]: the handler is given the exception and raises it again if it
    is not one it handles.  The notebook has no [try] statement; the
    constructor is here so that this is a property of the notebook and
    not of the language it is written in. *)
Inductive prog (A : Type) : Type :=
| Ret (a : A)
| Raise (e : exn)
| Call {R : Type} (ev : event R) (k : R -> prog A)
| Try {B : Type} (body : prog B) (handler : exn -> prog B) (k : B -> prog A).
Arguments Ret {A} a.
Arguments Raise {A} e.
Arguments Call {A R} ev k.
Arguments Try {A B} body handler k.

Fixpoint bind {A B} (p : prog A) (f : A -> prog B) : prog B :=
  match p with
  | Ret a => f a
  | Raise e => Raise e
  | Call ev k => Call ev (fun r => bind (k r) f)
  | Try body handler k => Try body handler (fun b => bind (k b) f)
  end.

Definition call {R} (ev : event R) : prog R := Call ev Ret.

Notation "x <- p ;; q" := (bind p (fun x => q))
  (at level 90, p at level 89, right associativity, only parsing).

(** The outside world answers an import or a call knowing everything that
    happened so far. *)
Definition world := forall R, trace -> event R -> string + R.

(** Running a program after the history [pre]: its outcome and the log of
    the calls it made.  Outside a [Try], the first exception, the
    script's own or a library's, ends the run. *)
Fixpoint exec {A} (h : world) (pre : trace) (p : prog A) : outcome A * trace :=
  match p with
  | Ret a => (Done a, [])
  | Raise e => (Err e, [])
  | Call ev k =>
      match h _ pre ev with
      | inl msg => (Err (Sdk msg), [Entry ev (inl msg)])
      | inr r =>
          let '(o, t) := exec h (pre ++ [Entry ev (inr r)]) (k r) in
          (o, Entry ev (inr r) :: t)
      end
  | Try body handler k =>
      let '(o, t) := exec h pre body in
      match o with
      | Done b =>
          let '(o', t') := exec h (pre ++ t) (k b) in (o', t ++ t')
      | Err e =>
          let '(o1, t1) := exec h (pre ++ t) (handler e) in
          match o1 with
          | Done b =>
              let '(o', t') := exec h (pre ++ t ++ t1) (k b) in
              (o', t ++ t1 ++ t')
          | Err e' => (Err e', t ++ t1)
          end
      end
  end.

(** A program without a [try] statement. *)
Fixpoint handler_free {A} (p : prog A) : Prop :=
  match p with
  | Ret _ | Raise _ => True
  | Call _ k => forall r, handler_free (k r)
  | Try _ _ _ => False
  end.

(** [for x in l: body] *)
Fixpoint for_ {A S} (l : list A) (body : A -> S -> prog S) (st : S) : prog S :=
  match l with
  | [] => Ret st
  | x :: l' => st' <- body x st ;; for_ l' body st'
  end.

(** ** The global namespace *)

(** The names bound by [import] come first, then the names bound by
    assignment, in the order of their first binding. *)
Module V.
Inductive var :=
| azureml | pd | Workspace | AutoMLRun | time | logging | datasets | plt
| imshow | random | np | os | AutoMLConfig | Experiment | RunDetails
| ws | experiment_name | project_folder | output
| digits | X_digits | y_digits
| count | sample_size | i
| Automl_config | experiment | local_run
| children | metricslist | run | properties | metrics | rundata
| best_run | fitted_model | description | tags
| n | sample_indices | test_samples | result | s | font_color | clr_map.

Definition eq_dec (a b : var) : {a = b} + {a <> b}.
Proof. decide equality. Defined.
End V.

Definition ty (v : V.var) : Type :=
  match v with
  | V.azureml | V.pd | V.Workspace | V.AutoMLRun | V.time | V.logging
  | V.datasets | V.plt | V.imshow | V.random | V.np | V.os
  | V.AutoMLConfig | V.Experiment | V.RunDetails => pyobject
  | V.ws => workspace
  | V.experiment_name | V.project_folder | V.description | V.font_color => string
  | V.output => list (string * string)
  | V.digits => Bunch
  | V.X_digits | V.test_samples => matrix
  | V.y_digits | V.result => list Z
  | V.count | V.sample_size | V.i | V.n | V.s => nat
  | V.Automl_config => automl_config
  | V.experiment => experiment_t
  | V.local_run | V.run | V.best_run => run_t
  | V.children => list run_t
  | V.metricslist => gmap Z (gmap string pyval)
  | V.properties => gmap string string
  | V.metrics => gmap string pyval
  | V.rundata => dataframe
  | V.fitted_model => model_t
  | V.tags => pyval
  | V.sample_indices => list nat
  | V.clr_map => colormap
  end.

Definition env := forall v : V.var, option (ty v).

Definition empty_env : env := fun _ => None.

(** [v = x] *)
Definition assign (v : V.var) (x : ty v) (g : env) : env :=
  fun v' =>
    match V.eq_dec v v' with
    | left e => Some (eq_rect v ty x v' e)
    | right _ => g v'
    end.

(** Reading a name that is not bound raises [NameError]. *)
Definition read (v : V.var) (g : env) : prog (ty v) :=
  match g v with
  | Some x => Ret x
  | None => Raise NameError
  end.

(** ** Operations of the script itself *)

(** [a[i]] for a non-negative index: out of range raises [IndexError]. *)
Definition getitem {A} (a : list A) (i : nat) : prog A :=
  match a !! i with
  | Some x => Ret x
  | None => Raise IndexError
  end.

(** [a[idx]] for an index array: a new array with one row per index. *)
Fixpoint take_rows {A} (a : list A) (idx : list nat) : prog (list A) :=
  match idx with
  | [] => Ret []
  | i :: idx' => x <- getitem a i ;; xs <- take_rows a idx' ;; Ret (x :: xs)
  end.

(** [d[k]] on a dictionary: a missing key raises [KeyError]. *)
Definition dict_getitem {A} (d : gmap string A) (k : string) : prog A :=
  match d !! k with
  | Some x => Ret x
  | None => Raise KeyError
  end.

(** [d[k] = v] on the insertion-ordered dictionary [output]. *)
Fixpoint dict_setitem (k v : string) (d : list (string * string)) : list (string * string) :=
  match d with
  | [] => [(k, v)]
  | (k', v') :: d' =>
      if String.eqb k k' then (k, v) :: d' else (k', v') :: dict_setitem k v d'
  end.

Fixpoint rows_of (r c : nat) (a : list float) : matrix :=
  match r with
  | O => []
  | S r' => take c a :: rows_of r' c (drop c a)
  end.

(** [a.reshape(r, c)]: the sizes must agree, else [ValueError]. *)
Definition reshape (r c : nat) (a : list float) : prog matrix :=
  if Nat.eqb (length a) (r * c) then Ret (rows_of r c a) else Raise ValueError.

(** *** [int(s)] on a string

    A Python string is a sequence of code points; a string of this
    development holds its UTF-8 encoding.  [int] first turns every code
    point from 127 on into ASCII: white space becomes a blank, a decimal
    digit of any script its ASCII digit, anything else a question mark.
    What remains is read as surrounding ASCII white space, an optional
    sign, and decimal digits with single underscores between them.  (The
    limit on the number of digits of recent interpreters is not part of
    the language and is left out.) *)

(** The code points of a UTF-8 string; [None] when the bytes are not
    well-formed UTF-8. *)
Definition continuation (b : N) : bool := (128 <=? b)%N && (b <? 192)%N.

Definition scalar (low cp : N) : option N :=
  if (low <=? cp)%N && (cp <? 1114112)%N
     && negb ((55296 <=? cp)%N && (cp <? 57344)%N)
  then Some cp else None.

Fixpoint code_points (l : list N) : option (list N) :=
  match l with
  | [] => Some []
  | b0 :: l1 =>
      if (b0 <? 128)%N then cons b0 <$> code_points l1
      else if (b0 <? 192)%N then None
      else if (b0 <? 224)%N then
        match l1 with
        | b1 :: l2 =>
            if continuation b1
            then cp ← scalar 128 ((b0 - 192) * 64 + (b1 - 128))%N;
                 cons cp <$> code_points l2
            else None
        | _ => None
        end
      else if (b0 <? 240)%N then
        match l1 with
        | b1 :: b2 :: l3 =>
            if continuation b1 && continuation b2
            then cp ← scalar 2048 (((b0 - 224) * 64 + (b1 - 128)) * 64 + (b2 - 128))%N;
                 cons cp <$> code_points l3
            else None
        | _ => None
        end
      else if (b0 <? 248)%N then
        match l1 with
        | b1 :: b2 :: b3 :: l4 =>
            if continuation b1 && continuation b2 && continuation b3
            then cp ← scalar 65536
                   ((((b0 - 240) * 64 + (b1 - 128)) * 64 + (b2 - 128)) * 64
                    + (b3 - 128))%N;
                 cons cp <$> code_points l4
            else None
        | _ => None
        end
      else None
  end.

(** White space from code point 127 on ([str.isspace]). *)
Definition unicode_space (cp : N) : bool :=
  (cp =? 133)%N || (cp =? 160)%N || (cp =? 5760)%N
  || ((8192 <=? cp)%N && (cp <=? 8202)%N)
  || (cp =? 8232)%N || (cp =? 8233)%N || (cp =? 8239)%N || (cp =? 8287)%N
  || (cp =? 12288)%N.

(** The digit zero of every run of ten decimal digits (general category
    Nd) of the Unicode character database, version 14.0: ASCII,
    Arabic-Indic, ..., fullwidth, ..., mathematical, segmented. *)
Definition decimal_zeros : list N :=
  [ 48; 1632; 1776; 1984; 2406; 2534; 2662; 2790; 2918; 3046; 3174; 3302;
    3430; 3558; 3664; 3792; 3872; 4160; 4240; 6112; 6160; 6470; 6608; 6784;
    6800; 6992; 7088; 7232; 7248; 42528; 43216; 43264; 43472; 43504; 43600;
    44016; 65296; 66720; 68912; 69734; 69872; 69942; 70096; 70384; 70736;
    70864; 71248; 71360; 71472; 71904; 72016; 72784; 73040; 73120; 92768;
    92864; 93008; 120782; 120792; 120802; 120812; 120822; 123200; 123632;
    125264; 130032 ]%N.

Definition decimal_value (cp : N) : option N :=
  (fun zero => (cp - zero)%N)
    <$> List.find (fun zero => (zero <=? cp)%N && (cp <? zero + 10)%N) decimal_zeros.

Definition to_ascii (cp : N) : N :=
  if (cp <? 127)%N then cp
  else if unicode_space cp then 32%N
  else match decimal_value cp with
       | Some d => (48 + d)%N
       | None => 63%N
       end.

Definition is_space (c : N) : bool :=
  (c =? 32)%N || ((9 <=? c)%N && (c <=? 13)%N).

Definition digit_val (c : N) : option Z :=
  if (48 <=? c)%N && (c <=? 57)%N then Some (Z.of_N (c - 48)) else None.

Fixpoint drop_spaces (l : list N) : list N :=
  match l with
  | c :: l' => if is_space c then drop_spaces l' else l
  | [] => []
  end.

Definition strip (l : list N) : list N :=
  rev (drop_spaces (rev (drop_spaces l))).

Fixpoint digits_val (acc : Z) (after_digit : bool) (l : list N) : option Z :=
  match l with
  | [] => if after_digit then Some acc else None
  | c :: l' =>
      if (c =? 95)%N
      then (if after_digit then digits_val acc false l' else None)
      else match digit_val c with
           | Some d => digits_val (10 * acc + d) true l'
           | None => None
           end
  end.

Definition int_of_string (s : string) : option Z :=
  cps ← code_points (Ascii.N_of_ascii <$> String.list_ascii_of_string s);
  match strip (to_ascii <$> cps) with
  | c :: l' =>
      if (c =? 45)%N then Z.opp <$> digits_val 0 false l'
      else if (c =? 43)%N then digits_val 0 false l'
      else digits_val 0 false (c :: l')
  | [] => None
  end.

Definition py_int (s : string) : prog Z :=
  match int_of_string s with
  | Some z => Ret z
  | None => Raise ValueError
  end.

(** [{k: v for k, v in m.items() if isinstance(v, float)}] *)
Definition float_items (m : gmap string pyval) : gmap string pyval :=
  filter (fun kv => isinstance_float kv.2 = true) m.

(** [output[k] = v] *)
Definition output_setitem (k v : string) (g : env) : prog env :=
  out <- read V.output g ;;
  Ret (assign V.output (dict_setitem k v out) g).

(** ** The code cells, in notebook order

    A name is read where Python evaluates it: the callee first, then the
    arguments from left to right, then the call. *)

(** The imports of the first cell. *)
Definition cell_imports (g : env) : prog env :=
  m <- call (py_import "azureml.core" None) ;;
  let g := assign V.azureml m g in
  m <- call (py_import "pandas" None) ;;
  let g := assign V.pd m g in
  m <- call (py_import "azureml.core.workspace" (Some "Workspace")) ;;
  let g := assign V.Workspace m g in
  m <- call (py_import "azureml.train.automl.run" (Some "AutoMLRun")) ;;
  let g := assign V.AutoMLRun m g in
  m <- call (py_import "time" None) ;;
  let g := assign V.time m g in
  m <- call (py_import "logging" None) ;;
  let g := assign V.logging m g in
  m <- call (py_import "sklearn" (Some "datasets")) ;;
  let g := assign V.datasets m g in
  m <- call (py_import "matplotlib" (Some "pyplot")) ;;
  let g := assign V.plt m g in
  m <- call (py_import "matplotlib.pyplot" (Some "imshow")) ;;
  let g := assign V.imshow m g in
  m <- call (py_import "random" None) ;;
  let g := assign V.random m g in
  m <- call (py_import "numpy" None) ;;
  let g := assign V.np m g in
  Ret g.

(** Configure workspace. *)
Definition cell_configure_workspace (g : env) : prog env :=
  _ <- read V.Workspace g ;;
  w <- call Workspace_from_config ;;
  let g := assign V.ws w g in
  let g := assign V.experiment_name "automl-classifier" g in
  let g := assign V.project_folder "./automl-classifier" g in
  m <- call (py_import "os" None) ;;
  let g := assign V.os m g in
  let g := assign V.output [] g in
  _ <- read V.azureml g ;;
  ver <- call azureml_core_VERSION ;;
  g <- output_setitem "SDK version" ver g ;;
  w <- read V.ws g ;;
  g <- output_setitem "Subscription ID" (subscription_id w) g ;;
  w <- read V.ws g ;;
  g <- output_setitem "Workspace" (name w) g ;;
  w <- read V.ws g ;;
  g <- output_setitem "Resource Group" (resource_group w) g ;;
  w <- read V.ws g ;;
  g <- output_setitem "Location" (location w) g ;;
  pf <- read V.project_folder g ;;
  g <- output_setitem "Project Directory" pf g ;;
  _ <- read V.pd g ;;
  _ <- call (pd_set_option "display.max_colwidth" (-1)) ;;
  _ <- read V.pd g ;;
  out <- read V.output g ;;
  _ <- call (pd_DataFrame_T out [EmptyString]) ;;
  Ret g.

(** Explore data: [digits.data[100:,:]] keeps every column of the rows
    from index 100 on, [digits.target[100:]] the labels from index 100
    on. *)
Definition cell_load_data (g : env) : prog env :=
  m <- call (py_import "sklearn" (Some "datasets")) ;;
  let g := assign V.datasets m g in
  _ <- read V.datasets g ;;
  d <- call datasets_load_digits ;;
  let g := assign V.digits d g in
  d <- read V.digits g ;;
  let g := assign V.X_digits (drop 100 (data d)) g in
  d <- read V.digits g ;;
  let g := assign V.y_digits (drop 100 (target d)) g in
  Ret g.

(** Display some sample images: the body of the loop. *)
Definition sample_display_body (i : nat) (g : env) : prog env :=
  let g := assign V.i i g in
  c <- read V.count g ;;
  let g := assign V.count (c + 1) g in
  _ <- read V.plt g ;;
  ss <- read V.sample_size g ;;
  c <- read V.count g ;;
  _ <- call (plt_subplot 1 ss c) ;;
  _ <- read V.plt g ;;
  _ <- call (plt_axhline EmptyString) ;;
  _ <- read V.plt g ;;
  _ <- call (plt_axvline EmptyString) ;;
  _ <- read V.plt g ;;
  y <- read V.y_digits g ;;
  i <- read V.i g ;;
  lbl <- getitem y i ;;
  _ <- call (plt_text 2 (-2) lbl 18 None) ;;
  _ <- read V.plt g ;;
  X <- read V.X_digits g ;;
  i <- read V.i g ;;
  row <- getitem X i ;;
  img <- reshape 8 8 row ;;
  _ <- read V.plt g ;;
  _ <- call (plt_imshow img Greys) ;;
  Ret g.

Definition cell_sample_display (g : env) : prog env :=
  let g := assign V.count 0 g in
  let g := assign V.sample_size 30 g in
  _ <- read V.plt g ;;
  _ <- call (plt_figure 16 6) ;;
  _ <- read V.np g ;;
  X <- read V.X_digits g ;;
  perm <- call (np_random_permutation (length X)) ;;
  ss <- read V.sample_size g ;;
  g <- for_ (take ss perm) sample_display_body g ;;
  _ <- read V.plt g ;;
  _ <- call plt_show ;;
  Ret g.

(** The value of the [exit_score] keyword argument, and the value the
    settings table of the markdown cell above the call gives for it. *)
#[warnings="-inexact-float"]
Definition exit_score : float := 0.9985%float.
#[warnings="-inexact-float"]
Definition documented_exit_score : float := 0.995%float.

(** The keyword arguments of the [AutoMLConfig] call. *)
Definition automl_kwargs (X : matrix) (y : list Z) (project_folder : string)
  : list (string * pyval) :=
  [ ("task", PStr "classification");
    ("primary_metric", PStr "AUC_weighted");
    ("max_time_sec", PInt 12000);
    ("iterations", PInt 20);
    ("n_cross_validations", PInt 3);
    ("preprocess", PBool false);
    ("exit_score", PFloat exit_score);
    ("blacklist_algos", PList [PStr "kNN"; PStr "LinearSVM"]);
    ("X", PArray2 X);
    ("y", PArray1 y);
    ("path", PStr project_folder) ].

(** Define settings for autogeneration and tuning. *)
Definition cell_configure_automl (g : env) : prog env :=
  m <- call (py_import "azureml.train.automl" (Some "AutoMLConfig")) ;;
  let g := assign V.AutoMLConfig m g in
  _ <- read V.AutoMLConfig g ;;
  X <- read V.X_digits g ;;
  y <- read V.y_digits g ;;
  pf <- read V.project_folder g ;;
  c <- call (AutoMLConfig (automl_kwargs X y pf)) ;;
  Ret (assign V.Automl_config c g).

(** Run the automatic classifier. *)
Definition cell_submit (g : env) : prog env :=
  m <- call (py_import "azureml.core.experiment" (Some "Experiment")) ;;
  let g := assign V.Experiment m g in
  _ <- read V.Experiment g ;;
  w <- read V.ws g ;;
  nm <- read V.experiment_name g ;;
  e <- call (Experiment w nm) ;;
  let g := assign V.experiment e g in
  e <- read V.experiment g ;;
  c <- read V.Automl_config g ;;
  r <- call (experiment_submit e c true) ;;
  Ret (assign V.local_run r g).

(** Jupyter widget. *)
Definition cell_widget (g : env) : prog env :=
  m <- call (py_import "azureml.train.widgets" (Some "RunDetails")) ;;
  let g := assign V.RunDetails m g in
  _ <- read V.RunDetails g ;;
  r <- read V.local_run g ;;
  w <- call (RunDetails r) ;;
  _ <- call (widget_show w) ;;
  Ret g.

(** Retrieve all iterations: the body of the loop. *)
Definition tabulate_body (r : run_t) (g : env) : prog env :=
  let g := assign V.run r g in
  r <- read V.run g ;;
  props <- call (get_properties r) ;;
  let g := assign V.properties props g in
  r <- read V.run g ;;
  ms <- call (get_metrics r) ;;
  let g := assign V.metrics (float_items ms) g in
  m <- read V.metrics g ;;
  tbl <- read V.metricslist g ;;
  props <- read V.properties g ;;
  it <- dict_getitem props "iteration" ;;
  k <- py_int it ;;
  Ret (assign V.metricslist (<[k := m]> tbl) g).

Definition cell_retrieve_iterations (g : env) : prog env :=
  r <- read V.local_run g ;;
  ch <- call (get_children r) ;;
  let g := assign V.children ch g in
  let g := assign V.metricslist ∅ g in
  ch <- read V.children g ;;
  g <- for_ ch tabulate_body g ;;
  m <- call (py_import "pandas" None) ;;
  let g := assign V.pd m g in
  _ <- read V.pd g ;;
  tbl <- read V.metricslist g ;;
  df <- call (pd_DataFrame_sort_index tbl 1) ;;
  let g := assign V.rundata df g in
  _ <- read V.rundata g ;;
  Ret g.

(** Register the best model. *)
Definition cell_register_model (g : env) : prog env :=
  r <- read V.local_run g ;;
  out <- call (get_output r) ;;
  let g := assign V.best_run (fst out) g in
  let g := assign V.fitted_model (snd out) g in
  let g := assign V.description "Automated Machine Learning Model" g in
  let g := assign V.tags PNone g in
  r <- read V.local_run g ;;
  d <- read V.description g ;;
  t <- read V.tags g ;;
  _ <- call (register_model r d t) ;;
  r <- read V.local_run g ;;
  _ <- call (model_id r) ;;
  Ret g.

(** The two conditional expressions of the prediction display. *)
Definition font_color_of (y_true predicted : Z) : string :=
  if negb (Z.eqb y_true predicted) then "red" else "black".

Definition clr_map_of (y_true predicted : Z) : colormap :=
  if negb (Z.eqb y_true predicted) then gray else Greys.

(** Test the best model: the body of the loop. *)
Definition prediction_display_body (s : nat) (g : env) : prog env :=
  let g := assign V.s s g in
  _ <- read V.plt g ;;
  n <- read V.n g ;;
  i <- read V.i g ;;
  _ <- call (plt_subplot 1 n (i + 1)) ;;
  _ <- read V.plt g ;;
  _ <- call (plt_axhline EmptyString) ;;
  _ <- read V.plt g ;;
  _ <- call (plt_axvline EmptyString) ;;
  y <- read V.y_digits g ;;
  s <- read V.s g ;;
  ys <- getitem y s ;;
  res <- read V.result g ;;
  i <- read V.i g ;;
  ri <- getitem res i ;;
  let g := assign V.font_color (font_color_of ys ri) g in
  y <- read V.y_digits g ;;
  s <- read V.s g ;;
  ys <- getitem y s ;;
  res <- read V.result g ;;
  i <- read V.i g ;;
  ri <- getitem res i ;;
  _ <- read V.plt g ;;
  let g := assign V.clr_map (clr_map_of ys ri) g in
  _ <- read V.plt g ;;
  res <- read V.result g ;;
  i <- read V.i g ;;
  ri <- getitem res i ;;
  fc <- read V.font_color g ;;
  _ <- call (plt_text 2 (-2) ri 18 (Some fc)) ;;
  _ <- read V.plt g ;;
  X <- read V.X_digits g ;;
  s <- read V.s g ;;
  row <- getitem X s ;;
  img <- reshape 8 8 row ;;
  cm <- read V.clr_map g ;;
  _ <- call (plt_imshow img cm) ;;
  i <- read V.i g ;;
  Ret (assign V.i (i + 1) g).

Definition cell_test_model (g : env) : prog env :=
  let g := assign V.n 30 g in
  _ <- read V.np g ;;
  X <- read V.X_digits g ;;
  perm <- call (np_random_permutation (length X)) ;;
  n <- read V.n g ;;
  let g := assign V.sample_indices (take n perm) g in
  X <- read V.X_digits g ;;
  idx <- read V.sample_indices g ;;
  ts <- take_rows X idx ;;
  let g := assign V.test_samples ts g in
  m <- read V.fitted_model g ;;
  ts <- read V.test_samples g ;;
  res <- call (predict m ts) ;;
  let g := assign V.result res g in
  let g := assign V.i 0 g in
  _ <- read V.plt g ;;
  _ <- call (plt_figure 20 1) ;;
  idx <- read V.sample_indices g ;;
  g <- for_ idx prediction_display_body g ;;
  _ <- read V.plt g ;;
  _ <- call plt_show ;;
  Ret g.

(** Cells run one after the other on the same namespace. *)
Fixpoint seq_cells (cells : list (env -> prog env)) (g : env) : prog env :=
  match cells with
  | [] => Ret g
  | c :: cells' => g' <- c g ;; seq_cells cells' g'
  end.

(** The cells that follow the data-load cell. *)
Definition inspection_cells : list (env -> prog env) :=
  [ cell_widget; cell_retrieve_iterations; cell_register_model ].

Definition later_cells : list (env -> prog env) :=
  [ cell_sample_display; cell_configure_automl; cell_submit ]
  ++ inspection_cells ++ [ cell_test_model ].

(** The cells up to the data load. *)
Definition first_cells : list (env -> prog env) :=
  [ cell_imports; cell_configure_workspace; cell_load_data ].

(** The notebook: the cells run once each, top to bottom, from an empty
    namespace. *)
Definition notebook : prog env :=
  seq_cells (first_cells ++ later_cells) empty_env.

(** ** What a program may do, whatever the world answers

    A contract [C] says what a library call may return.  [sat E C B Q p]:
    [p] has no [try] statement and, as long as the answers obey [C],
    every call [p] makes satisfies [E], every exception [p] raises itself
    satisfies [B], and every value it returns satisfies [Q]. *)
Fixpoint sat {A} (E : forall R, event R -> Prop) (C : forall R, event R -> R -> Prop)
    (B : exn -> Prop) (Q : A -> Prop) (p : prog A) : Prop :=
  match p with
  | Ret a => Q a
  | Raise e => B e
  | Call ev k => E _ ev /\ forall r, C _ ev r -> sat E C B Q (k r)
  | Try _ _ _ => False
  end.

(** The world [h] obeys the contract [C]. *)
Definition obeys (h : world) (C : forall R, event R -> R -> Prop) : Prop :=
  forall R pre (ev : event R) r, h R pre ev = inr r -> C R ev r.

Definition any_answer R (ev : event R) (r : R) : Prop := True.

(** An exception the script raises itself, not one handed up by a
    library. *)
Definition own_exn (e : exn) : Prop :=
  match e with
  | Sdk _ => False
  | _ => True
  end.

Definition on_event (E : forall R, event R -> Prop) (en : entry) : Prop :=
  match en with Entry ev _ => E _ ev end.


(** ** Reading the call log *)

(** The logged answer is the one the world gave after the history [pre]. *)
Definition answered (h : world) (pre : trace) (en : entry) : Prop :=
  match en with Entry ev res => h _ pre ev = res end.

(** The exception message of a call that raised. *)
Definition raised (en : entry) : option string :=
  match en with
  | Entry _ (inl msg) => Some msg
  | Entry _ (inr _) => None
  end.

(** ** The stages and their calls *)

(** The import statements of each stage. *)
Definition setup_imports : list (string * option string) :=
  [ ("azureml.core", None); ("pandas", None);
    ("azureml.core.workspace", Some "Workspace");
    ("azureml.train.automl.run", Some "AutoMLRun");
    ("time", None); ("logging", None); ("sklearn", Some "datasets");
    ("matplotlib", Some "pyplot"); ("matplotlib.pyplot", Some "imshow");
    ("random", None); ("numpy", None); ("os", None) ].

Definition load_imports : list (string * option string) :=
  [ ("sklearn", Some "datasets") ].

Definition config_imports : list (string * option string) :=
  [ ("azureml.train.automl", Some "AutoMLConfig") ].

Definition submission_imports : list (string * option string) :=
  [ ("azureml.core.experiment", Some "Experiment") ].

Definition inspection_imports : list (string * option string) :=
  [ ("azureml.train.widgets", Some "RunDetails"); ("pandas", None) ].

Definition same_member (a b : option string) : bool :=
  match a, b with
  | Some x, Some y => String.eqb x y
  | None, None => true
  | _, _ => false
  end.

(** The event is one of the import statements [l]. *)
Definition imports (l : list (string * option string)) {R} (ev : event R) : bool :=
  match ev with
  | py_import m mem =>
      existsb (fun stmt => String.eqb m stmt.1 && same_member mem stmt.2) l
  | _ => false
  end.

Definition is_setup_call {R} (ev : event R) : bool :=
  match ev with
  | Workspace_from_config | azureml_core_VERSION
  | pd_set_option _ _ | pd_DataFrame_T _ _ => true
  | _ => imports setup_imports ev
  end.

Definition is_load_call {R} (ev : event R) : bool :=
  match ev with datasets_load_digits => true | _ => imports load_imports ev end.

Definition is_plot_call {R} (ev : event R) : bool :=
  match ev with
  | np_random_permutation _ | plt_figure _ _ | plt_subplot _ _ _
  | plt_axhline _ | plt_axvline _ | plt_text _ _ _ _ _ | plt_imshow _ _
  | plt_show => true
  | _ => false
  end.

Definition is_config_call {R} (ev : event R) : bool :=
  match ev with AutoMLConfig _ => true | _ => imports config_imports ev end.


Definition is_submission_call {R} (ev : event R) : bool :=
  match ev with
  | Experiment _ _ | experiment_submit _ _ _ => true
  | _ => imports submission_imports ev
  end.

Definition is_inspection_call {R} (ev : event R) : bool :=
  match ev with
  | RunDetails _ | widget_show _ | get_children _ | get_properties _
  | get_metrics _ | pd_DataFrame_sort_index _ _ | get_output _
  | register_model _ _ _ | model_id _ => true
  | _ => imports inspection_imports ev
  end.

Definition is_predict {R} (ev : event R) : bool :=
  match ev with predict _ _ => true | _ => false end.

Definition is_results_call {R} (ev : event R) : bool :=
  is_inspection_call ev || is_predict ev || is_plot_call ev.

(** A cell leaves the two arrays bound as they were. *)
Definition keeps_arrays (g g' : env) : Prop :=
  g' V.X_digits = g V.X_digits /\ g' V.y_digits = g V.y_digits.

Definition setup_calls R (ev : event R) : Prop := is_setup_call ev = true.
Definition load_calls R (ev : event R) : Prop := is_load_call ev = true.
Definition plot_calls R (ev : event R) : Prop := is_plot_call ev = true.
Definition config_calls R (ev : event R) : Prop := is_config_call ev = true.
Definition submission_calls R (ev : event R) : Prop := is_submission_call ev = true.
Definition any_call R (ev : event R) : Prop := True.
Definition inspection_calls R (ev : event R) : Prop := is_inspection_call ev = true.
Definition results_calls R (ev : event R) : Prop := is_results_call ev = true.


(** The rows [samples] are the rows of [X] at the indices [idx]. *)
Definition rows_at (X : matrix) (idx : list nat) (samples : matrix) : Prop :=
  Forall2 (fun s row => X !! s = Some row) idx samples.

(** A call of the test cell: a results call, and a prediction only on rows
    of [X]. *)
Definition test_calls (X : matrix) R (ev : event R) : Prop :=
  is_results_call ev = true /\
  match ev with
  | predict _ samples => exists idx, rows_at X idx samples
  | _ => True
  end.

(** ** Sample worlds and data *)

(** A data set of [k] blank 8x8 images, all labelled 5. *)
Definition blank_digits (k : nat) : Bunch :=
  {| data := repeat (repeat 0%float 64) k; target := repeat 5%Z k |}.

Definition sample_workspace : workspace :=
  {| subscription_id := "0000"; name := "ws"; resource_group := "rg";
     location := "westeurope" |}.

(** The history the quiet world serves. *)
Definition quiet_props (r : run_t) : gmap string string :=
  match r with
  | RunHandle k => {[ "iteration" := if Nat.eqb k 1 then "0" else "1" ]}
  end.

Definition quiet_metrics (r : run_t) : gmap string pyval :=
  {[ "AUC_weighted" := PFloat 0.5; "iterations" := PInt 3 ]}.

(** A world in which every import and every call succeeds: 103 images,
    the identity permutation, two child runs, a model that always answers
    5. *)
Definition quiet_world : world := fun R pre ev =>
  match ev in event R return string + R with
  | py_import _ _ => inr (ObjectHandle 0)
  | Workspace_from_config => inr sample_workspace
  | azureml_core_VERSION => inr "1.0"
  | datasets_load_digits => inr (blank_digits 103)
  | np_random_permutation x => inr (seq 0 x)
  | AutoMLConfig _ => inr (ConfigHandle 0)
  | Experiment _ _ => inr (ExperimentHandle 0)
  | experiment_submit _ _ _ => inr (RunHandle 0)
  | RunDetails _ => inr (WidgetHandle 0)
  | get_children _ => inr [RunHandle 1; RunHandle 2]
  | get_properties r => inr (quiet_props r)
  | get_metrics r => inr (quiet_metrics r)
  | pd_DataFrame_sort_index _ _ => inr (DataFrameHandle 0)
  | get_output _ => inr (RunHandle 1, ModelHandle 0)
  | model_id _ => inr "model"
  | predict _ X => inr (repeat 5%Z (length X))
  | _ => inr tt
  end.

(** The same world, except that the submission is refused. *)
Definition quota_world : world := fun R pre ev =>
  match ev in event R return string + R with
  | experiment_submit _ _ _ => inl "quota exhausted"
  | ev' => quiet_world _ pre ev'
  end.

(** ** What the libraries promise *)

(** [np.random.permutation(x)] returns a permutation of [range(x)], and a
    fitted model predicts one label per row. *)
Definition library_contract R (ev : event R) : R -> Prop :=
  match ev with
  | np_random_permutation x => fun l => l ≡ₚ seq 0 x
  | predict _ X => fun res => length res = length X
  | _ => fun _ => True
  end.



(** What the prediction display loop relies on: the arrays, the
    predictions and the running position [i]. *)
Definition display_state (X : matrix) (y res : list Z) (i : nat) (g : env) : Prop :=
  g V.X_digits = Some X /\ g V.y_digits = Some y /\
  g V.result = Some res /\ g V.i = Some i.

(** The namespace after the imports of the first cell, each answered
    with the same object. *)
Definition imported_env : env := fun v =>
  match v return option (ty v) with
  | V.azureml => Some (ObjectHandle 0)
  | V.pd => Some (ObjectHandle 0)
  | V.Workspace => Some (ObjectHandle 0)
  | V.AutoMLRun => Some (ObjectHandle 0)
  | V.time => Some (ObjectHandle 0)
  | V.logging => Some (ObjectHandle 0)
  | V.datasets => Some (ObjectHandle 0)
  | V.plt => Some (ObjectHandle 0)
  | V.imshow => Some (ObjectHandle 0)
  | V.random => Some (ObjectHandle 0)
  | V.np => Some (ObjectHandle 0)
  | _ => None
  end.

(** A namespace in which, besides the imports, only the two arrays and
    the project folder are bound: [k] blank images. *)
Definition loaded (k : nat) : env :=
  assign V.y_digits (target (blank_digits k))
    (assign V.X_digits (data (blank_digits k))
       (assign V.project_folder "./automl-classifier" imported_env)).

Definition loaded_env : env := loaded 3.


(** ** The data-load stage *)

(** "Loaded in full": every row of [digits.data] is a row of [X_digits],
    every entry of [digits.target] an entry of [y_digits]. *)
Definition loaded_in_full (d : Bunch) (g : env) : Prop :=
  exists X y, g V.X_digits = Some X /\ g V.y_digits = Some y /\
              (forall row, row ∈ data d -> row ∈ X) /\
              (forall lbl, lbl ∈ target d -> lbl ∈ y).

(** 101 blank images; only the first is labelled 7. *)
Definition digits_101 : Bunch :=
  {| data := repeat (repeat 0%float 64) 101; target := 7%Z :: repeat 0%Z 100 |}.

Definition world_101 : world := fun R pre ev =>
  match ev in event R return string + R with
  | datasets_load_digits => inr digits_101
  | ev' => quiet_world _ pre ev'
  end.

(** The import statement of the data-load cell and its log entry. *)
Definition import_datasets : event pyobject := py_import "sklearn" (Some "datasets").

(** ** The configuration record *)

(** The eight fields of the configuration record. *)
Definition configuration_fields : list string :=
  [ "task"; "primary_metric"; "max_time_sec"; "iterations";
    "n_cross_validations"; "preprocess"; "exit_score"; "blacklist_algos" ].

(** The keyword arguments of the [AutoMLConfig] calls in a log. *)
Definition config_kwargs (t : trace) : list (list (string * pyval)) :=
  omap (fun en => match en with
                  | Entry (AutoMLConfig kw) _ => Some kw
                  | _ => None
                  end) t.

(** The value given for the keyword [k]. *)
Fixpoint kwarg (k : string) (kw : list (string * pyval)) : option pyval :=
  match kw with
  | [] => None
  | (k', v) :: kw' => if String.eqb k k' then Some v else kwarg k kw'
  end.

(** The import statement of the configuration cell. *)
Definition import_AutoMLConfig : event pyobject :=
  py_import "azureml.train.automl" (Some "AutoMLConfig").

(** ** The run history *)

(** [int(properties['iteration'])], when it has a value. *)
Definition iteration_of (props : gmap string string) : option Z :=
  props !! "iteration" ≫= int_of_string.

(** What the service holds: the children of the parent run [lr], and the
    properties and metrics of every run. *)
Definition history_contract (lr : run_t) (ch : list run_t)
    (props_of : run_t -> gmap string string)
    (metrics_of : run_t -> gmap string pyval) R (ev : event R) : R -> Prop :=
  match ev with
  | get_children r => fun l => r = lr -> l = ch
  | get_properties r => fun p => p = props_of r
  | get_metrics r => fun m => m = metrics_of r
  | _ => fun _ => True
  end.

(** The table [tbl] is [tbl0] after the loop has gone through the runs
    [ch]. *)
Fixpoint table_after (props_of : run_t -> gmap string string)
    (metrics_of : run_t -> gmap string pyval)
    (tbl0 : gmap Z (gmap string pyval)) (ch : list run_t)
    (tbl : gmap Z (gmap string pyval)) : Prop :=
  match ch with
  | [] => tbl = tbl0
  | r :: ch' =>
      exists k, iteration_of (props_of r) = Some k /\
                table_after props_of metrics_of
                  (<[k := float_items (metrics_of r)]> tbl0) ch' tbl
  end.

(** A namespace in which only [local_run] is bound. *)
Definition submitted_env : env := assign V.local_run (RunHandle 0) empty_env.

(** A history in which both child runs carry the iteration number 0. *)
Definition first_metrics : gmap string pyval := {[ "AUC_weighted" := PFloat 0.5 ]}.
Definition second_metrics : gmap string pyval := {[ "accuracy" := PFloat 0.75 ]}.

Definition duplicate_world : world := fun R pre ev =>
  match ev in event R return string + R with
  | get_children _ => inr [RunHandle 1; RunHandle 2]
  | get_properties _ => inr {[ "iteration" := "0" ]}
  | get_metrics (RunHandle k) =>
      inr (if Nat.eqb k 1 then first_metrics else second_metrics)
  | ev' => quiet_world _ pre ev'
  end.

(** The namespace a completed run ends with. *)
Definition env_of (o : outcome env) : env :=
  match o with
  | Done g => g
  | Err _ => empty_env
  end.

Definition completed {A} (o : outcome A) : Prop :=
  match o with
  | Done _ => True
  | Err _ => False
  end.

(** ** Rendering attributes *)

(** The [color] arguments of the [plt.text] calls of a log, and the [cmap]
    arguments of its [plt.imshow] calls. *)
Definition text_colors (t : trace) : list (option string) :=
  omap (fun en => match en with
                  | Entry (plt_text _ _ _ _ c) _ => Some c
                  | _ => None
                  end) t.

Definition colormaps (t : trace) : list colormap :=
  omap (fun en => match en with
                  | Entry (plt_imshow _ cm) _ => Some cm
                  | _ => None
                  end) t.

(** The values of [y_digits[s] != result[i]] as the prediction display
    loop goes through the indices [idx], starting at position [i]. *)
Fixpoint misclassified (y res : list Z) (i : nat) (idx : list nat) : list bool :=
  match idx with
  | [] => []
  | s :: idx' =>
      match y !! s, res !! i with
      | Some ys, Some ri => negb (Z.eqb ys ri) :: misclassified y res (S i) idx'
      | _, _ => []
      end
  end.

Definition highlight_color (wrong : bool) : option string :=
  Some (if wrong then "red" else "black").

Definition highlight_cmap (wrong : bool) : colormap :=
  if wrong then gray else Greys.

(** The sample display passes no colour and always the same colormap. *)
Definition plain_rendering R (ev : event R) : Prop :=
  match ev with
  | plt_text _ _ _ _ c => c = None
  | plt_imshow _ cm => cm = Greys
  | _ => True
  end.

(** Two models that are always wrong on the blank data set, and
    differently so. *)
Definition world_answering (label : Z) : world := fun R pre ev =>
  match ev in event R return string + R with
  | predict _ X => inr (repeat label (length X))
  | ev' => quiet_world _ pre ev'
  end.

(** Blank images, and a fitted model to test. *)
Definition trained (k : nat) : env := assign V.fitted_model (ModelHandle 0) (loaded k).

Definition trained_env : env := trained 3.

(** ** Counting submissions *)



Definition no_predict R (ev : event R) : Prop := is_predict ev = false.

(** The cells between the data load and the final test. *)
Definition middle_cells : list (env -> prog env) :=
  [ cell_sample_display; cell_configure_automl; cell_submit ] ++ inspection_cells.

(** The cells before the submission cell. *)
Definition cells_before_submission : list (env -> prog env) :=
  first_cells ++ [ cell_sample_display; cell_configure_automl ].


(** ** The five operations that reach outside *)

Inductive operation :=
| Workspace_load
| Job_submission
| Metric_retrieval
| Model_registration
| Prediction.

(** The calls of each operation: [Workspace.from_config()],
    [experiment.submit(...)], the three queries of the tabulation cell,
    [register_model(...)] and [predict(...)]. *)
Definition is_operation (op : operation) {R} (ev : event R) : bool :=
  match op, ev with
  | Workspace_load, Workspace_from_config => true
  | Job_submission, experiment_submit _ _ _ => true
  | Metric_retrieval, get_children _ => true
  | Metric_retrieval, get_properties _ => true
  | Metric_retrieval, get_metrics _ => true
  | Model_registration, register_model _ _ _ => true
  | Prediction, predict _ _ => true
  | _, _ => false
  end.

(** In the world [h] every call of the operation [op] raises [msg], and
    no other import or call raises. *)
Definition fails_exactly (op : operation) (msg : string) (h : world) : Prop :=
  forall R pre (ev : event R),
    if is_operation op ev then h R pre ev = inl msg
    else exists r, h R pre ev = inr r.

(** The quiet world, with one operation out of order. *)
Definition failing_world (op : operation) (msg : string) : world := fun R pre ev =>
  if is_operation op ev then inl msg else quiet_world R pre ev.

(** * Further definitions: what each cell writes, and well-behaved
    libraries *)

(** [g'] differs from [g] at most on the names [vs]. *)
Definition writes_only (vs : list V.var) (g g' : env) : Prop :=
  forall v, v ∉ vs -> g' v = g v.

(** The names each cell binds, read off its import statements, its
    assignment statements and its loop variables. *)
Definition cell_writes : list ((env -> prog env) * list V.var) :=
  [ (cell_imports,
     [V.azureml; V.pd; V.Workspace; V.AutoMLRun; V.time; V.logging;
      V.datasets; V.plt; V.imshow; V.random; V.np]);
    (cell_configure_workspace,
     [V.ws; V.experiment_name; V.project_folder; V.os; V.output]);
    (cell_load_data, [V.datasets; V.digits; V.X_digits; V.y_digits]);
    (cell_sample_display, [V.count; V.sample_size; V.i]);
    (cell_configure_automl, [V.AutoMLConfig; V.Automl_config]);
    (cell_submit, [V.Experiment; V.experiment; V.local_run]);
    (cell_widget, [V.RunDetails]);
    (cell_retrieve_iterations,
     [V.children; V.metricslist; V.run; V.properties; V.metrics; V.pd;
      V.rundata]);
    (cell_register_model,
     [V.best_run; V.fitted_model; V.description; V.tags]);
    (cell_test_model,
     [V.n; V.sample_indices; V.test_samples; V.result; V.i; V.s;
      V.font_color; V.clr_map]) ].

Definition not_NameError (e : exn) : Prop := e <> NameError.

(** What the libraries promise to a notebook run: the sample data set has
    one label per image and 64 pixels per image, a permutation is a
    permutation, a model predicts one label per row, and every run's
    properties carry an integer [iteration]. *)
Definition notebook_contract R (ev : event R) : R -> Prop :=
  match ev with
  | datasets_load_digits =>
      fun d => length (data d) = length (target d) /\
               Forall (fun row => length row = 64) (data d)
  | np_random_permutation x => fun l => l ≡ₚ seq 0 x
  | predict _ X => fun res => length res = length X
  | get_properties _ => fun p => is_Some (iteration_of p)
  | _ => fun _ => True
  end.

Definition never_raised (e : exn) : Prop := False.

(** Both arrays are bound, with as many labels as images and 64 pixels
    per image. *)
Definition well_formed (g : env) : Prop :=
  exists X y, g V.X_digits = Some X /\ g V.y_digits = Some y /\
              length X = length y /\ Forall (fun row => length row = 64) X.

(** ** What a log shows *)

(** The labels written by the [plt.text] calls, the images handed to
    [plt.imshow], and the grid positions of the [plt.subplot] calls. *)
Definition shown_labels (t : trace) : list Z :=
  omap (fun en => match en with
                  | Entry (plt_text _ _ s _ _) _ => Some s
                  | _ => None
                  end) t.

Definition shown_images (t : trace) : list matrix :=
  omap (fun en => match en with
                  | Entry (plt_imshow img _) _ => Some img
                  | _ => None
                  end) t.

Definition subplot_positions (t : trace) : list (nat * nat * nat) :=
  omap (fun en => match en with
                  | Entry (plt_subplot r c k) _ => Some (r, c, k)
                  | _ => None
                  end) t.

(** The image [img] is the 8x8 picture of the 64-pixel row [row]. *)
Definition picture_of (row : list float) (img : matrix) : Prop :=
  length img = 8 /\ Forall (fun line => length line = 8) img /\ concat img = row.

(** The model and the rows of every [predict] call of a log. *)
Definition prediction_calls (t : trace) : list (model_t * matrix) :=
  omap (fun en => match en with
                  | Entry (predict m X) _ => Some (m, X)
                  | _ => None
                  end) t.

(** ** The calls of the tabulation cell *)

Inductive query :=
| Properties_of (r : run_t)
| Metrics_of (r : run_t).

(** The property and metric queries of a log, in order. *)
Definition queries (t : trace) : list query :=
  omap (fun en => match en with
                  | Entry (get_properties r) _ => Some (Properties_of r)
                  | Entry (get_metrics r) _ => Some (Metrics_of r)
                  | _ => None
                  end) t.

(** The runs whose children were listed, and the tables turned into data
    frames (with the [sort_index] axis). *)
Definition children_calls (t : trace) : list run_t :=
  omap (fun en => match en with
                  | Entry (get_children r) _ => Some r
                  | _ => None
                  end) t.

Definition dataframe_tables (t : trace) : list (gmap Z (gmap string pyval) * Z) :=
  omap (fun en => match en with
                  | Entry (pd_DataFrame_sort_index d axis) _ => Some (d, axis)
                  | _ => None
                  end) t.

(** The import statements of a log. *)
Definition import_statements (t : trace) : list (string * option string) :=
  omap (fun en => match en with
                  | Entry (py_import m mem) _ => Some (m, mem)
                  | _ => None
                  end) t.

(** Neither the import of pandas nor the data frame. *)
Definition no_dataframe R (ev : event R) : Prop :=
  match ev with
  | pd_DataFrame_sort_index _ _ | py_import _ _ => False
  | _ => True
  end.

Definition lookup_error (e : exn) : Prop := e = KeyError \/ e = ValueError.

(** A history in which the second child run has no [iteration]
    property. *)
Definition unnumbered_world : world := fun R pre ev =>
  match ev in event R return string + R with
  | get_properties (RunHandle k) =>
      inr (if Nat.eqb k 1 then {[ "iteration" := "0" ]} else ∅)
  | ev' => quiet_world _ pre ev'
  end.

Definition unnumbered_props (r : run_t) : gmap string string :=
  match r with
  | RunHandle k => if Nat.eqb k 1 then {[ "iteration" := "0" ]} else ∅
  end.

(** ** The objects handed from call to call *)

(** The calls of a log that create or receive a workspace, a
    configuration, an experiment, a run or a model, with what a
    successful one returned. *)
Inductive handover :=
| Loaded (w : workspace)
| Built (c : automl_config)
| Created (w : workspace) (nm : string) (e : experiment_t)
| Submitted (e : experiment_t) (c : automl_config) (show_output : bool) (r : run_t)
| Widget_for (r : run_t)
| Children_of (r : run_t)
| Output_of (r : run_t) (best : run_t) (m : model_t)
| Registered (r : run_t) (description : string) (tags : pyval)
| Model_id_of (r : run_t)
| Predicted_with (m : model_t).

Definition handover_of (en : entry) : option handover :=
  match en with
  | Entry Workspace_from_config (inr w) => Some (Loaded w)
  | Entry (AutoMLConfig _) (inr c) => Some (Built c)
  | Entry (Experiment w nm) (inr e) => Some (Created w nm e)
  | Entry (experiment_submit e c so) (inr r) => Some (Submitted e c so r)
  | Entry (RunDetails r) (inr _) => Some (Widget_for r)
  | Entry (get_children r) (inr _) => Some (Children_of r)
  | Entry (get_output r) (inr out) => Some (Output_of r (fst out) (snd out))
  | Entry (register_model r d tg) (inr _) => Some (Registered r d tg)
  | Entry (model_id r) (inr _) => Some (Model_id_of r)
  | Entry (predict m _) (inr _) => Some (Predicted_with m)
  | _ => None
  end.

Definition handovers (t : trace) : list handover := omap handover_of t.

(** Calls that hand over nothing: imports, plotting, the data set, pandas
    and the per-child queries. *)
Definition quiet_call R (ev : event R) : Prop :=
  match ev with
  | Workspace_from_config | AutoMLConfig _ | Experiment _ _
  | experiment_submit _ _ _ | RunDetails _ | get_children _ | get_output _
  | register_model _ _ _ | model_id _ | predict _ _ => False
  | _ => True
  end.

(** The operation a handover belongs to, if any. *)
Definition operation_of (x : handover) : option operation :=
  match x with
  | Loaded _ => Some Workspace_load
  | Submitted _ _ _ _ => Some Job_submission
  | Children_of _ => Some Metric_retrieval
  | Registered _ _ _ => Some Model_registration
  | Predicted_with _ => Some Prediction
  | _ => None
  end.

(** ** Names in scope *)

(** What the two display loops need bound. *)
Definition display_names (g : env) : Prop :=
  is_Some (g V.plt) /\ is_Some (g V.X_digits) /\ is_Some (g V.y_digits).

(** What the cells before the submission leave bound. *)
Definition ready_to_submit (g : env) : Prop :=
  is_Some (g V.ws) /\ is_Some (g V.experiment_name) /\ is_Some (g V.Automl_config) /\
  is_Some (g V.np) /\ display_names g.

(** ** The exit score *)

(** A call that, if it is the [AutoMLConfig] constructor, carries the
    [exit_score] of the call site. *)
Definition forwards_exit_score R (ev : event R) : Prop :=
  match ev with
  | AutoMLConfig kw => kwarg "exit_score" kw = Some (PFloat exit_score)
  | _ => True
  end.
(** * The script's own operations on small inputs *)

Example int_of_string_plain : int_of_string "17" = Some 17%Z.
Proof. reflexivity. Qed.

Example int_of_string_padded : int_of_string " -1_0 " = Some (-10)%Z.
Proof. reflexivity. Qed.

Example int_of_string_rejects : int_of_string "1__0" = None /\ int_of_string "x" = None
                                /\ int_of_string EmptyString = None.
Proof. by repeat split. Qed.

(** Fullwidth and Arabic-Indic digits, and a no-break space. *)
Example int_of_string_unicode :
  int_of_string "５" = Some 5%Z /\ int_of_string "٣٤" = Some 34%Z
  /\ int_of_string " 7" = Some 7%Z /\ int_of_string "²" = None.
Proof. by repeat split. Qed.

Example dict_setitem_overwrites :
  dict_setitem "a" "3" [("a", "1"); ("b", "2")] = [("a", "3"); ("b", "2")].
Proof. reflexivity. Qed.

Example rows_of_2_3 :
  rows_of 2 3 [1; 2; 3; 4; 5; 6]%float = [[1; 2; 3]; [4; 5; 6]]%float.
Proof. reflexivity. Qed.

Example float_items_drops_int :
  float_items {[ "AUC_weighted" := PFloat 0.5; "iterations" := PInt 3 ]}
  = {[ "AUC_weighted" := PFloat 0.5 ]}.
Proof. by vm_compute. Qed.

Example notebook_completes :
  completed (exec quiet_world [] notebook).1 /\
  length (exec quiet_world [] notebook).2 = 73.
Proof. split; [exact I|reflexivity]. Qed.

(** A handler makes a difference: the same refused call, guarded. *)
Example handler_recovers :
  exec quota_world []
    (Try (call (experiment_submit (ExperimentHandle 0) (ConfigHandle 0) true))
         (fun _ => Ret (RunHandle 7)) Ret)
  = (Done (RunHandle 7),
     [Entry (experiment_submit (ExperimentHandle 0) (ConfigHandle 0) true)
        (inl "quota exhausted")]).
Proof. reflexivity. Qed.

(** * Running programs *)

Lemma exec_bind {A B} (h : world) (p : prog A) (f : A -> prog B) pre :
  exec h pre (bind p f) =
  match exec h pre p with
  | (Done a, t) => let '(o, t') := exec h (pre ++ t) (f a) in (o, t ++ t')
  | (Err e, t) => (Err e, t)
  end.
Proof.
  revert B f pre.
  induction p as [A a|A e|A R ev k IH|A B0 body _ handler _ k IH]; intros B f pre; simpl.
  - rewrite app_nil_r. by destruct (exec h pre (f a)).
  - done.
  - destruct (h R pre ev) as [msg|r]; [done|].
    rewrite IH. destruct (exec h (pre ++ [Entry ev (inr r)]) (k r)) as [[a|e] t]; [|done].
    rewrite <- app_assoc. simpl.
    by destruct (exec h (pre ++ Entry ev (inr r) :: t) (f a)).
  - destruct (exec h pre body) as [[b|e] t].
    + rewrite IH. destruct (exec h (pre ++ t) (k b)) as [[a|e] t']; [|done].
      rewrite <- (app_assoc pre).
      destruct (exec h (pre ++ t ++ t') (f a)). by rewrite app_assoc.
    + destruct (exec h (pre ++ t) (handler e)) as [[b|e'] t1]; [|done].
      rewrite IH. destruct (exec h (pre ++ t ++ t1) (k b)) as [[a|e'] t']; [|done].
      rewrite <- (app_assoc pre), <- (app_assoc t).
      destruct (exec h (pre ++ t ++ t1 ++ t') (f a)). by rewrite !app_assoc.
Qed.

(** ** The namespace *)

Lemma assign_same v x g : assign v x g v = Some x.
Proof. by destruct v. Qed.

Lemma assign_other v v' x g : v <> v' -> assign v x g v' = g v'.
Proof. intros Hne. unfold assign. by destruct (V.eq_dec v v'). Qed.

(** ** Soundness and rules of [sat] *)

Lemma sat_exec {A} E C B Q (p : prog A) h pre o t :
  obeys h C -> sat E C B Q p -> exec h pre p = (o, t) ->
  Forall (on_event E) t /\
  (forall a, o = Done a -> Q a) /\
  (forall e, o = Err e ->
     B e \/ exists msg en, e = Sdk msg /\ last t = Some en /\ raised en = Some msg).
Proof.
  intros Hh. revert Q pre o t.
  induction p as [A a|A e|A R ev k IH|A B0 body _ handler _ k _];
    intros Q pre o t Hs He; simpl in *; [| | |done].
  - inversion He; subst. split; [constructor|]. split; [by intros ? [= <-]|done].
  - inversion He; subst. split; [constructor|]. split; [done|].
    intros ? [= <-]. by left.
  - destruct Hs as [Hev Hk]. destruct (h R pre ev) as [msg|r] eqn:Hr.
    + inversion He; subst. split; [by repeat constructor|]. split; [done|].
      intros ? [= <-]. right. by eexists _, _.
    + destruct (exec h (pre ++ [Entry ev (inr r)]) (k r)) as [o' t'] eqn:Hx.
      inversion He; subst.
      destruct (IH r _ _ _ _ (Hk r (Hh _ _ _ _ Hr)) Hx) as (Ht & Ho & Hb).
      split; [by constructor|]. split; [done|].
      intros e He'. destruct (Hb e He') as [?|(msg & en & -> & Hl & Hm)]; [by left|].
      right. exists msg, en. split; [done|]. split; [|done].
      rewrite last_cons. by rewrite Hl.
Qed.

Lemma obeys_any h : obeys h any_answer.
Proof. by intros R pre ev r _. Qed.

Lemma sat_bind {A A'} E C B (Q : A -> Prop) (Q' : A' -> Prop) (p : prog A) (f : A -> prog A') :
  sat E C B Q p -> (forall a, Q a -> sat E C B Q' (f a)) -> sat E C B Q' (bind p f).
Proof.
  revert Q Q' f.
  induction p as [A a|A e|A R ev k IH|A B0 body _ handler _ k _];
    intros Q Q' f Hp Hf; simpl in *; [auto|done| |done].
  destruct Hp as [Hev Hk]. split; [done|]. intros r Hr. by eapply IH; [apply Hk|].
Qed.

Lemma sat_weaken {A} (E E' : forall R, event R -> Prop)
    (C C' : forall R, event R -> R -> Prop) (B B' : exn -> Prop)
    (Q Q' : A -> Prop) (p : prog A) :
  (forall R ev, E R ev -> E' R ev) -> (forall R ev r, C' R ev r -> C R ev r) ->
  (forall e, B e -> B' e) -> (forall a, Q a -> Q' a) ->
  sat E C B Q p -> sat E' C' B' Q' p.
Proof.
  intros HE HC HB. revert Q Q'.
  induction p as [A a|A e|A R ev k IH|A B0 body _ handler _ k _];
    intros Q Q' HQ; simpl; [auto|auto| |done].
  intros [Hev Hk]. split; [auto|]. intros r Hr. by eapply IH; [|apply Hk, HC].
Qed.

Lemma sat_for {A S} E C B (I : A -> Prop) (J : S -> Prop) (l : list A)
    (body : A -> S -> prog S) st :
  (forall x st, I x -> J st -> sat E C B J (body x st)) ->
  Forall I l -> J st -> sat E C B J (for_ l body st).
Proof.
  intros Hb Hl. revert st. induction Hl as [|x l Hx Hl IH]; intros st Hst; simpl; [done|].
  eapply sat_bind; [by apply Hb|]. intros st' Hst'. by apply IH.
Qed.

Lemma sat_read E C (B : exn -> Prop) v g :
  (g v = None -> B NameError) -> sat E C B (fun x => g v = Some x) (read v g).
Proof. intros H. unfold read. destruct (g v); simpl; auto. Qed.

Lemma sat_call {R} (E : forall R, event R -> Prop) C B (ev : event R) :
  E _ ev -> sat E C B (fun r => C _ ev r) (call ev).
Proof. by split. Qed.

Lemma sat_getitem {A} E C (B : exn -> Prop) (a : list A) i :
  (a !! i = None -> B IndexError) -> sat E C B (fun x => a !! i = Some x) (getitem a i).
Proof. intros H. unfold getitem. destruct (a !! i); simpl; auto. Qed.

Lemma sat_reshape E C (B : exn -> Prop) r c a :
  B ValueError -> sat E C B (fun _ => True) (reshape r c a).
Proof. intros H. unfold reshape. by destruct (Nat.eqb _ _). Qed.

Lemma sat_py_int E C (B : exn -> Prop) s :
  B ValueError -> sat E C B (fun z => int_of_string s = Some z) (py_int s).
Proof. intros H. unfold py_int. by destruct (int_of_string s). Qed.

Lemma sat_dict_getitem {A} E C (B : exn -> Prop) (d : gmap string A) k :
  B KeyError -> sat E C B (fun x => d !! k = Some x) (dict_getitem d k).
Proof. intros H. unfold dict_getitem. by destruct (d !! k). Qed.

Lemma sat_take_rows {A} E C (B : exn -> Prop) (a : list A) idx :
  (Forall (fun s => s < length a) idx \/ B IndexError) ->
  sat E C B (fun rows => Forall2 (fun s row => a !! s = Some row) idx rows) (take_rows a idx).
Proof.
  intros H. induction idx as [|s idx IH]; simpl; [constructor|].
  eapply sat_bind.
  { apply sat_getitem. intros Hn. destruct H as [H|H]; [|done].
    apply Forall_cons in H as [Hs _]. apply lookup_ge_None in Hn. lia. }
  intros x Hx. eapply sat_bind.
  { apply IH. destruct H as [H|H]; [left|by right]. by apply Forall_cons in H as [_ ?]. }
  intros xs Hxs. simpl. by constructor.
Qed.

(** Stepping through a straight-line cell. *)
Ltac env_simpl :=
  repeat first
    [ rewrite assign_same
    | rewrite assign_other by discriminate ].

Ltac env_simpl_in H :=
  repeat first
    [ rewrite assign_same in H
    | rewrite assign_other in H by discriminate ].

Ltac same_read Hx :=
  lazymatch type of Hx with
  | ?g ?v = Some _ =>
      match goal with
      | H : g v = Some _ |- _ =>
          tryif constr_eq H Hx then fail else (rewrite H in Hx; injection Hx as <-)
      end
  end.

Ltac call_ok :=
  try first [ exact I | reflexivity | split; [reflexivity | exact I] ].

Ltac exn_ok :=
  try first [ exact I | intros _; exact I | right; exact I
            | intros _; intro; discriminate | intro; discriminate
            | right; intro; discriminate ].

Ltac intro_fact :=
  let a := fresh "a" in let Ha := fresh "Ha" in
  intros a Ha; cbv beta in Ha.

Ltac sat_step :=
  cbv beta zeta;
  lazymatch goal with
  | |- sat _ _ _ _ (bind (read _ _) _) =>
      eapply sat_bind; [apply sat_read; exn_ok|];
      let x := fresh "x" in let Hx := fresh "Hx" in
      intros x Hx; cbv beta in Hx; env_simpl_in Hx;
      try (injection Hx as <-); try same_read Hx
  | |- sat _ _ _ _ (bind (call _) _) =>
      eapply sat_bind; [apply sat_call; call_ok | intro_fact]
  | |- sat _ _ _ _ (bind (getitem _ _) _) =>
      eapply sat_bind; [apply sat_getitem; exn_ok | intro_fact]
  | |- sat _ _ _ _ (bind (reshape _ _ _) _) =>
      eapply sat_bind; [apply sat_reshape; exn_ok | intros ? _]
  | |- sat _ _ _ _ (bind (dict_getitem _ _) _) =>
      eapply sat_bind; [apply sat_dict_getitem; exn_ok | intro_fact]
  | |- sat _ _ _ _ (bind (py_int _) _) =>
      eapply sat_bind; [apply sat_py_int; exn_ok | intro_fact]
  | |- sat _ _ _ _ (bind (take_rows _ _) _) =>
      eapply sat_bind; [apply sat_take_rows; exn_ok | intro_fact]
  end.

Lemma keeps_arrays_refl g : keeps_arrays g g.
Proof. by split. Qed.

Lemma keeps_arrays_trans g1 g2 g3 :
  keeps_arrays g1 g2 -> keeps_arrays g2 g3 -> keeps_arrays g1 g3.
Proof. unfold keeps_arrays. intuition congruence. Qed.

Lemma sat_for_keeps {A} E (l : list A) (body : A -> env -> prog env) g0 g :
  (forall x st, sat E any_answer own_exn (keeps_arrays st) (body x st)) ->
  keeps_arrays g0 g -> sat E any_answer own_exn (keeps_arrays g0) (for_ l body g).
Proof.
  intros Hb Hg.
  apply sat_for with (I := fun _ => True); [|by apply Forall_true|done].
  intros x st _ Hst.
  eapply sat_weaken; [by eauto|by eauto|by eauto| |apply Hb].
  intros g'. by apply keeps_arrays_trans.
Qed.

Ltac keeps_done :=
  simpl; unfold keeps_arrays in *; env_simpl; intuition congruence.

(** ** The cells one by one: their calls, and the arrays *)

Lemma output_setitem_sat E k v g :
  sat E any_answer own_exn (fun g' => keeps_arrays g g' /\ g' V.ws = g V.ws /\
                   g' V.project_folder = g V.project_folder /\
                   is_Some (g' V.output))
    (output_setitem k v g).
Proof.
  unfold output_setitem. sat_step. simpl. unfold keeps_arrays. env_simpl. eauto.
Qed.

Lemma cell_configure_workspace_sat g :
  sat setup_calls any_answer own_exn (fun _ => True) (cell_configure_workspace g).
Proof.
  unfold cell_configure_workspace.
  repeat first
    [ sat_step
    | cbv beta zeta; eapply sat_bind;
      [ eapply sat_weaken; [ | | | | apply output_setitem_sat]; eauto | intros ? _ ] ].
  done.
Qed.

Lemma cell_imports_sat g :
  sat setup_calls any_answer own_exn (fun _ => True) (cell_imports g).
Proof. unfold cell_imports. repeat sat_step. done. Qed.

Lemma cell_load_data_sat g :
  sat load_calls any_answer own_exn (fun _ => True) (cell_load_data g).
Proof. unfold cell_load_data. repeat sat_step. done. Qed.

Lemma sample_display_body_sat i g :
  sat plot_calls any_answer own_exn (keeps_arrays g) (sample_display_body i g).
Proof. unfold sample_display_body. repeat sat_step. keeps_done. Qed.

Lemma cell_sample_display_sat g :
  sat plot_calls any_answer own_exn (keeps_arrays g) (cell_sample_display g).
Proof.
  unfold cell_sample_display. repeat sat_step.
  eapply sat_bind.
  { apply sat_for_keeps with (g0 := g); [apply sample_display_body_sat|keeps_done]. }
  intros g' Hg'. repeat sat_step. done.
Qed.

Lemma cell_configure_automl_sat g :
  sat config_calls any_answer own_exn (keeps_arrays g) (cell_configure_automl g).
Proof. unfold cell_configure_automl. repeat sat_step. keeps_done. Qed.

Lemma cell_submit_sat g :
  sat submission_calls any_answer own_exn (keeps_arrays g) (cell_submit g).
Proof. unfold cell_submit. repeat sat_step. keeps_done. Qed.

Lemma cell_widget_sat g :
  sat inspection_calls any_answer own_exn (keeps_arrays g) (cell_widget g).
Proof. unfold cell_widget. repeat sat_step. keeps_done. Qed.

Lemma tabulate_body_sat r g :
  sat inspection_calls any_answer own_exn (keeps_arrays g) (tabulate_body r g).
Proof. unfold tabulate_body. repeat sat_step. keeps_done. Qed.

Lemma cell_retrieve_iterations_sat g :
  sat inspection_calls any_answer own_exn (keeps_arrays g) (cell_retrieve_iterations g).
Proof.
  unfold cell_retrieve_iterations. repeat sat_step.
  eapply sat_bind.
  { apply sat_for_keeps with (g0 := g); [apply tabulate_body_sat|keeps_done]. }
  intros g' Hg'. repeat sat_step. keeps_done.
Qed.

Lemma cell_register_model_sat g :
  sat inspection_calls any_answer own_exn (keeps_arrays g) (cell_register_model g).
Proof. unfold cell_register_model. repeat sat_step. keeps_done. Qed.

Lemma prediction_display_body_sat X s g :
  sat (test_calls X) any_answer own_exn (keeps_arrays g) (prediction_display_body s g).
Proof.
  unfold prediction_display_body.
  repeat sat_step. keeps_done.
Qed.

Lemma cell_test_model_sat (X : matrix) (g : env) :
  g V.X_digits = Some X ->
  sat (test_calls X) any_answer own_exn (keeps_arrays g) (cell_test_model g).
Proof.
  intros HX. unfold cell_test_model. repeat sat_step.
  { split; [reflexivity|]. by eexists. }
  eapply sat_bind.
  { apply sat_for_keeps with (g0 := g); [apply prediction_display_body_sat|keeps_done]. }
  intros g' Hg'. repeat sat_step. done.
Qed.

(** ** Sequences of cells *)

Lemma exec_bind_inv {A B} (h : world) (p : prog A) (f : A -> prog B) pre o t :
  exec h pre (bind p f) = (o, t) ->
  (exists e, exec h pre p = (Err e, t) /\ o = Err e) \/
  (exists a t1 t2, exec h pre p = (Done a, t1) /\
                   exec h (pre ++ t1) (f a) = (o, t2) /\ t = t1 ++ t2).
Proof.
  rewrite exec_bind. destruct (exec h pre p) as [[a|e] t1].
  - destruct (exec h (pre ++ t1) (f a)) as [o' t2] eqn:Hf.
    intros [= <- <-]. right. by exists a, t1, t2.
  - intros [= <- <-]. left. by exists e.
Qed.

Lemma seq_cells_sat E cells g :
  (forall c g', c ∈ cells -> sat E any_answer own_exn (keeps_arrays g') (c g')) ->
  sat E any_answer own_exn (keeps_arrays g) (seq_cells cells g).
Proof.
  intros Hc. assert (Hg : keeps_arrays g g) by apply keeps_arrays_refl.
  revert Hg. generalize g at 2 4. induction cells as [|c cells IH]; intros g' Hg'; simpl; [done|].
  eapply sat_bind.
  - eapply sat_weaken; [by eauto|by eauto|by eauto| |apply Hc; by left].
    intros g''. apply keeps_arrays_trans, Hg'.
  - intros g'' Hg''. apply IH; [|done]. intros c' g3 Hin. apply Hc. by right.
Qed.

Lemma cell_test_model_results g :
  sat results_calls any_answer own_exn (keeps_arrays g) (cell_test_model g).
Proof.
  destruct (g V.X_digits) as [X|] eqn:HX.
  - eapply sat_weaken; [| | | |by apply cell_test_model_sat]; [|done|done|done].
    by intros R ev [? _].
  - unfold cell_test_model. sat_step. unfold read. env_simpl. by rewrite HX.
Qed.

Lemma later_cells_keep c g :
  c ∈ later_cells -> sat any_call any_answer own_exn (keeps_arrays g) (c g).
Proof.
  unfold later_cells, inspection_cells. simpl. intros Hin.
  repeat (apply elem_of_cons in Hin as [->|Hin]);
    [eapply sat_weaken; [| | | |apply cell_sample_display_sat]
    |eapply sat_weaken; [| | | |apply cell_configure_automl_sat]
    |eapply sat_weaken; [| | | |apply cell_submit_sat]
    |eapply sat_weaken; [| | | |apply cell_widget_sat]
    |eapply sat_weaken; [| | | |apply cell_retrieve_iterations_sat]
    |eapply sat_weaken; [| | | |apply cell_register_model_sat]
    |eapply sat_weaken; [| | | |apply cell_test_model_results]
    |by apply elem_of_nil in Hin]; done.
Qed.


(** * The claims *)



Lemma sat_handler_free {A} E B Q (p : prog A) :
  sat E any_answer B Q p -> handler_free p.
Proof.
  revert Q. induction p as [A a|A e|A R ev k IH|A B0 body _ handler _ k _];
    intros Q Hs; simpl in *; [done|done| |done].
  intros r. eapply IH. by apply Hs.
Qed.

(** In a program without a [try] statement the log records what the
    world answered, and a call that raised is the last one. *)
Lemma exec_log {A} (h : world) (p : prog A) pre o t :
  handler_free p ->
  exec h pre p = (o, t) ->
  forall j en, t !! j = Some en ->
    answered h (pre ++ take j t) en /\
    forall msg, raised en = Some msg -> o = Err (Sdk msg) /\ length t = S j.
Proof.
  revert pre o t.
  induction p as [A a|A e|A R ev k IH|A B0 body _ handler _ k _];
    intros pre o t Hf He j en Hj; simpl in He; [| | |done].
  - by inversion He; subst.
  - by inversion He; subst.
  - simpl in Hf. destruct (h R pre ev) as [msg|r] eqn:Hh.
    + inversion He; subst. destruct j as [|j]; [|done].
      injection Hj as <-. simpl. rewrite app_nil_r. split; [done|].
      by intros ? [= <-].
    + destruct (exec h (pre ++ [Entry ev (inr r)]) (k r)) as [o' t'] eqn:Hx.
      inversion He; subst. destruct j as [|j].
      * injection Hj as <-. simpl. rewrite app_nil_r. done.
      * simpl in Hj. destruct (IH r _ _ _ (Hf r) Hx j en Hj) as [Ha Hr].
        rewrite <- app_assoc in Ha. split; [done|].
        intros msg Hm. destruct (Hr msg Hm) as [-> Hl]. simpl. by rewrite Hl.
Qed.

Lemma notebook_sat : sat any_call any_answer own_exn (fun _ => True) notebook.
Proof.
  unfold notebook, first_cells. cbn [seq_cells app].
  eapply sat_bind.
  { eapply sat_weaken; [| | | |apply cell_imports_sat]; done. }
  intros g0 _. eapply sat_bind.
  { eapply sat_weaken; [| | | |apply cell_configure_workspace_sat]; done. }
  intros g1 _. eapply sat_bind.
  { eapply sat_weaken; [| | | |apply cell_load_data_sat]; done. }
  intros g2 _. eapply sat_weaken; [| | | |apply seq_cells_sat]; try done.
  intros c g' Hin. by apply later_cells_keep.
Qed.

Lemma notebook_handler_free : handler_free notebook.
Proof. eapply sat_handler_free, notebook_sat. Qed.

(** ** Indices *)

Lemma permutation_in_range (l : list nat) x k :
  l ≡ₚ seq 0 x -> Forall (fun i => i < x) (take k l).
Proof.
  intros Hp. apply Forall_take. rewrite Hp.
  apply Forall_forall. intros i Hi. apply elem_of_seq in Hi. lia.
Qed.







Lemma quiet_world_obeys : obeys quiet_world library_contract.
Proof.
  intros R pre ev r. destruct ev; simpl; try done.
  - by intros [= <-].
  - intros [= <-]. by rewrite repeat_length.
Qed.




(** C1, as the code has it: the data-load cell (after its import of
    [datasets]) binds [X_digits] to the rows of [digits.data] from index
    100 on and [y_digits] to the entries of [digits.target] from index 100
    on, in order: row [i] of [X_digits] is row [100 + i] of [digits.data].
    The first 100 rows and labels are left out. *)
Theorem load_data_from_row_100 (h : world) (pre : trace) (g : env)
    (m : pyobject) (d : Bunch) :
  h _ pre import_datasets = inr m ->
  h _ (pre ++ [Entry import_datasets (inr m)]) datasets_load_digits = inr d ->
  exists g1,
    exec h pre (cell_load_data g)
    = (Done g1, [Entry import_datasets (inr m); Entry datasets_load_digits (inr d)]) /\
    g1 V.X_digits = Some (drop 100 (data d)) /\
    g1 V.y_digits = Some (drop 100 (target d)) /\
    (forall i, drop 100 (data d) !! i = data d !! (100 + i)) /\
    (forall i, drop 100 (target d) !! i = target d !! (100 + i)) /\
    length (drop 100 (data d)) = length (data d) - 100 /\
    length (drop 100 (target d)) = length (target d) - 100.
Proof.
  unfold import_datasets. intros Hm Hd. eexists. split; [|split; [|split]].
  - unfold cell_load_data. simpl. rewrite Hm. simpl. rewrite Hd. simpl. reflexivity.
  - by env_simpl.
  - by env_simpl.
  - repeat split; intros; by rewrite ?lookup_drop, ?length_drop.
Qed.

Lemma load_data_from_row_100_witness :
  exists g1,
    exec world_101 [] (cell_load_data empty_env)
    = (Done g1, [Entry import_datasets (inr (ObjectHandle 0));
                 Entry datasets_load_digits (inr digits_101)]) /\
    g1 V.X_digits = Some (drop 100 (data digits_101)) /\
    g1 V.y_digits = Some (drop 100 (target digits_101)) /\
    (forall i, drop 100 (data digits_101) !! i = data digits_101 !! (100 + i)) /\
    (forall i, drop 100 (target digits_101) !! i = target digits_101 !! (100 + i)) /\
    length (drop 100 (data digits_101)) = length (data digits_101) - 100 /\
    length (drop 100 (target digits_101)) = length (target digits_101) - 100.
Proof.
  apply (load_data_from_row_100 world_101 [] empty_env (ObjectHandle 0) digits_101);
    reflexivity.
Defined.

(** C1 as stated fails: with 101 images of which only the first is
    labelled 7, the label 7 is in [digits.target] but not in [y_digits]. *)
Lemma load_data_not_in_full :
  exists g1,
    (exec world_101 [] (cell_load_data empty_env)).1 = Done g1 /\
    ~ loaded_in_full digits_101 g1.
Proof.
  eexists. split; [reflexivity|].
  intros (X & y & _ & Hy & _ & Hl). env_simpl_in Hy. injection Hy as <-.
  specialize (Hl 7%Z). simpl in Hl.
  assert (Hin : 7%Z ∈ [0%Z]) by (apply Hl; left).
  apply list_elem_of_singleton in Hin. discriminate.
Qed.

(** C2, as the code has it: the configuration cell imports the
    [AutoMLConfig] constructor and makes one call, to that constructor,
    and hands it the eight settings with the values written in the cell,
    unchanged, together with three more keyword arguments: [X] and [y],
    the two arrays as they are bound, and [path], the project folder as
    it is bound. *)
#[warnings="-inexact-float"]
Theorem automl_config_receives (h : world) (pre : trace) (g : env)
    (X : matrix) (y : list Z) (pf : string) :
  g V.X_digits = Some X -> g V.y_digits = Some y -> g V.project_folder = Some pf ->
  let kwargs :=
    [ ("task", PStr "classification");
      ("primary_metric", PStr "AUC_weighted");
      ("max_time_sec", PInt 12000);
      ("iterations", PInt 20);
      ("n_cross_validations", PInt 3);
      ("preprocess", PBool false);
      ("exit_score", PFloat 0.9985%float);
      ("blacklist_algos", PList [PStr "kNN"; PStr "LinearSVM"]);
      ("X", PArray2 X);
      ("y", PArray1 y);
      ("path", PStr pf) ] in
  exec h pre (cell_configure_automl g) =
  match h _ pre import_AutoMLConfig with
  | inl msg => (Err (Sdk msg), [Entry import_AutoMLConfig (inl msg)])
  | inr m =>
      match h _ (pre ++ [Entry import_AutoMLConfig (inr m)]) (AutoMLConfig kwargs) with
      | inl msg =>
          (Err (Sdk msg),
           [Entry import_AutoMLConfig (inr m); Entry (AutoMLConfig kwargs) (inl msg)])
      | inr c =>
          (Done (assign V.Automl_config c (assign V.AutoMLConfig m g)),
           [Entry import_AutoMLConfig (inr m); Entry (AutoMLConfig kwargs) (inr c)])
      end
  end.
Proof.
  intros HX Hy Hpf kwargs. unfold cell_configure_automl, import_AutoMLConfig.
  simpl. destruct (h pyobject pre _) as [msg|m]; [done|].
  unfold read. env_simpl. rewrite HX, Hy, Hpf. simpl.
  change (automl_kwargs X y pf) with kwargs.
  by destruct (h automl_config _ (AutoMLConfig kwargs)).
Qed.

#[warnings="-inexact-float"]
Lemma automl_config_receives_witness :
  let kwargs :=
    [ ("task", PStr "classification");
      ("primary_metric", PStr "AUC_weighted");
      ("max_time_sec", PInt 12000);
      ("iterations", PInt 20);
      ("n_cross_validations", PInt 3);
      ("preprocess", PBool false);
      ("exit_score", PFloat 0.9985%float);
      ("blacklist_algos", PList [PStr "kNN"; PStr "LinearSVM"]);
      ("X", PArray2 (data (blank_digits 3)));
      ("y", PArray1 (target (blank_digits 3)));
      ("path", PStr "./automl-classifier") ] in
  exec quiet_world [] (cell_configure_automl loaded_env) =
  match quiet_world _ [] import_AutoMLConfig with
  | inl msg => (Err (Sdk msg), [Entry import_AutoMLConfig (inl msg)])
  | inr m =>
      match quiet_world _ [Entry import_AutoMLConfig (inr m)] (AutoMLConfig kwargs) with
      | inl msg =>
          (Err (Sdk msg),
           [Entry import_AutoMLConfig (inr m); Entry (AutoMLConfig kwargs) (inl msg)])
      | inr c =>
          (Done (assign V.Automl_config c (assign V.AutoMLConfig m loaded_env)),
           [Entry import_AutoMLConfig (inr m); Entry (AutoMLConfig kwargs) (inr c)])
      end
  end.
Proof.
  apply (automl_config_receives quiet_world [] loaded_env
           (data (blank_digits 3)) (target (blank_digits 3)) "./automl-classifier");
    reflexivity.
Defined.

(** C2 as stated fails: the constructor does not receive exactly the
    eight fields, the call of a run of the notebook carries eleven
    keywords. *)
Lemma automl_config_not_only_the_eight_fields :
  exists kw,
    config_kwargs (exec quiet_world [] notebook).2 = [kw] /\
    kw.*1 <> configuration_fields /\
    kw.*1 = configuration_fields ++ ["X"; "y"; "path"].
Proof.
  exists (automl_kwargs (data (blank_digits 3)) (target (blank_digits 3))
            "./automl-classifier").
  split; [vm_compute; reflexivity|]. split; [|reflexivity].
  intros H. apply (f_equal length) in H. discriminate H.
Qed.

(** ** The results table *)

Lemma float_items_lookup (m : gmap string pyval) k v :
  float_items m !! k = Some v <-> m !! k = Some v /\ isinstance_float v = true.
Proof. unfold float_items. by rewrite map_lookup_filter_Some. Qed.

Section Table.
Variable props_of : run_t -> gmap string string.
Variable metrics_of : run_t -> gmap string pyval.

Local Abbreviation after := (table_after props_of metrics_of).

Lemma table_after_other tbl0 ch tbl k :
  after tbl0 ch tbl ->
  (forall r, r ∈ ch -> iteration_of (props_of r) <> Some k) ->
  tbl !! k = tbl0 !! k.
Proof.
  revert tbl0. induction ch as [|r ch IH]; intros tbl0 Ha Hne; simpl in Ha.
  - by subst.
  - destruct Ha as (k' & Hk' & Ha).
    rewrite (IH _ Ha); [|intros r' Hr'; apply Hne; by right].
    apply lookup_insert_ne. intros ->. by apply (Hne r); [left|].
Qed.

Lemma table_after_last tbl0 ch tbl j r :
  after tbl0 ch tbl -> ch !! j = Some r ->
  exists k, iteration_of (props_of r) = Some k /\
    ((forall j' r', j < j' -> ch !! j' = Some r' ->
                    iteration_of (props_of r') <> Some k) ->
     tbl !! k = Some (float_items (metrics_of r))).
Proof.
  revert tbl0 j. induction ch as [|r0 ch IH]; intros tbl0 j Ha Hj; [done|].
  simpl in Ha. destruct Ha as (k0 & Hk0 & Ha). destruct j as [|j].
  - injection Hj as ->. exists k0. split; [done|]. intros Hlater.
    rewrite (table_after_other _ _ _ k0 Ha).
    + apply lookup_insert_eq.
    + intros r' Hr'. apply list_elem_of_lookup in Hr' as [j' Hj'].
      apply (Hlater (S j') r'); [lia|done].
  - destruct (IH _ j Ha Hj) as (k & Hk & Hlast). exists k. split; [done|].
    intros Hlater. apply Hlast. intros j' r' Hlt Hj'.
    apply (Hlater (S j') r'); [lia|done].
Qed.

Lemma table_after_keys tbl0 ch tbl k m :
  after tbl0 ch tbl -> tbl !! k = Some m ->
  tbl0 !! k = Some m \/
  exists r, r ∈ ch /\ iteration_of (props_of r) = Some k /\
            m = float_items (metrics_of r).
Proof.
  revert tbl0. induction ch as [|r ch IH]; intros tbl0 Ha Hm; simpl in Ha.
  - subst. by left.
  - destruct Ha as (k' & Hk' & Ha). destruct (IH _ Ha Hm) as [H0|(r' & Hr' & Hk & ->)].
    + destruct (decide (k' = k)) as [->|Hne].
      * rewrite lookup_insert_eq in H0. injection H0 as <-.
        right. exists r. split; [by left|done].
      * rewrite lookup_insert_ne in H0 by done. by left.
    + right. exists r'. split; [by right|done].
Qed.

Variables (lr : run_t) (children : list run_t).

Local Abbreviation C := (history_contract lr children props_of metrics_of).

Lemma tabulate_body_table r (g : env) tbl0 :
  g V.metricslist = Some tbl0 ->
  sat any_call C own_exn
    (fun g' : env => exists k, iteration_of (props_of r) = Some k /\
               g' V.metricslist = Some (<[k := float_items (metrics_of r)]> tbl0))
    (tabulate_body r g).
Proof.
  intros Htbl. unfold tabulate_body. repeat sat_step.
  simpl in *. subst. eexists. split; [|by env_simpl].
  unfold iteration_of. by rewrite Ha1.
Qed.

Lemma tabulate_loop_table ch (g : env) tbl0 :
  g V.metricslist = Some tbl0 ->
  sat any_call C own_exn
    (fun g' : env => exists tbl, g' V.metricslist = Some tbl /\ after tbl0 ch tbl)
    (for_ ch tabulate_body g).
Proof.
  revert g tbl0. induction ch as [|r ch IH]; intros g tbl0 Htbl; cbn [for_].
  - by exists tbl0.
  - eapply sat_bind; [by apply tabulate_body_table|].
    intros g' (k & Hk & Hg'). eapply sat_weaken; [| | | |by apply IH]; try done.
    intros g'' (tbl & Htbl' & Ha). exists tbl. split; [done|]. by exists k.
Qed.

Lemma cell_retrieve_iterations_table (g : env) :
  g V.local_run = Some lr ->
  sat any_call C own_exn
    (fun g' : env => exists tbl, g' V.metricslist = Some tbl /\ after ∅ children tbl)
    (cell_retrieve_iterations g).
Proof.
  intros Hlr. unfold cell_retrieve_iterations. repeat sat_step.
  simpl in Ha. rewrite (Ha eq_refl).
  eapply sat_bind; [apply tabulate_loop_table; by env_simpl|].
  intros g' (tbl & Htbl & Hafter). repeat sat_step.
  simpl. exists tbl. split; [|done]. env_simpl. done.
Qed.
End Table.

(** C3, as the code has it: when the tabulation cell completes, every key
    of the results table is the integer value of the [iteration] property
    of some child run and its entry is that run's metrics restricted to
    the float-valued ones (a float-valued metric is kept unchanged, any
    other is dropped).  Every child run has such an integer value, and the
    table maps it to that run's restricted metrics provided no later child
    run carries the same iteration number: the table is filled by
    assignment, so among runs with the same number the last one stays. *)
Theorem results_table_from_children (h : world) (pre : trace) (g g' : env) (t : trace)
    (lr : run_t) (ch : list run_t)
    (props_of : run_t -> gmap string string)
    (metrics_of : run_t -> gmap string pyval) :
  obeys h (history_contract lr ch props_of metrics_of) ->
  g V.local_run = Some lr ->
  exec h pre (cell_retrieve_iterations g) = (Done g', t) ->
  exists tbl,
    g' V.metricslist = Some tbl /\
    (forall j r, ch !! j = Some r ->
       exists k, iteration_of (props_of r) = Some k /\
         ((forall j' r', j < j' -> ch !! j' = Some r' ->
                         iteration_of (props_of r') <> Some k) ->
          tbl !! k = Some (float_items (metrics_of r)))) /\
    (forall k m, tbl !! k = Some m ->
       exists r, r ∈ ch /\ iteration_of (props_of r) = Some k /\
                 m = float_items (metrics_of r)) /\
    (forall r metric v,
       float_items (metrics_of r) !! metric = Some v <->
       metrics_of r !! metric = Some v /\ isinstance_float v = true).
Proof.
  intros Hh Hlr He.
  eapply sat_exec in He as (_ & Hq & _);
    [|done|by apply (cell_retrieve_iterations_table props_of metrics_of lr ch)].
  destruct (Hq g' eq_refl) as (tbl & Htbl & Hafter).
  exists tbl. split; [done|]. split; [|split].
  - intros j r Hj. by eapply table_after_last.
  - intros k m Hm.
    destruct (table_after_keys _ _ _ _ _ _ _ Hafter Hm) as [H0|H1]; [|done].
    by rewrite lookup_empty in H0.
  - intros r metric v. apply float_items_lookup.
Qed.

Lemma quiet_world_history :
  obeys quiet_world
    (history_contract (RunHandle 0) [RunHandle 1; RunHandle 2] quiet_props quiet_metrics).
Proof. intros R pre ev r. destruct ev; simpl; try done; by intros [= <-]. Qed.

Lemma results_table_from_children_witness :
  exists tbl,
    env_of (exec quiet_world [] (cell_retrieve_iterations submitted_env)).1
      V.metricslist = Some tbl /\
    (forall j r, [RunHandle 1; RunHandle 2] !! j = Some r ->
       exists k, iteration_of (quiet_props r) = Some k /\
         ((forall j' r', j < j' -> [RunHandle 1; RunHandle 2] !! j' = Some r' ->
                         iteration_of (quiet_props r') <> Some k) ->
          tbl !! k = Some (float_items (quiet_metrics r)))) /\
    (forall k m, tbl !! k = Some m ->
       exists r, r ∈ [RunHandle 1; RunHandle 2] /\ iteration_of (quiet_props r) = Some k /\
                 m = float_items (quiet_metrics r)) /\
    (forall r metric v,
       float_items (quiet_metrics r) !! metric = Some v <->
       quiet_metrics r !! metric = Some v /\ isinstance_float v = true).
Proof.
  apply (results_table_from_children quiet_world [] submitted_env
           (env_of (exec quiet_world [] (cell_retrieve_iterations submitted_env)).1)
           (exec quiet_world [] (cell_retrieve_iterations submitted_env)).2
           (RunHandle 0) [RunHandle 1; RunHandle 2] quiet_props quiet_metrics).
  - exact quiet_world_history.
  - reflexivity.
  - reflexivity.
Defined.

(** C3 as stated fails when two child runs carry the same iteration
    number: both runs below have iteration 0, and the table maps 0 to the
    metrics of the second, not to those of the first. *)
Lemma results_table_last_run_wins :
  exists g' tbl,
    (exec duplicate_world [] (cell_retrieve_iterations submitted_env)).1 = Done g' /\
    g' V.metricslist = Some tbl /\
    iteration_of {[ "iteration" := "0" ]} = Some 0%Z /\
    tbl !! 0%Z = Some (float_items second_metrics) /\
    tbl !! 0%Z <> Some (float_items first_metrics).
Proof.
  pose (tbl_accuracy := fun o : option (gmap string pyval) =>
          o ≫= fun m => isinstance_float <$> m !! "accuracy").
  exists (env_of (exec duplicate_world [] (cell_retrieve_iterations submitted_env)).1),
    (<[0%Z := float_items second_metrics]> ∅).
  split; [reflexivity|].
  split; [vm_compute; reflexivity|].
  split; [vm_compute; reflexivity|].
  split; [vm_compute; reflexivity|].
  intros H.
  assert (Hacc : tbl_accuracy (<[0%Z := float_items second_metrics]> ∅ !! 0%Z)
                 = tbl_accuracy (Some (float_items first_metrics))) by (by rewrite H).
  vm_compute in Hacc. discriminate Hacc.
Qed.

(** ** Completed runs, step by step *)

Lemma exec_bind_Done {A A'} (h : world) (p : prog A) (f : A -> prog A') pre b t :
  exec h pre (bind p f) = (Done b, t) ->
  exists a t1 t2, exec h pre p = (Done a, t1) /\
                  exec h (pre ++ t1) (f a) = (Done b, t2) /\ t = t1 ++ t2.
Proof.
  intros He. apply exec_bind_inv in He as [(e & _ & ?)|H]; [done|exact H].
Qed.

Lemma exec_Ret_Done {A} (h : world) pre (a b : A) t :
  exec h pre (Ret a) = (Done b, t) -> a = b /\ t = [].
Proof. by intros [= -> <-]. Qed.

Lemma exec_read_Done (h : world) pre v (g : env) x t :
  exec h pre (read v g) = (Done x, t) -> g v = Some x /\ t = [].
Proof. unfold read. destruct (g v); simpl; [by intros [= -> <-]|done]. Qed.

Lemma exec_call_Done {R} (h : world) pre (ev : event R) r t :
  exec h pre (call ev) = (Done r, t) ->
  h _ pre ev = inr r /\ t = [Entry ev (inr r)].
Proof.
  unfold call. simpl. destruct (h R pre ev) as [msg|r']; [done|].
  by intros [= -> <-].
Qed.

Lemma exec_getitem_Done {A} (h : world) pre (a : list A) i x t :
  exec h pre (getitem a i) = (Done x, t) -> a !! i = Some x /\ t = [].
Proof. unfold getitem. destruct (a !! i); simpl; [by intros [= -> <-]|done]. Qed.

Lemma exec_reshape_Done (h : world) pre r c a m t :
  exec h pre (reshape r c a) = (Done m, t) -> t = [].
Proof. unfold reshape. destruct (Nat.eqb _ _); simpl; [by intros [= _ <-]|done]. Qed.

Lemma exec_take_rows_Done {A} (h : world) pre (a : list A) idx rows t :
  exec h pre (take_rows a idx) = (Done rows, t) ->
  Forall2 (fun s row => a !! s = Some row) idx rows /\ t = [].
Proof.
  revert pre rows t. induction idx as [|s idx IH]; intros pre rows t He; simpl in He.
  - injection He as <- <-. by split; [constructor|].
  - apply exec_bind_Done in He as (x & t1 & t2 & Hx & He & ->).
    apply exec_getitem_Done in Hx as [Hx ->].
    apply exec_bind_Done in He as (xs & t1 & t3 & Hxs & He & ->).
    apply IH in Hxs as [Hxs ->]. injection He as <- <-.
    split; [by constructor|done].
Qed.

Ltac exec_step He :=
  cbv beta zeta in He;
  lazymatch type of He with
  | exec _ _ (bind (read _ _) _) = (Done _, _) =>
      let x := fresh "x" in let Hx := fresh "Hx" in
      apply exec_bind_Done in He as (x & ? & ? & Hx & He & ->);
      apply exec_read_Done in Hx as [Hx ->];
      env_simpl_in Hx; try (injection Hx as <-); try same_read Hx
  | exec _ _ (bind (call _) _) = (Done _, _) =>
      let r := fresh "r" in let Hr := fresh "Hr" in
      apply exec_bind_Done in He as (r & ? & ? & Hr & He & ->);
      apply exec_call_Done in Hr as [Hr ->]
  | exec _ _ (bind (getitem _ _) _) = (Done _, _) =>
      let x := fresh "x" in let Hx := fresh "Hx" in
      apply exec_bind_Done in He as (x & ? & ? & Hx & He & ->);
      apply exec_getitem_Done in Hx as [Hx ->]
  | exec _ _ (bind (reshape _ _ _) _) = (Done _, _) =>
      let x := fresh "x" in let Hx := fresh "Hx" in
      apply exec_bind_Done in He as (x & ? & ? & Hx & He & ->);
      apply exec_reshape_Done in Hx as ->
  | exec _ _ (bind (take_rows _ _) _) = (Done _, _) =>
      let x := fresh "x" in let Hx := fresh "Hx" in
      apply exec_bind_Done in He as (x & ? & ? & Hx & He & ->);
      apply exec_take_rows_Done in Hx as [Hx ->]
  | exec _ _ (Ret _) = (Done _, _) =>
      apply exec_Ret_Done in He as [<- ->]
  end.

(** ** Rendering attributes *)

Lemma text_colors_app t1 t2 : text_colors (t1 ++ t2) = text_colors t1 ++ text_colors t2.
Proof. apply omap_app. Qed.

Lemma colormaps_app t1 t2 : colormaps (t1 ++ t2) = colormaps t1 ++ colormaps t2.
Proof. apply omap_app. Qed.

Lemma prediction_display_body_attrs (h : world) pre s (g g' : env) t
    (X : matrix) (y res : list Z) i :
  display_state X y res i g ->
  exec h pre (prediction_display_body s g) = (Done g', t) ->
  exists ys ri,
    y !! s = Some ys /\ res !! i = Some ri /\
    text_colors t = [highlight_color (negb (Z.eqb ys ri))] /\
    colormaps t = [highlight_cmap (negb (Z.eqb ys ri))] /\
    display_state X y res (S i) g' /\
    g' V.sample_indices = g V.sample_indices.
Proof.
  intros (HX & Hy & Hres & Hi) He. unfold prediction_display_body in He.
  repeat exec_step He. simplify_eq.
  eexists _, _. split; [done|]. split; [done|].
  split; [|split; [|split]].
  - simpl. unfold highlight_color, font_color_of. by destruct (negb _).
  - simpl. unfold highlight_cmap, clr_map_of. by destruct (negb _).
  - unfold display_state. env_simpl. by rewrite Nat.add_1_r.
  - by env_simpl.
Qed.

Lemma prediction_display_loop_attrs (h : world) (X : matrix) (y res : list Z) idx :
  forall pre i (g g' : env) t,
    display_state X y res i g ->
    exec h pre (for_ idx prediction_display_body g) = (Done g', t) ->
    text_colors t = map highlight_color (misclassified y res i idx) /\
    colormaps t = map highlight_cmap (misclassified y res i idx) /\
    length (misclassified y res i idx) = length idx /\
    g' V.y_digits = Some y /\ g' V.result = Some res /\
    g' V.sample_indices = g V.sample_indices.
Proof.
  induction idx as [|s idx IH]; intros pre i g g' t Hst He; cbn [for_] in He.
  - apply exec_Ret_Done in He as [<- ->]. destruct Hst as (_ & Hy & Hres & _). done.
  - apply exec_bind_Done in He as (g1 & t1 & t2 & Hb & He & ->).
    destruct (prediction_display_body_attrs _ _ _ _ _ _ _ _ _ _ Hst Hb)
      as (ys & ri & Hys & Hri & Hc & Hm & Hst1 & Hsi).
    destruct (IH _ _ _ _ _ Hst1 He) as (Hc2 & Hm2 & Hlen & Hy' & Hres' & Hsi').
    rewrite text_colors_app, colormaps_app, Hc, Hm, Hc2, Hm2.
    simpl. rewrite Hys, Hri. simpl. rewrite Hlen, Hsi', Hsi. done.
Qed.

Lemma cell_test_model_attrs (h : world) pre (g g' : env) t (y : list Z) :
  g V.y_digits = Some y ->
  exec h pre (cell_test_model g) = (Done g', t) ->
  exists idx res,
    g' V.sample_indices = Some idx /\ g' V.result = Some res /\
    text_colors t = map highlight_color (misclassified y res 0 idx) /\
    colormaps t = map highlight_cmap (misclassified y res 0 idx) /\
    length (misclassified y res 0 idx) = length idx.
Proof.
  intros Hy He. unfold cell_test_model in He. repeat exec_step He.
  apply exec_bind_Done in He as (g1 & t1 & t2 & Hloop & He & ->).
  repeat exec_step He.
  eapply prediction_display_loop_attrs in Hloop
    as (Hc & Hm & Hlen & Hy' & Hres' & Hsi);
    [|unfold display_state; env_simpl; done].
  env_simpl_in Hsi.
  eexists _, _. split; [done|]. split; [done|].
  rewrite !text_colors_app, !colormaps_app, Hc, Hm. simpl.
  rewrite !app_nil_r. done.
Qed.

Lemma plain_rendering_attrs t :
  Forall (on_event plain_rendering) t ->
  Forall (eq None) (text_colors t) /\ Forall (eq Greys) (colormaps t).
Proof.
  induction 1 as [|[R ev res] t Hev _ [IHc IHm]]; [by split; constructor|].
  unfold text_colors, colormaps in *.
  destruct ev; simpl in *; try done; subst; split; by try constructor.
Qed.

Lemma sample_display_body_plain i g :
  sat plain_rendering any_answer own_exn (fun _ => True) (sample_display_body i g).
Proof. unfold sample_display_body. repeat sat_step. done. Qed.

Lemma cell_sample_display_plain g :
  sat plain_rendering any_answer own_exn (fun _ => True) (cell_sample_display g).
Proof.
  unfold cell_sample_display. repeat sat_step.
  eapply sat_bind.
  { apply sat_for with (I := fun _ => True) (J := fun _ => True);
      [intros; apply sample_display_body_plain|by apply Forall_true|done]. }
  intros g' _. repeat sat_step. done.
Qed.

(** C4, as the code has it: the sample display loop does not branch, it
    passes no text colour and always the [Greys] colormap.  The prediction
    display loop does branch, on [y_digits[s] != result[i]]: red text and
    the [gray] colormap where the prediction is wrong, black text and
    [Greys] where it is right.  So two runs on the same arrays render
    with the same colours and colormaps whenever they agree on which of
    the drawn samples are misclassified. *)
Theorem display_attributes (h1 h2 : world) (pre1 pre2 : trace) (g g1 g2 : env)
    (t1 t2 : trace) (y : list Z) :
  g V.y_digits = Some y ->
  exec h1 pre1 (cell_test_model g) = (Done g1, t1) ->
  exec h2 pre2 (cell_test_model g) = (Done g2, t2) ->
  (Forall (eq None) (text_colors (exec h1 pre1 (cell_sample_display g)).2) /\
   Forall (eq Greys) (colormaps (exec h1 pre1 (cell_sample_display g)).2)) /\
  exists idx1 res1 idx2 res2,
    g1 V.sample_indices = Some idx1 /\ g1 V.result = Some res1 /\
    g2 V.sample_indices = Some idx2 /\ g2 V.result = Some res2 /\
    text_colors t1 = map highlight_color (misclassified y res1 0 idx1) /\
    colormaps t1 = map highlight_cmap (misclassified y res1 0 idx1) /\
    text_colors t2 = map highlight_color (misclassified y res2 0 idx2) /\
    colormaps t2 = map highlight_cmap (misclassified y res2 0 idx2) /\
    (misclassified y res1 0 idx1 = misclassified y res2 0 idx2 ->
     text_colors t1 = text_colors t2 /\ colormaps t1 = colormaps t2).
Proof.
  intros Hy He1 He2. split.
  - destruct (exec h1 pre1 (cell_sample_display g)) as [o t] eqn:He.
    eapply sat_exec in He as (Ht & _); [|apply obeys_any|apply cell_sample_display_plain].
    by apply plain_rendering_attrs.
  - destruct (cell_test_model_attrs _ _ _ _ _ _ Hy He1) as (idx1 & res1 & ? & ? & Hc1 & Hm1 & _).
    destruct (cell_test_model_attrs _ _ _ _ _ _ Hy He2) as (idx2 & res2 & ? & ? & Hc2 & Hm2 & _).
    exists idx1, res1, idx2, res2. repeat (split; [done|]).
    intros Heq. by rewrite Hc1, Hc2, Hm1, Hm2, Heq.
Qed.

Lemma display_attributes_witness :
  let r1 := exec (world_answering 4) [] (cell_test_model trained_env) in
  let r2 := exec (world_answering 3) [] (cell_test_model trained_env) in
  let y := target (blank_digits 3) in
  (Forall (eq None)
     (text_colors (exec (world_answering 4) [] (cell_sample_display trained_env)).2) /\
   Forall (eq Greys)
     (colormaps (exec (world_answering 4) [] (cell_sample_display trained_env)).2)) /\
  exists idx1 res1 idx2 res2,
    env_of r1.1 V.sample_indices = Some idx1 /\ env_of r1.1 V.result = Some res1 /\
    env_of r2.1 V.sample_indices = Some idx2 /\ env_of r2.1 V.result = Some res2 /\
    text_colors r1.2 = map highlight_color (misclassified y res1 0 idx1) /\
    colormaps r1.2 = map highlight_cmap (misclassified y res1 0 idx1) /\
    text_colors r2.2 = map highlight_color (misclassified y res2 0 idx2) /\
    colormaps r2.2 = map highlight_cmap (misclassified y res2 0 idx2) /\
    (misclassified y res1 0 idx1 = misclassified y res2 0 idx2 ->
     text_colors r1.2 = text_colors r2.2 /\ colormaps r1.2 = colormaps r2.2).
Proof.
  intros r1 r2 y.
  apply (display_attributes (world_answering 4) (world_answering 3) [] []
           trained_env (env_of r1.1) (env_of r2.1) r1.2 r2.2 y).
  - reflexivity.
  - reflexivity.
  - reflexivity.
Defined.

(** C4 as stated fails: two runs of the notebook that differ only in the
    labels the model predicts (5, the true label, in one; 4 in the other)
    render with different text colours and different colormaps. *)
Lemma prediction_display_depends_on_predictions :
  let t1 := (exec (world_answering 5) [] notebook).2 in
  let t2 := (exec (world_answering 4) [] notebook).2 in
  text_colors t1 <> text_colors t2 /\ colormaps t1 <> colormaps t2.
Proof.
  intros t1 t2. split; intros H; vm_compute in H; discriminate H.
Qed.

(** ** The notebook as a whole *)

Lemma exec_seq_cells_app (h : world) cs1 cs2 (g : env) pre o t :
  exec h pre (seq_cells (cs1 ++ cs2) g) = (o, t) ->
  (exists e, exec h pre (seq_cells cs1 g) = (Err e, t) /\ o = Err e) \/
  (exists g1 t1 t2, exec h pre (seq_cells cs1 g) = (Done g1, t1) /\
                    exec h (pre ++ t1) (seq_cells cs2 g1) = (o, t2) /\ t = t1 ++ t2).
Proof.
  revert g pre o t. induction cs1 as [|c cs1 IH]; intros g pre o t He.
  - right. exists g, [], t. simpl. by rewrite app_nil_r.
  - cbn [app seq_cells] in *. apply exec_bind_inv in He as [(e & Hc & ->)|H].
    + left. exists e. split; [|done]. rewrite exec_bind. by rewrite Hc.
    + destruct H as (g1 & t1 & t2 & Hc & He & ->).
      rewrite exec_bind, Hc.
      apply IH in He as [(e & Hs & ->)|(g2 & t3 & t4 & Hs & He & ->)].
      * left. exists e. by rewrite Hs.
      * right. exists g2, (t1 ++ t3), t4. rewrite Hs.
        by rewrite !app_assoc.
Qed.

Lemma exec_cell_load_data (h : world) pre (g g' : env) t :
  exec h pre (cell_load_data g) = (Done g', t) ->
  exists m d,
    t = [Entry import_datasets (inr m); Entry datasets_load_digits (inr d)] /\
    g' V.X_digits = Some (drop 100 (data d)) /\
    g' V.y_digits = Some (drop 100 (target d)).
Proof.
  intros He. unfold cell_load_data in He. repeat exec_step He.
  eexists _, _. split; [reflexivity|]. by env_simpl.
Qed.

Lemma middle_cells_sat c g :
  c ∈ middle_cells -> sat no_predict any_answer own_exn (keeps_arrays g) (c g).
Proof.
  unfold middle_cells, inspection_cells. simpl. intros Hin.
  repeat (apply elem_of_cons in Hin as [->|Hin]);
    [eapply sat_weaken; [| | | |apply cell_sample_display_sat]
    |eapply sat_weaken; [| | | |apply cell_configure_automl_sat]
    |eapply sat_weaken; [| | | |apply cell_submit_sat]
    |eapply sat_weaken; [| | | |apply cell_widget_sat]
    |eapply sat_weaken; [| | | |apply cell_retrieve_iterations_sat]
    |eapply sat_weaken; [| | | |apply cell_register_model_sat]
    |by apply elem_of_nil in Hin]; try done;
    intros R ev; by destruct ev.
Qed.

Lemma no_predict_entry (t : trace) (m : model_t) samples (res : string + list Z)
    (E : forall R, event R -> Prop) :
  Forall (on_event E) t -> (forall R ev, E R ev -> is_predict ev = false) ->
  Entry (predict m samples) res ∈ t -> False.
Proof.
  intros Ht HE Hin. rewrite Forall_forall in Ht.
  apply Ht in Hin. simpl in Hin. apply HE in Hin. done.
Qed.

Ltac no_predict_in Ht :=
  exfalso; eapply no_predict_entry; [exact Ht| |eassumption];
  intros ? ev; by destruct ev.

(** C8: whatever the world answers, every [predict] call of a run of the
    notebook is made on rows of the training array: there is a list of
    indices into [X_digits], one per sample, such that the sample is the
    row of [digits.data] at 100 plus that index.  No row at an index below
    100 of the loaded data set, the rows set aside for testing, is passed
    to the model. *)
Theorem predictions_on_training_rows (h : world) (o : outcome env) (t : trace)
    (j : nat) (m : model_t) (samples : matrix) (res : string + list Z) :
  exec h [] notebook = (o, t) ->
  t !! j = Some (Entry (predict m samples) res) ->
  exists d idx,
    Entry datasets_load_digits (inr d) ∈ t /\
    Forall2 (fun s row => drop 100 (data d) !! s = Some row /\
                          data d !! (100 + s) = Some row) idx samples.
Proof.
  intros He Hin. apply list_elem_of_lookup_2 in Hin.
  unfold notebook, first_cells in He. cbn [seq_cells app] in He.
  apply exec_bind_inv in He as [(e & H0 & ->)|(g0 & t0 & r0 & H0 & He & ->)];
    (eapply sat_exec in H0 as (Ht0 & _); [|apply obeys_any|apply cell_imports_sat]).
  { no_predict_in Ht0. }
  apply elem_of_app in Hin as [Hin|Hin]; [no_predict_in Ht0|].
  apply exec_bind_inv in He as [(e & H1 & ->)|(g1 & t1 & r1 & H1 & He & ->)];
    (eapply sat_exec in H1 as (Ht1 & _);
     [|apply obeys_any|apply cell_configure_workspace_sat]).
  { no_predict_in Ht1. }
  apply elem_of_app in Hin as [Hin|Hin]; [no_predict_in Ht1|].
  apply exec_bind_inv in He as [(e & H2 & ->)|(g2 & t2 & r2 & H2 & He & ->)].
  { eapply sat_exec in H2 as (Ht2 & _); [|apply obeys_any|apply cell_load_data_sat].
    no_predict_in Ht2. }
  pose proof H2 as Ht2.
  eapply sat_exec in Ht2 as (Ht2 & _); [|apply obeys_any|apply cell_load_data_sat].
  apply elem_of_app in Hin as [Hin|Hin]; [no_predict_in Ht2|].
  apply exec_cell_load_data in H2 as (m0 & d & -> & HX & Hy).
  change later_cells with (middle_cells ++ [cell_test_model]) in He.
  exists d.
  assert (Hd : forall t3, Entry datasets_load_digits (inr d) ∈
                 t0 ++ t1 ++ [Entry import_datasets (inr m0);
                              Entry datasets_load_digits (inr d)] ++ t3).
  { intros t3. rewrite !elem_of_app, !elem_of_cons. tauto. }
  apply exec_seq_cells_app in He as [(e & Hm & ->)|(g8 & tm & t9 & Hm & He & ->)].
  { eapply sat_exec in Hm as (Htm & _);
      [|apply obeys_any|apply seq_cells_sat; intros; by apply middle_cells_sat].
    exfalso. eapply (no_predict_entry r2); [done| |done]. by intros R ev. }
  eapply sat_exec in Hm as (Htm & Hk & _);
    [|apply obeys_any|apply seq_cells_sat; intros; by apply middle_cells_sat].
  destruct (Hk g8 eq_refl) as [HX8 _]. rewrite HX in HX8.
  apply elem_of_app in Hin as [Hin|Hin].
  { exfalso. eapply (no_predict_entry tm); [done| |done]. by intros R ev. }
  cbn [seq_cells] in He.
  assert (Ht9 : Forall (on_event (test_calls (drop 100 (data d)))) t9).
  { apply exec_bind_inv in He as [(e & H9 & ->)|(g9 & t9a & t9b & H9 & He & ->)].
    - eapply sat_exec in H9 as (Ht9 & _);
        [done|apply obeys_any|by apply cell_test_model_sat].
    - injection He as <- <-. rewrite app_nil_r.
      eapply sat_exec in H9 as (Ht9 & _);
        [done|apply obeys_any|by apply cell_test_model_sat]. }
  rewrite Forall_forall in Ht9. apply Ht9 in Hin as [_ (idx & Hidx)].
  exists idx. split; [apply Hd|].
  eapply Forall2_impl; [exact Hidx|]. intros s row Hs. cbv beta in Hs.
  split; [done|]. rewrite <- Hs. symmetry. apply lookup_drop.
Qed.

Lemma predictions_on_training_rows_witness :
  exists d idx,
    Entry datasets_load_digits (inr d) ∈ (exec quiet_world [] notebook).2 /\
    Forall2 (fun s row => drop 100 (data d) !! s = Some row /\
                          data d !! (100 + s) = Some row)
      idx (data (blank_digits 3)).
Proof.
  apply (predictions_on_training_rows quiet_world
           (exec quiet_world [] notebook).1 (exec quiet_world [] notebook).2
           55 (ModelHandle 0) (data (blank_digits 3)) (inr [5; 5; 5]%Z)).
  - reflexivity.
  - reflexivity.
Defined.

(** ** Submissions *)



(** * Further properties of the cells *)

(** ** What a cell writes *)

Lemma writes_only_refl vs g : writes_only vs g g.
Proof. by intros v _. Qed.

Lemma writes_only_trans vs g1 g2 g3 :
  writes_only vs g1 g2 -> writes_only vs g2 g3 -> writes_only vs g1 g3.
Proof. intros H12 H23 v Hv. rewrite (H23 v Hv). by apply H12. Qed.

Lemma sat_for_writes {A} E C B vs (l : list A) (body : A -> env -> prog env) g0 g :
  (forall x st, sat E C B (writes_only vs st) (body x st)) ->
  writes_only vs g0 g -> sat E C B (writes_only vs g0) (for_ l body g).
Proof.
  intros Hb Hg.
  apply sat_for with (I := fun _ => True); [|by apply Forall_true|done].
  intros x st _ Hst.
  eapply sat_weaken; [by eauto|by eauto|by eauto| |apply Hb].
  intros g'. by apply writes_only_trans.
Qed.

Ltac in_list :=
  solve [ repeat first [ apply list_elem_of_here | apply list_elem_of_further ] ].

Ltac not_in_list :=
  let Hin := fresh "Hin" in
  intros Hin;
  repeat (apply elem_of_cons in Hin as [Hin|Hin]; [discriminate Hin|]);
  by apply elem_of_nil in Hin.

Ltac use_writes :=
  repeat match goal with
         | H : writes_only ?vs ?ga ?gb |- context [?gb ?v] =>
             rewrite (H v) by not_in_list
         end.

Ltac writes_done :=
  cbv beta;
  let v := fresh "v" in let Hv := fresh "Hv" in
  intros v Hv; destruct v;
  first [ by (env_simpl; use_writes)
        | exfalso; apply Hv; in_list ].

Lemma output_setitem_writes E C k v g :
  sat E C own_exn (writes_only [V.output] g) (output_setitem k v g).
Proof. unfold output_setitem. repeat sat_step. simpl. writes_done. Qed.

Ltac setitem_step :=
  cbv beta zeta;
  lazymatch goal with
  | |- sat _ _ _ _ (bind (output_setitem _ _ _) _) =>
      eapply sat_bind; [apply output_setitem_writes | intros ? ?]
  end.

Lemma cell_imports_writes g :
  sat any_call any_answer own_exn
    (writes_only [V.azureml; V.pd; V.Workspace; V.AutoMLRun; V.time; V.logging;
                  V.datasets; V.plt; V.imshow; V.random; V.np] g)
    (cell_imports g).
Proof. unfold cell_imports. repeat sat_step. simpl. writes_done. Qed.

Lemma cell_configure_workspace_writes g :
  sat any_call any_answer own_exn
    (writes_only [V.ws; V.experiment_name; V.project_folder; V.os; V.output] g)
    (cell_configure_workspace g).
Proof.
  unfold cell_configure_workspace. repeat first [sat_step | setitem_step].
  simpl. writes_done.
Qed.

Lemma cell_load_data_writes g :
  sat any_call any_answer own_exn
    (writes_only [V.datasets; V.digits; V.X_digits; V.y_digits] g) (cell_load_data g).
Proof. unfold cell_load_data. repeat sat_step. simpl. writes_done. Qed.

Lemma sample_display_body_writes i g :
  sat any_call any_answer own_exn
    (writes_only [V.count; V.sample_size; V.i] g) (sample_display_body i g).
Proof. unfold sample_display_body. repeat sat_step. simpl. writes_done. Qed.

Lemma cell_sample_display_writes g :
  sat any_call any_answer own_exn
    (writes_only [V.count; V.sample_size; V.i] g) (cell_sample_display g).
Proof.
  unfold cell_sample_display. repeat sat_step.
  eapply sat_bind.
  { apply sat_for_writes with (g0 := g); [apply sample_display_body_writes|writes_done]. }
  intros g' Hg'. repeat sat_step. simpl. writes_done.
Qed.

Lemma cell_configure_automl_writes g :
  sat any_call any_answer own_exn
    (writes_only [V.AutoMLConfig; V.Automl_config] g) (cell_configure_automl g).
Proof. unfold cell_configure_automl. repeat sat_step. simpl. writes_done. Qed.

Lemma cell_submit_writes g :
  sat any_call any_answer own_exn
    (writes_only [V.Experiment; V.experiment; V.local_run] g) (cell_submit g).
Proof. unfold cell_submit. repeat sat_step. simpl. writes_done. Qed.

Lemma cell_widget_writes g :
  sat any_call any_answer own_exn (writes_only [V.RunDetails] g) (cell_widget g).
Proof. unfold cell_widget. repeat sat_step. simpl. writes_done. Qed.

Lemma tabulate_body_writes r g :
  sat any_call any_answer own_exn
    (writes_only [V.children; V.metricslist; V.run; V.properties; V.metrics; V.pd;
                  V.rundata] g)
    (tabulate_body r g).
Proof. unfold tabulate_body. repeat sat_step. simpl. writes_done. Qed.

Lemma cell_retrieve_iterations_writes g :
  sat any_call any_answer own_exn
    (writes_only [V.children; V.metricslist; V.run; V.properties; V.metrics; V.pd;
                  V.rundata] g)
    (cell_retrieve_iterations g).
Proof.
  unfold cell_retrieve_iterations. repeat sat_step.
  eapply sat_bind.
  { apply sat_for_writes with (g0 := g); [apply tabulate_body_writes|writes_done]. }
  intros g' Hg'. repeat sat_step. simpl. writes_done.
Qed.

Lemma cell_register_model_writes g :
  sat any_call any_answer own_exn
    (writes_only [V.best_run; V.fitted_model; V.description; V.tags] g)
    (cell_register_model g).
Proof. unfold cell_register_model. repeat sat_step. simpl. writes_done. Qed.

Lemma prediction_display_body_writes s g :
  sat any_call any_answer own_exn
    (writes_only [V.n; V.sample_indices; V.test_samples; V.result; V.i; V.s;
                  V.font_color; V.clr_map] g)
    (prediction_display_body s g).
Proof. unfold prediction_display_body. repeat sat_step. simpl. writes_done. Qed.

Lemma cell_test_model_writes g :
  sat any_call any_answer own_exn
    (writes_only [V.n; V.sample_indices; V.test_samples; V.result; V.i; V.s;
                  V.font_color; V.clr_map] g)
    (cell_test_model g).
Proof.
  unfold cell_test_model. repeat sat_step.
  eapply sat_bind.
  { apply sat_for_writes with (g0 := g); [apply prediction_display_body_writes|writes_done]. }
  intros g' Hg'. repeat sat_step. simpl. writes_done.
Qed.

(** X1: every cell binds only the names of its own import statements,
    assignment statements and loop variables.  When a cell runs to its
    end, each global that is not in the cell's list of [cell_writes] has
    the value it had before the cell, whatever the libraries answered:
    the set-up cell leaves alone everything but [ws], [experiment_name],
    [project_folder], [os] and [output], the widget cell everything but
    [RunDetails], and so on for the ten cells. *)
Theorem cells_write_only_their_names (k : nat) (c : env -> prog env) (vs : list V.var)
    (h : world) (pre : trace) (g g' : env) (t : trace) :
  cell_writes !! k = Some (c, vs) ->
  exec h pre (c g) = (Done g', t) ->
  writes_only vs g g'.
Proof.
  intros Hk He.
  assert (Hs : sat any_call any_answer own_exn (writes_only vs g) (c g)).
  { destruct k as [|[|[|[|[|[|[|[|[|[|k]]]]]]]]]]; simpl in Hk; try discriminate;
      injection Hk as <- <-.
    - apply cell_imports_writes.
    - apply cell_configure_workspace_writes.
    - apply cell_load_data_writes.
    - apply cell_sample_display_writes.
    - apply cell_configure_automl_writes.
    - apply cell_submit_writes.
    - apply cell_widget_writes.
    - apply cell_retrieve_iterations_writes.
    - apply cell_register_model_writes.
    - apply cell_test_model_writes. }
  eapply sat_exec in He as (_ & Hq & _); [|apply obeys_any|exact Hs].
  by apply Hq.
Qed.

Lemma cells_write_only_their_names_witness :
  writes_only [V.RunDetails] submitted_env
    (env_of (exec quiet_world [] (cell_widget submitted_env)).1).
Proof.
  apply (cells_write_only_their_names 6 cell_widget [V.RunDetails] quiet_world []
           submitted_env _ (exec quiet_world [] (cell_widget submitted_env)).2).
  - reflexivity.
  - reflexivity.
Defined.

(** ** Names are bound before they are read *)

Lemma sat_and {A} E C (B B' : exn -> Prop) (Q Q' : A -> Prop) (p : prog A) :
  sat E C B Q p -> sat E C B' Q' p ->
  sat E C (fun e => B e /\ B' e) (fun a => Q a /\ Q' a) p.
Proof.
  revert Q Q'. induction p as [A a|A e|A R ev k IH|A B0 body _ handler _ k _];
    intros Q Q'; simpl; [done|done| |done].
  intros [Hev Hk] [_ Hk']. split; [done|]. intros r Hr. apply IH; auto.
Qed.

Ltac bound_ok :=
  lazymatch goal with
  | |- False =>
      match goal with
      | Hn : _ = None |- _ =>
          env_simpl_in Hn;
          repeat match type of Hn with
                 | context [?gb ?v] =>
                     match goal with
                     | H : writes_only _ _ gb |- _ =>
                         rewrite (H v) in Hn by not_in_list
                     end
                 end;
          env_simpl_in Hn;
          first [ congruence
                | match type of Hn with
                  | ?x = None =>
                      match goal with
                      | H : is_Some x |- _ =>
                          destruct H as [? H]; rewrite H in Hn; discriminate Hn
                      end
                  end ]
      end
  end.

Lemma cell_imports_names g :
  sat any_call any_answer not_NameError
    (fun g' : env => is_Some (g' V.azureml) /\ is_Some (g' V.pd) /\
                     is_Some (g' V.Workspace) /\ is_Some (g' V.plt) /\
                     is_Some (g' V.np))
    (cell_imports g).
Proof.
  unfold cell_imports. repeat sat_step; try bound_ok. simpl. env_simpl. eauto 10.
Qed.

Lemma output_setitem_names E C k v (g : env) :
  is_Some (g V.output) ->
  sat E C not_NameError
    (fun g' : env => writes_only [V.output] g g' /\ is_Some (g' V.output))
    (output_setitem k v g).
Proof.
  intros [out Hout]. unfold output_setitem. sat_step; [bound_ok|].
  simpl. split; [writes_done|]. env_simpl. eauto.
Qed.

Ltac setitem_names_step :=
  cbv beta zeta;
  lazymatch goal with
  | |- sat _ _ _ _ (bind (output_setitem _ _ _) _) =>
      eapply sat_bind;
      [ apply output_setitem_names; first [eassumption | env_simpl; eauto]
      | intros ? [? ?] ]
  end.

Lemma cell_configure_workspace_names (g : env) :
  is_Some (g V.Workspace) -> is_Some (g V.azureml) -> is_Some (g V.pd) ->
  sat any_call any_answer not_NameError
    (fun g' : env => is_Some (g' V.ws) /\ is_Some (g' V.experiment_name) /\
                     is_Some (g' V.project_folder))
    (cell_configure_workspace g).
Proof.
  intros [m1 H1] [m2 H2] [m3 H3]. unfold cell_configure_workspace.
  repeat first [sat_step | setitem_names_step]; try bound_ok.
  simpl. use_writes. env_simpl. eauto.
Qed.

Lemma cell_load_data_names g :
  sat any_call any_answer not_NameError
    (fun g' : env => is_Some (g' V.X_digits) /\ is_Some (g' V.y_digits))
    (cell_load_data g).
Proof.
  unfold cell_load_data. repeat sat_step; try bound_ok. simpl. env_simpl. eauto.
Qed.

Lemma sample_display_body_names i (g : env) :
  display_names g /\ is_Some (g V.count) /\ is_Some (g V.sample_size) ->
  sat any_call any_answer not_NameError
    (fun g' : env => display_names g' /\
                     is_Some (g' V.count) /\ is_Some (g' V.sample_size))
    (sample_display_body i g).
Proof.
  intros (([m Hm] & [X HX] & [y Hy]) & [c Hc] & [ss Hss]). unfold sample_display_body.
  repeat sat_step; try bound_ok. simpl. unfold display_names. env_simpl.
  rewrite Hm, HX, Hy. eauto 10.
Qed.

Lemma cell_sample_display_names (g : env) :
  is_Some (g V.np) -> display_names g ->
  sat any_call any_answer not_NameError (fun _ => True) (cell_sample_display g).
Proof.
  intros [np Hnp] ([m Hm] & [X HX] & [y Hy]). unfold cell_sample_display.
  repeat sat_step; try bound_ok.
  eapply sat_bind.
  { eapply sat_for with (I := fun _ => True);
      [|by apply Forall_true|].
    - intros i st _ Hst. apply sample_display_body_names, Hst.
    - cbv beta. unfold display_names. env_simpl. rewrite Hm, HX, Hy. eauto 10. }
  intros g' ((? & _) & _). repeat sat_step; try bound_ok. done.
Qed.

Lemma cell_configure_automl_names (g : env) :
  is_Some (g V.X_digits) -> is_Some (g V.y_digits) -> is_Some (g V.project_folder) ->
  sat any_call any_answer not_NameError
    (fun g' : env => is_Some (g' V.Automl_config)) (cell_configure_automl g).
Proof.
  intros [X HX] [y Hy] [pf Hpf]. unfold cell_configure_automl.
  repeat sat_step; try bound_ok. simpl. env_simpl. eauto.
Qed.

Lemma cell_submit_names (g : env) :
  is_Some (g V.ws) -> is_Some (g V.experiment_name) -> is_Some (g V.Automl_config) ->
  sat any_call any_answer not_NameError
    (fun g' : env => is_Some (g' V.local_run)) (cell_submit g).
Proof.
  intros [w Hw] [nm Hnm] [c Hc]. unfold cell_submit.
  repeat sat_step; try bound_ok. simpl. env_simpl. eauto.
Qed.

Lemma cell_widget_names (g : env) :
  is_Some (g V.local_run) ->
  sat any_call any_answer not_NameError (fun _ => True) (cell_widget g).
Proof. intros [r Hr]. unfold cell_widget. repeat sat_step; try bound_ok. done. Qed.

Lemma tabulate_body_names r (g : env) :
  is_Some (g V.metricslist) ->
  sat any_call any_answer not_NameError
    (fun g' : env => is_Some (g' V.metricslist)) (tabulate_body r g).
Proof.
  intros [tbl Htbl]. unfold tabulate_body.
  repeat sat_step; try bound_ok. simpl. env_simpl. eauto.
Qed.

Lemma cell_retrieve_iterations_names (g : env) :
  is_Some (g V.local_run) ->
  sat any_call any_answer not_NameError (fun _ => True) (cell_retrieve_iterations g).
Proof.
  intros [r Hr]. unfold cell_retrieve_iterations. repeat sat_step; try bound_ok.
  eapply sat_bind.
  { apply sat_for with (I := fun _ => True)
      (J := fun g' : env => is_Some (g' V.metricslist));
      [|by apply Forall_true|env_simpl; eauto].
    intros x st _ Hst. by apply tabulate_body_names. }
  intros g' [tbl Htbl]. repeat sat_step; try bound_ok. done.
Qed.

Lemma cell_register_model_names (g : env) :
  is_Some (g V.local_run) ->
  sat any_call any_answer not_NameError
    (fun g' : env => is_Some (g' V.fitted_model)) (cell_register_model g).
Proof.
  intros [r Hr]. unfold cell_register_model.
  repeat sat_step; try bound_ok. simpl. env_simpl. eauto.
Qed.

Lemma prediction_display_body_names s (g : env) :
  display_names g /\ is_Some (g V.n) /\ is_Some (g V.i) /\ is_Some (g V.result) ->
  sat any_call any_answer not_NameError
    (fun g' : env => display_names g' /\
                     is_Some (g' V.n) /\ is_Some (g' V.i) /\ is_Some (g' V.result))
    (prediction_display_body s g).
Proof.
  intros (([m Hm] & [X HX] & [y Hy]) & [n Hn] & [i Hi] & [res Hres]).
  unfold prediction_display_body.
  repeat sat_step; try bound_ok. simpl. unfold display_names. env_simpl.
  rewrite Hm, HX, Hy, Hn, Hres. eauto 10.
Qed.

Lemma cell_test_model_names (g : env) :
  is_Some (g V.np) -> display_names g -> is_Some (g V.fitted_model) ->
  sat any_call any_answer not_NameError (fun _ => True) (cell_test_model g).
Proof.
  intros [np Hnp] ([pl Hpl] & [X HX] & [y Hy]) [m Hm]. unfold cell_test_model.
  repeat sat_step; try bound_ok.
  eapply sat_bind.
  { eapply sat_for with (I := fun _ => True);
      [|by apply Forall_true|].
    - intros s st _ Hst. apply prediction_display_body_names, Hst.
    - cbv beta. unfold display_names. env_simpl. rewrite Hpl, HX, Hy. eauto 10. }
  intros g' ((? & _) & _). repeat sat_step; try bound_ok. done.
Qed.

Ltac carry Hw :=
  repeat match goal with
         | H : is_Some (?g ?v) |- _ =>
             lazymatch type of Hw with
             | writes_only _ g ?g' =>
                 rewrite <- (Hw v) in H by not_in_list
             end
         end.

Lemma cells_before_submission_names :
  sat any_call any_answer (fun e => not_NameError e /\ own_exn e) ready_to_submit
    (seq_cells cells_before_submission empty_env).
Proof.
  unfold cells_before_submission, first_cells. cbn [seq_cells app].
  eapply sat_bind;
    [apply sat_and; [apply cell_imports_names|apply cell_imports_writes]|].
  intros g0 [(Haz & Hpd & HW & Hplt & Hnp) _].
  eapply sat_bind;
    [apply sat_and; [by apply cell_configure_workspace_names
                    |apply cell_configure_workspace_writes]|].
  intros g1 [(Hws & Hnm & Hpf) Hw]. carry Hw. clear Hw.
  eapply sat_bind;
    [apply sat_and; [apply cell_load_data_names|apply cell_load_data_writes]|].
  intros g2 [(HX & Hy) Hw]. carry Hw. clear Hw.
  eapply sat_bind;
    [apply sat_and; [by apply cell_sample_display_names
                    |apply cell_sample_display_writes]|].
  intros g3 [_ Hw]. carry Hw. clear Hw.
  eapply sat_bind;
    [apply sat_and; [by apply cell_configure_automl_names
                    |apply cell_configure_automl_writes]|].
  intros g4 [Hc Hw]. carry Hw. clear Hw.
  simpl. done.
Qed.

Lemma cells_from_submission_names (g : env) :
  ready_to_submit g ->
  sat any_call any_answer (fun e => not_NameError e /\ own_exn e) (fun _ => True)
    (seq_cells (cell_submit :: inspection_cells ++ [cell_test_model]) g).
Proof.
  intros (Hws & Hnm & Hc & Hnp & Hplt & HX & Hy).
  unfold inspection_cells. cbn [seq_cells app].
  eapply sat_bind;
    [apply sat_and; [by apply cell_submit_names|apply cell_submit_writes]|].
  intros g5 [Hr Hw]. carry Hw. clear Hw.
  eapply sat_bind;
    [apply sat_and; [by apply cell_widget_names|apply cell_widget_writes]|].
  intros g6 [_ Hw]. carry Hw. clear Hw.
  eapply sat_bind;
    [apply sat_and; [by apply cell_retrieve_iterations_names
                    |apply cell_retrieve_iterations_writes]|].
  intros g7 [_ Hw]. carry Hw. clear Hw.
  eapply sat_bind;
    [apply sat_and; [by apply cell_register_model_names
                    |apply cell_register_model_writes]|].
  intros g8 [Hm Hw]. carry Hw. clear Hw.
  eapply sat_bind;
    [apply sat_and; [by apply cell_test_model_names|apply cell_test_model_writes]|].
  intros g9 _. done.
Qed.


Lemma sat_bind_inv {A A'} E C B (Q' : A' -> Prop) (p : prog A) (f : A -> prog A') :
  sat E C B Q' (bind p f) -> sat E C B (fun a => sat E C B Q' (f a)) p.
Proof.
  induction p as [A a|A e|A R ev k IH|A B0 body _ handler _ k _]; simpl; [done|done| |done].
  intros [Hev Hk]. split; [done|]. intros r Hr. by apply IH, Hk.
Qed.

Lemma sat_seq_cells_app E C B (Q Q' : env -> Prop) cs1 cs2 g :
  sat E C B Q (seq_cells cs1 g) ->
  (forall g', Q g' -> sat E C B Q' (seq_cells cs2 g')) ->
  sat E C B Q' (seq_cells (cs1 ++ cs2) g).
Proof.
  intros H1 H2. revert g H1. induction cs1 as [|c cs1 IH]; intros g H1.
  - by apply H2.
  - cbn [app seq_cells] in *. apply sat_bind_inv in H1.
    eapply sat_bind; [exact H1|]. intros g' Hg'. by apply IH.
Qed.

Lemma notebook_cells :
  notebook = seq_cells (cells_before_submission
                        ++ cell_submit :: inspection_cells ++ [cell_test_model])
               empty_env.
Proof. reflexivity. Qed.

Lemma notebook_names :
  sat any_call any_answer (fun e => not_NameError e /\ own_exn e) (fun _ => True) notebook.
Proof.
  rewrite notebook_cells.
  eapply sat_seq_cells_app; [apply cells_before_submission_names|].
  apply cells_from_submission_names.
Qed.

(** X2: run top to bottom from an empty namespace, the notebook never
    stops with a [NameError]: every name a cell reads, a variable or an
    imported module or class, was bound by an earlier statement.  The
    order matters: without its first cell, the imports, the notebook stops
    with [NameError] before it makes any call, and so does the last cell
    run on its own. *)
Theorem notebook_never_NameError (h : world) (pre : trace) :
  (exec h [] notebook).1 <> Err NameError /\
  exec h pre (seq_cells (drop 1 (first_cells ++ later_cells)) empty_env)
  = (Err NameError, []) /\
  exec h pre (cell_test_model empty_env) = (Err NameError, []).
Proof.
  split; [|split; reflexivity].
  destruct (exec h [] notebook) as [o t] eqn:He.
  eapply sat_exec in He as (_ & _ & Hb); [|apply obeys_any|apply notebook_names].
  simpl. intros ->. by destruct (Hb _ eq_refl) as [[? _]|(? & ? & ? & _)].
Qed.

(** ** Every run of a cell, call by call *)

Lemma exec_call_inv {R B} (h : world) pre (ev : event R) (f : R -> prog B) o t :
  exec h pre (bind (call ev) f) = (o, t) ->
  (exists msg, h _ pre ev = inl msg /\ o = Err (Sdk msg) /\ t = [Entry ev (inl msg)]) \/
  (exists r t', h _ pre ev = inr r /\
                exec h (pre ++ [Entry ev (inr r)]) (f r) = (o, t') /\
                t = Entry ev (inr r) :: t').
Proof.
  simpl. destruct (h R pre ev) as [msg|r].
  - intros [= <- <-]. left. by exists msg.
  - destruct (exec h (pre ++ [Entry ev (inr r)]) (f r)) as [o' t'] eqn:Hx.
    intros [= <- <-]. right. by exists r, t'.
Qed.

Lemma exec_read_inv {B} (h : world) pre v (g : env) (f : ty v -> prog B) o t :
  exec h pre (bind (read v g) f) = (o, t) ->
  (g v = None /\ o = Err NameError /\ t = []) \/
  (exists x, g v = Some x /\ exec h pre (f x) = (o, t)).
Proof.
  unfold read. destruct (g v) as [x|]; simpl.
  - intros He. right. by exists x.
  - intros [= <- <-]. by left.
Qed.

(** ** Submissions *)







(** ** No exception of the notebook's own under well-behaved libraries *)

Lemma sat_reshape_ok E C B r c a :
  length a = r * c -> sat E C B (fun _ => True) (reshape r c a).
Proof. intros H. unfold reshape. rewrite H, Nat.eqb_refl. done. Qed.

Lemma sat_dict_getitem_ok {A} E C B (d : gmap string A) k x :
  d !! k = Some x -> sat E C B (fun x' => x' = x) (dict_getitem d k).
Proof. intros H. unfold dict_getitem. by rewrite H. Qed.

Lemma sat_py_int_ok E C B s z :
  int_of_string s = Some z -> sat E C B (fun z' => z' = z) (py_int s).
Proof. intros H. unfold py_int. by rewrite H. Qed.

Lemma iteration_of_Some (p : gmap string string) :
  is_Some (iteration_of p) ->
  exists it k, p !! "iteration" = Some it /\ int_of_string it = Some k.
Proof.
  unfold iteration_of. intros [k Hk].
  destruct (p !! "iteration") as [it|]; [|done]. by exists it, k.
Qed.

Ltac read_ok :=
  let Hn := fresh "Hn" in
  intros Hn; exfalso; env_simpl_in Hn;
  repeat match type of Hn with
         | context [?gb ?v] =>
             match goal with
             | H : writes_only _ _ gb |- _ => rewrite (H v) in Hn by not_in_list
             end
         end;
  env_simpl_in Hn;
  repeat match goal with H : is_Some _ |- _ => destruct H end;
  first [ discriminate Hn
        | match goal with
          | H : ?e = Some _ |- _ =>
              lazymatch type of Hn with e = None => rewrite H in Hn; discriminate Hn end
          end ].

Ltac index_ok :=
  let Hn := fresh "Hn" in
  intros Hn; exfalso; apply lookup_ge_None in Hn; lia.

Ltac exn_ok ::=
  try first [ exact I | intros _; exact I | right; exact I
            | intros _; intro; discriminate | intro; discriminate
            | right; intro; discriminate
            | read_ok | index_ok ].

Ltac safe_step :=
  cbv beta zeta;
  lazymatch goal with
  | |- sat _ _ _ _ (bind (reshape _ _ _) _) =>
      eapply sat_bind; [apply sat_reshape_ok | intros ? _]
  | |- sat _ _ _ _ (bind (dict_getitem _ _) _) =>
      eapply sat_bind; [eapply sat_dict_getitem_ok | intros ? ->]
  | |- sat _ _ _ _ (bind (py_int _) _) =>
      eapply sat_bind; [eapply sat_py_int_ok | intros ? ->]
  | _ => sat_step
  end.

Lemma output_setitem_safe E C k v (g : env) :
  is_Some (g V.output) ->
  sat E C never_raised
    (fun g' : env => writes_only [V.output] g g' /\ is_Some (g' V.output))
    (output_setitem k v g).
Proof.
  intros [out Hout]. unfold output_setitem. repeat sat_step.
  simpl. split; [writes_done|]. env_simpl. eauto.
Qed.

Ltac setitem_safe_step :=
  cbv beta zeta;
  lazymatch goal with
  | |- sat _ _ _ _ (bind (output_setitem _ _ _) _) =>
      eapply sat_bind;
      [apply output_setitem_safe; first [done | env_simpl; eauto]
      | intros ? [? ?]]
  end.

Ltac bound_done :=
  simpl; use_writes; env_simpl; eauto 10.

Lemma cell_imports_safe g :
  sat any_call notebook_contract never_raised
    (fun g' : env => is_Some (g' V.azureml) /\ is_Some (g' V.pd) /\
                     is_Some (g' V.Workspace) /\ is_Some (g' V.plt) /\
                     is_Some (g' V.np))
    (cell_imports g).
Proof. unfold cell_imports. repeat safe_step. simpl. env_simpl. eauto 10. Qed.

Lemma cell_configure_workspace_safe (g : env) :
  is_Some (g V.Workspace) -> is_Some (g V.azureml) -> is_Some (g V.pd) ->
  sat any_call notebook_contract never_raised
    (fun g' : env => is_Some (g' V.ws) /\ is_Some (g' V.experiment_name) /\
                     is_Some (g' V.project_folder))
    (cell_configure_workspace g).
Proof.
  intros H1 H2 H3.
  unfold cell_configure_workspace. repeat first [setitem_safe_step | safe_step].
  bound_done.
Qed.

Lemma cell_load_data_safe g :
  sat any_call notebook_contract never_raised well_formed (cell_load_data g).
Proof.
  unfold cell_load_data. repeat safe_step.
  simpl in *. unfold well_formed. env_simpl.
  match goal with H : _ /\ _ |- _ => destruct H as [Hlen H64] end.
  eexists _, _. split; [done|]. split; [done|].
  split; [by rewrite !length_drop, Hlen|by apply Forall_drop].
Qed.

Lemma row_width (X : matrix) i (row : list float) :
  Forall (fun row => length row = 64) X -> X !! i = Some row -> length row = 8 * 8.
Proof. intros H Hi. by apply (Forall_lookup_1 _ _ _ _ H Hi). Qed.

Lemma sample_display_body_safe_all (X : matrix) (y : list Z) i (g : env) :
  g V.X_digits = Some X -> g V.y_digits = Some y ->
  length X = length y -> Forall (fun row => length row = 64) X ->
  is_Some (g V.plt) ->
  is_Some (g V.count) -> is_Some (g V.sample_size) -> i < length X ->
  sat any_call notebook_contract never_raised
    (fun g' : env => g' V.X_digits = Some X /\ g' V.y_digits = Some y /\
                     is_Some (g' V.plt) /\
                     is_Some (g' V.count) /\ is_Some (g' V.sample_size))
    (sample_display_body i g).
Proof.
  intros HX Hy Hlen H64 [pl Hpl] [c Hc] [ss Hss] Hi. unfold sample_display_body.
  repeat safe_step.
  { by eapply row_width. }
  simpl. env_simpl. rewrite Hpl. eauto 10.
Qed.

Lemma cell_sample_display_safe_all (g : env) :
  well_formed g -> is_Some (g V.np) -> is_Some (g V.plt) ->
  sat any_call notebook_contract never_raised (fun _ => True) (cell_sample_display g).
Proof.
  intros (X & y & HX & Hy & Hlen & H64) Hnp [pl Hpl]. unfold cell_sample_display.
  repeat safe_step.
  eapply sat_bind.
  { eapply sat_for with (I := fun i => i < length X)
      (J := fun g' : env => g' V.X_digits = Some X /\ g' V.y_digits = Some y /\
                            is_Some (g' V.plt) /\
                            is_Some (g' V.count) /\ is_Some (g' V.sample_size));
      [|by apply permutation_in_range|].
    - intros i st Hi (HX' & Hy' & Hpl' & Hc' & Hss').
      by apply (sample_display_body_safe_all X y).
    - cbv beta. env_simpl. rewrite Hpl. eauto 10. }
  intros g' (_ & _ & Hpl' & _). repeat safe_step. done.
Qed.

Lemma cell_configure_automl_safe (g : env) :
  is_Some (g V.X_digits) -> is_Some (g V.y_digits) -> is_Some (g V.project_folder) ->
  sat any_call notebook_contract never_raised
    (fun g' : env => is_Some (g' V.Automl_config)) (cell_configure_automl g).
Proof.
  intros [X HX] [y Hy] [pf Hpf]. unfold cell_configure_automl.
  repeat safe_step. simpl. env_simpl. eauto.
Qed.

Lemma cell_submit_safe (g : env) :
  is_Some (g V.ws) -> is_Some (g V.experiment_name) -> is_Some (g V.Automl_config) ->
  sat any_call notebook_contract never_raised
    (fun g' : env => is_Some (g' V.local_run)) (cell_submit g).
Proof.
  intros [w Hw] [nm Hnm] [c Hc]. unfold cell_submit.
  repeat safe_step. simpl. env_simpl. eauto.
Qed.

Lemma cell_widget_safe (g : env) :
  is_Some (g V.local_run) ->
  sat any_call notebook_contract never_raised (fun _ => True) (cell_widget g).
Proof. intros [r Hr]. unfold cell_widget. repeat safe_step. done. Qed.

Lemma tabulate_body_safe r (g : env) :
  is_Some (g V.metricslist) ->
  sat any_call notebook_contract never_raised
    (fun g' : env => is_Some (g' V.metricslist)) (tabulate_body r g).
Proof.
  intros [tbl Htbl]. unfold tabulate_body.
  safe_step. safe_step. safe_step. safe_step. safe_step. safe_step. safe_step.
  match goal with H : notebook_contract _ (get_properties _) _ |- _ =>
    simpl in H; apply iteration_of_Some in H as (it & k & Hit & Hk) end.
  repeat safe_step; [exact Hit|exact Hk|].
  simpl. env_simpl. eauto.
Qed.

Lemma cell_retrieve_iterations_safe (g : env) :
  is_Some (g V.local_run) ->
  sat any_call notebook_contract never_raised (fun _ => True)
    (cell_retrieve_iterations g).
Proof.
  intros [r Hr]. unfold cell_retrieve_iterations. repeat safe_step.
  eapply sat_bind.
  { eapply sat_for with (I := fun _ => True)
      (J := fun g' : env => is_Some (g' V.metricslist));
      [|by apply Forall_true|env_simpl; eauto].
    intros x st _ Hst. by apply tabulate_body_safe. }
  intros g' [tbl Htbl]. repeat safe_step. done.
Qed.

Lemma cell_register_model_safe (g : env) :
  is_Some (g V.local_run) ->
  sat any_call notebook_contract never_raised
    (fun g' : env => is_Some (g' V.fitted_model)) (cell_register_model g).
Proof.
  intros [r Hr]. unfold cell_register_model.
  repeat safe_step. simpl. env_simpl. eauto.
Qed.

Lemma prediction_display_body_safe_all (X : matrix) (y res : list Z) i s (g : env) :
  display_state X y res i g -> is_Some (g V.n) /\ is_Some (g V.plt) ->
  length X = length y -> Forall (fun row => length row = 64) X ->
  s < length X -> i < length res ->
  sat any_call notebook_contract never_raised
    (fun g' : env => display_state X y res (S i) g' /\
                     is_Some (g' V.n) /\ is_Some (g' V.plt))
    (prediction_display_body s g).
Proof.
  intros (HX & Hy & Hres & Hi) [[n Hn] [pl Hpl]] Hlen H64 Hs Hir.
  unfold prediction_display_body. repeat safe_step.
  { by eapply row_width. }
  simpl. unfold display_state. env_simpl. rewrite Nat.add_1_r, Hpl. eauto 10.
Qed.

Lemma prediction_display_loop_safe_all (X : matrix) (y res : list Z) idx :
  length X = length y -> Forall (fun row => length row = 64) X ->
  Forall (fun s => s < length X) idx ->
  forall i (g : env),
    display_state X y res i g -> is_Some (g V.n) /\ is_Some (g V.plt) ->
    i + length idx <= length res ->
    sat any_call notebook_contract never_raised (fun g' : env => is_Some (g' V.plt))
      (for_ idx prediction_display_body g).
Proof.
  intros Hlen H64 Hidx.
  induction Hidx as [|s idx Hs Hidx IH]; intros i g Hst Hn Hi; cbn [for_];
    [simpl; tauto|].
  simpl in Hi. eapply sat_bind.
  { apply (prediction_display_body_safe_all X y res i); try done. lia. }
  intros g' [Hst' Hn']. apply (IH (S i)); [done|done|lia].
Qed.

Lemma cell_test_model_safe_all (g : env) :
  well_formed g -> is_Some (g V.np) -> is_Some (g V.plt) ->
  is_Some (g V.fitted_model) ->
  sat any_call notebook_contract never_raised (fun _ => True) (cell_test_model g).
Proof.
  intros (X & y & HX & Hy & Hlen & H64) Hnp [pl Hpl] [m Hm]. unfold cell_test_model.
  repeat safe_step.
  { left. by apply permutation_in_range. }
  match goal with H : Forall2 _ _ ?ts |- _ => apply Forall2_length in H; rename H into Hts end.
  match goal with H : notebook_contract _ (predict _ _) ?r |- _ =>
    simpl in H; rename H into Hres end.
  eapply sat_bind.
  { eapply (prediction_display_loop_safe_all X y _ _ Hlen H64) with (i := 0).
    - by apply permutation_in_range.
    - unfold display_state. env_simpl. done.
    - env_simpl. rewrite Hpl. eauto.
    - simpl. rewrite Hres, <- Hts. done. }
  intros g' Hpl'. cbv beta in Hpl'. repeat safe_step. done.
Qed.

Lemma with_contract {A} E C B Q (p : prog A) :
  sat E any_answer B Q p -> sat E C B Q p.
Proof. apply sat_weaken; done. Qed.

Ltac carry_wf Hw :=
  match goal with
  | H : well_formed ?g |- _ =>
      lazymatch type of Hw with
      | writes_only _ g ?g' =>
          let X := fresh "X" in let y := fresh "y" in
          let HX := fresh "HX" in let Hy := fresh "Hy" in
          let Hl := fresh "Hl" in let H64 := fresh "H64" in
          destruct H as (X & y & HX & Hy & Hl & H64);
          rewrite <- (Hw V.X_digits) in HX by not_in_list;
          rewrite <- (Hw V.y_digits) in Hy by not_in_list;
          assert (well_formed g') by (by exists X, y)
      end
  end.

Lemma well_formed_bound g :
  well_formed g -> is_Some (g V.X_digits) /\ is_Some (g V.y_digits).
Proof. intros (X & y & -> & -> & _). eauto. Qed.

Lemma notebook_safe :
  sat any_call notebook_contract (fun e => never_raised e /\ own_exn e)
    (fun _ => True) notebook.
Proof.
  unfold notebook, first_cells, later_cells, inspection_cells. cbn [seq_cells app].
  eapply sat_bind;
    [apply sat_and; [apply cell_imports_safe
                    |apply with_contract, cell_imports_writes]|].
  intros g0 [(Haz & Hpd & HW & Hplt & Hnp) _].
  eapply sat_bind;
    [apply sat_and; [by apply cell_configure_workspace_safe
                    |apply with_contract, cell_configure_workspace_writes]|].
  intros g1 [(Hws & Hnm & Hpf) Hw]. carry Hw. clear Hw.
  eapply sat_bind;
    [apply sat_and; [apply cell_load_data_safe
                    |apply with_contract, cell_load_data_writes]|].
  intros g2 [Hwf Hw]. carry Hw. clear Hw.
  eapply sat_bind;
    [apply sat_and; [by apply cell_sample_display_safe_all
                    |apply with_contract, cell_sample_display_writes]|].
  intros g3 [_ Hw]. carry Hw. carry_wf Hw. clear Hw.
  destruct (well_formed_bound g3) as [HXb Hyb]; [done|].
  eapply sat_bind;
    [apply sat_and; [by apply cell_configure_automl_safe
                    |apply with_contract, cell_configure_automl_writes]|].
  intros g4 [Hc Hw]. clear HXb Hyb. carry Hw. carry_wf Hw. clear Hw.
  eapply sat_bind;
    [apply sat_and; [by apply cell_submit_safe
                    |apply with_contract, cell_submit_writes]|].
  intros g5 [Hr Hw]. carry Hw. carry_wf Hw. clear Hw.
  eapply sat_bind;
    [apply sat_and; [by apply cell_widget_safe
                    |apply with_contract, cell_widget_writes]|].
  intros g6 [_ Hw]. carry Hw. carry_wf Hw. clear Hw.
  eapply sat_bind;
    [apply sat_and; [by apply cell_retrieve_iterations_safe
                    |apply with_contract, cell_retrieve_iterations_writes]|].
  intros g7 [_ Hw]. carry Hw. carry_wf Hw. clear Hw.
  eapply sat_bind;
    [apply sat_and; [by apply cell_register_model_safe
                    |apply with_contract, cell_register_model_writes]|].
  intros g8 [Hm Hw]. carry Hw. carry_wf Hw. clear Hw.
  eapply sat_bind;
    [apply sat_and; [by apply cell_test_model_safe_all
                    |apply with_contract, cell_test_model_writes]|].
  intros g9 _. done.
Qed.

(** X3: as long as the libraries answer as documented (the data set has
    as many labels as rows of 64 pixels, a permutation of [n] permutes
    [0..n-1], [predict] returns one label per row, every child run has an
    ['iteration'] property that [int] accepts), a top-to-bottom run either
    reaches the end or stops in an import or a library call that raised;
    the notebook's own name look-ups, indexing, reshaping, dictionary
    look-ups and conversions never fail.  In the second case the failing
    import or call is the last entry of the log. *)
Theorem notebook_fails_only_in_a_library (h : world) (o : outcome env) (t : trace) :
  obeys h notebook_contract ->
  exec h [] notebook = (o, t) ->
  (exists g, o = Done g) \/
  (exists msg en, o = Err (Sdk msg) /\ last t = Some en /\ raised en = Some msg).
Proof.
  intros Hh He. destruct o as [g|e]; [left; by exists g|right].
  eapply sat_exec in He as (_ & _ & Hb); [|exact Hh|apply notebook_safe].
  destruct (Hb _ eq_refl) as [[[] _]|(msg & en & -> & Hl & Hm)].
  by exists msg, en.
Qed.

Lemma quiet_world_contract : obeys quiet_world notebook_contract.
Proof.
  intros R pre ev r. destruct ev; simpl; try done.
  - intros [= <-]. unfold blank_digits. cbn [data target].
    split; [by rewrite !repeat_length|].
    apply Forall_forall. intros row Hrow. apply list_elem_of_In, repeat_spec in Hrow.
    subst. by rewrite repeat_length.
  - by intros [= <-].
  - intros [= <-]. destruct r0 as [k]. simpl. destruct (Nat.eqb k 1); vm_compute; eauto.
  - intros [= <-]. by rewrite repeat_length.
Qed.

Lemma quota_world_contract : obeys quota_world notebook_contract.
Proof.
  intros R pre ev r. destruct ev; simpl; try done.
  - intros [= <-]. unfold blank_digits. cbn [data target].
    split; [by rewrite !repeat_length|].
    apply Forall_forall. intros row Hrow. apply list_elem_of_In, repeat_spec in Hrow.
    subst. by rewrite repeat_length.
  - by intros [= <-].
  - intros [= <-]. destruct r0 as [k]. simpl. destruct (Nat.eqb k 1); vm_compute; eauto.
  - intros [= <-]. by rewrite repeat_length.
Qed.

Lemma notebook_fails_only_in_a_library_witness :
  (exists g, (exec quota_world [] notebook).1 = Done g) \/
  (exists msg en, (exec quota_world [] notebook).1 = Err (Sdk msg) /\
                  last (exec quota_world [] notebook).2 = Some en /\
                  raised en = Some msg).
Proof.
  apply (notebook_fails_only_in_a_library quota_world
           (exec quota_world [] notebook).1 (exec quota_world [] notebook).2).
  - exact quota_world_contract.
  - reflexivity.
Defined.

(** ** What the cells show *)

Lemma rows_of_length r c a : length (rows_of r c a) = r.
Proof. revert a. induction r as [|r IH]; intros a; simpl; [done|]. by rewrite IH. Qed.

Lemma rows_of_widths r c a :
  length a = r * c -> Forall (fun line => length line = c) (rows_of r c a).
Proof.
  revert a. induction r as [|r IH]; intros a Ha; simpl; constructor.
  - rewrite length_take. simpl in Ha. lia.
  - apply IH. rewrite length_drop. simpl in Ha. lia.
Qed.

Lemma rows_of_concat r c a : length a = r * c -> concat (rows_of r c a) = a.
Proof.
  revert a. induction r as [|r IH]; intros a Ha; simpl.
  - simpl in Ha. by destruct a.
  - rewrite IH; [apply take_drop|]. rewrite length_drop. simpl in Ha. lia.
Qed.

Lemma exec_reshape_Done_eq (h : world) pre r c a m t :
  exec h pre (reshape r c a) = (Done m, t) ->
  length a = r * c /\ m = rows_of r c a /\ t = [].
Proof.
  unfold reshape. destruct (Nat.eqb_spec (length a) (r * c)); simpl; [|done].
  by intros [= <- <-].
Qed.

Lemma exec_output_setitem_Done (h : world) pre k v (g g' : env) t :
  exec h pre (output_setitem k v g) = (Done g', t) ->
  exists out, g V.output = Some out /\
              g' = assign V.output (dict_setitem k v out) g /\ t = [].
Proof.
  unfold output_setitem, read. destruct (g V.output) as [out|]; simpl; [|done].
  intros [= <- <-]. by exists out.
Qed.

Ltac xstep He :=
  cbv beta zeta in He;
  lazymatch type of He with
  | exec _ _ (bind (reshape _ _ _) _) = (Done _, _) =>
      let x := fresh "img" in let Hx := fresh "Himg" in let Hl := fresh "Hlen" in
      apply exec_bind_Done in He as (x & ? & ? & Hx & He & ->);
      apply exec_reshape_Done_eq in Hx as (Hl & -> & ->)
  | exec _ _ (bind (output_setitem _ _ _) _) = (Done _, _) =>
      let x := fresh "g" in let Hx := fresh "Hg" in let o := fresh "out" in
      apply exec_bind_Done in He as (x & ? & ? & Hx & He & ->);
      apply exec_output_setitem_Done in Hx as (o & Hx & -> & ->);
      env_simpl_in Hx; injection Hx as <-
  | exec _ _ (bind (dict_getitem _ _) _) = (Done _, _) =>
      let x := fresh "x" in let Hx := fresh "Hx" in
      apply exec_bind_Done in He as (x & ? & ? & Hx & He & ->);
      unfold dict_getitem in Hx;
      match type of Hx with
      | context [?d !! ?k] =>
          let E := fresh "Hkey" in
          destruct (d !! k) eqn:E; [|discriminate Hx];
          apply exec_Ret_Done in Hx as [<- ->]
      end
  | exec _ _ (bind (py_int _) _) = (Done _, _) =>
      let x := fresh "x" in let Hx := fresh "Hx" in
      apply exec_bind_Done in He as (x & ? & ? & Hx & He & ->);
      unfold py_int in Hx;
      match type of Hx with
      | context [int_of_string ?s] =>
          let E := fresh "Hint" in
          destruct (int_of_string s) eqn:E; [|discriminate Hx];
          apply exec_Ret_Done in Hx as [<- ->]
      end
  | _ => exec_step He
  end.

(** X4: the set-up cell, when it completes, makes exactly four calls and
    one import: it loads the workspace from the configuration file,
    imports [os], reads the SDK version, sets pandas'
    [display.max_colwidth] to -1 and shows one transposed one-column table
    whose six rows are, in this order, the SDK version, the subscription
    id, name, resource group and location of the loaded workspace, and the
    project directory.  It leaves [ws] bound to that workspace, and the
    experiment name and project folder bound to ['automl-classifier'] and
    ['./automl-classifier']. *)
Theorem workspace_summary (h : world) (pre : trace) (g g' : env) (t : trace) :
  exec h pre (cell_configure_workspace g) = (Done g', t) ->
  exists w m ver,
    t = [ Entry Workspace_from_config (inr w);
          Entry (py_import "os" None) (inr m);
          Entry azureml_core_VERSION (inr ver);
          Entry (pd_set_option "display.max_colwidth" (-1)) (inr tt);
          Entry (pd_DataFrame_T
                   [ ("SDK version", ver);
                     ("Subscription ID", subscription_id w);
                     ("Workspace", name w);
                     ("Resource Group", resource_group w);
                     ("Location", location w);
                     ("Project Directory", "./automl-classifier") ]
                   [EmptyString]) (inr tt) ] /\
    g' V.ws = Some w /\
    g' V.experiment_name = Some "automl-classifier" /\
    g' V.project_folder = Some "./automl-classifier".
Proof.
  intros He. unfold cell_configure_workspace in He. repeat xstep He.
  repeat match goal with u : unit |- _ => destruct u end.
  eexists _, _, _. split; [reflexivity|]. by env_simpl.
Qed.

Lemma workspace_summary_witness :
  exists w m ver,
    (exec quiet_world [] (cell_configure_workspace imported_env)).2
    = [ Entry Workspace_from_config (inr w);
        Entry (py_import "os" None) (inr m);
        Entry azureml_core_VERSION (inr ver);
        Entry (pd_set_option "display.max_colwidth" (-1)) (inr tt);
        Entry (pd_DataFrame_T
                 [ ("SDK version", ver);
                   ("Subscription ID", subscription_id w);
                   ("Workspace", name w);
                   ("Resource Group", resource_group w);
                   ("Location", location w);
                   ("Project Directory", "./automl-classifier") ]
                 [EmptyString]) (inr tt) ] /\
    env_of (exec quiet_world [] (cell_configure_workspace imported_env)).1 V.ws = Some w /\
    env_of (exec quiet_world [] (cell_configure_workspace imported_env)).1
      V.experiment_name = Some "automl-classifier" /\
    env_of (exec quiet_world [] (cell_configure_workspace imported_env)).1
      V.project_folder = Some "./automl-classifier".
Proof.
  apply (workspace_summary quiet_world [] imported_env
           (env_of (exec quiet_world [] (cell_configure_workspace imported_env)).1)).
  reflexivity.
Defined.

Lemma shown_labels_app t1 t2 : shown_labels (t1 ++ t2) = shown_labels t1 ++ shown_labels t2.
Proof. apply omap_app. Qed.

Lemma shown_images_app t1 t2 : shown_images (t1 ++ t2) = shown_images t1 ++ shown_images t2.
Proof. apply omap_app. Qed.

Lemma subplot_positions_app t1 t2 :
  subplot_positions (t1 ++ t2) = subplot_positions t1 ++ subplot_positions t2.
Proof. apply omap_app. Qed.

Lemma picture_of_rows (row : list float) :
  length row = 8 * 8 -> picture_of row (rows_of 8 8 row).
Proof.
  intros H. split; [apply rows_of_length|].
  split; [by apply rows_of_widths|by apply rows_of_concat].
Qed.

Lemma sample_display_body_shown (h : world) pre i (g g' : env) t
    (X : matrix) (y : list Z) (c ss : nat) :
  g V.X_digits = Some X -> g V.y_digits = Some y ->
  g V.count = Some c -> g V.sample_size = Some ss ->
  exec h pre (sample_display_body i g) = (Done g', t) ->
  exists lbl row,
    y !! i = Some lbl /\ X !! i = Some row /\
    shown_labels t = [lbl] /\
    shown_images t = [rows_of 8 8 row] /\ length row = 8 * 8 /\
    subplot_positions t = [(1, ss, S c)] /\
    g' V.X_digits = Some X /\ g' V.y_digits = Some y /\
    g' V.count = Some (S c) /\ g' V.sample_size = Some ss.
Proof.
  intros HX Hy Hc Hss He. unfold sample_display_body in He.
  repeat xstep He. simplify_eq.
  eexists _, _. split; [done|]. split; [done|].
  assert (Hc1 : c + 1 = S c) by lia.
  simpl. env_simpl. rewrite Hc1. done.
Qed.

Lemma sample_display_loop_shown (h : world) (X : matrix) (y : list Z) (ss : nat) idx :
  forall pre c (g g' : env) t,
    g V.X_digits = Some X -> g V.y_digits = Some y ->
    g V.count = Some c -> g V.sample_size = Some ss ->
    exec h pre (for_ idx sample_display_body g) = (Done g', t) ->
    Forall2 (fun i lbl => y !! i = Some lbl) idx (shown_labels t) /\
    Forall2 (fun i img => exists row, X !! i = Some row /\ picture_of row img)
      idx (shown_images t) /\
    subplot_positions t = map (fun k => (1, ss, k)) (seq (S c) (length idx)) /\
    g' V.count = Some (c + length idx).
Proof.
  induction idx as [|i idx IH]; intros pre c g g' t HX Hy Hc Hss He; cbn [for_] in He.
  - apply exec_Ret_Done in He as [<- ->]. rewrite Nat.add_0_r.
    by repeat split; try constructor.
  - apply exec_bind_Done in He as (g1 & t1 & t2 & Hb & He & ->).
    destruct (sample_display_body_shown _ _ _ _ _ _ _ _ _ _ HX Hy Hc Hss Hb)
      as (lbl & row & Hlbl & Hrow & Hl & Hi & Hw & Hp & HX1 & Hy1 & Hc1 & Hss1).
    destruct (IH _ _ _ _ _ HX1 Hy1 Hc1 Hss1 He) as (Hl2 & Hi2 & Hp2 & Hc2).
    rewrite shown_labels_app, shown_images_app, subplot_positions_app, Hl, Hi, Hp.
    simpl. split; [by constructor|]. split.
    { constructor; [|done]. exists row. split; [done|]. by apply picture_of_rows. }
    split; [by rewrite Hp2|]. rewrite Hc2. f_equal. lia.
Qed.

(** X5: the sample cell asks for one permutation of the number of rows of
    [X_digits] and shows the rows at its first thirty positions: the k-th
    picture is the 8x8 reshape of row [perm[k]] of [X_digits], its title is
    [y_digits[perm[k]]], it is drawn in position k of a 1x30 grid, counting
    from one, and [count] ends as the number of pictures shown. *)
Theorem sample_display_shows_rows_with_their_labels (h : world) (pre : trace)
    (g g' : env) (t : trace) (X : matrix) (y : list Z) :
  g V.X_digits = Some X -> g V.y_digits = Some y ->
  exec h pre (cell_sample_display g) = (Done g', t) ->
  exists perm,
    t !! 1 = Some (Entry (np_random_permutation (length X)) (inr perm)) /\
    Forall2 (fun i lbl => y !! i = Some lbl) (take 30 perm) (shown_labels t) /\
    Forall2 (fun i img => exists row, X !! i = Some row /\ picture_of row img)
      (take 30 perm) (shown_images t) /\
    subplot_positions t
    = map (fun k => (1, 30, k)) (seq 1 (length (take 30 perm))) /\
    g' V.count = Some (length (take 30 perm)).
Proof.
  intros HX Hy He. unfold cell_sample_display in He. repeat xstep He.
  apply exec_bind_Done in He as (g1 & t1 & t2 & Hloop & He & ->).
  repeat xstep He.
  repeat match goal with u : unit |- _ => destruct u end.
  eapply (sample_display_loop_shown h X y 30) with (c := 0) in Hloop
    as (Hl & Hi & Hp & Hc); [|by env_simpl..].
  exists r0. split; [done|].
  rewrite !shown_labels_app, !shown_images_app, !subplot_positions_app. simpl.
  rewrite !app_nil_r. done.
Qed.

Lemma sample_display_shows_rows_with_their_labels_witness :
  let r := exec quiet_world [] (cell_sample_display loaded_env) in
  exists perm,
    r.2 !! 1 = Some (Entry (np_random_permutation
                              (length (data (blank_digits 3)))) (inr perm)) /\
    Forall2 (fun i lbl => target (blank_digits 3) !! i = Some lbl)
      (take 30 perm) (shown_labels r.2) /\
    Forall2 (fun i img => exists row, data (blank_digits 3) !! i = Some row /\
                                      picture_of row img)
      (take 30 perm) (shown_images r.2) /\
    subplot_positions r.2
    = map (fun k => (1, 30, k)) (seq 1 (length (take 30 perm))) /\
    env_of r.1 V.count = Some (length (take 30 perm)).
Proof.
  intros r.
  apply (sample_display_shows_rows_with_their_labels quiet_world [] loaded_env
           (env_of r.1) r.2 (data (blank_digits 3)) (target (blank_digits 3))).
  - reflexivity.
  - reflexivity.
  - reflexivity.
Defined.

Lemma prediction_calls_app t1 t2 :
  prediction_calls (t1 ++ t2) = prediction_calls t1 ++ prediction_calls t2.
Proof. apply omap_app. Qed.

Lemma prediction_display_body_shown (h : world) pre s (g g' : env) t
    (X : matrix) (y res : list Z) (i n : nat) :
  display_state X y res i g -> g V.n = Some n ->
  exec h pre (prediction_display_body s g) = (Done g', t) ->
  exists ri row,
    res !! i = Some ri /\ X !! s = Some row /\
    shown_labels t = [ri] /\
    shown_images t = [rows_of 8 8 row] /\ length row = 8 * 8 /\
    subplot_positions t = [(1, n, S i)] /\
    prediction_calls t = [] /\
    display_state X y res (S i) g' /\ g' V.n = Some n /\
    g' V.sample_indices = g V.sample_indices.
Proof.
  intros (HX & Hy & Hres & Hi) Hn He. unfold prediction_display_body in He.
  repeat xstep He. simplify_eq.
  eexists _, _. split; [done|]. split; [done|].
  assert (Hi1 : i + 1 = S i) by lia.
  simpl. unfold display_state. env_simpl. rewrite Hi1. done.
Qed.

Lemma prediction_display_loop_shown (h : world) (X : matrix) (y res : list Z)
    (n : nat) idx :
  forall pre i (g g' : env) t,
    display_state X y res i g -> g V.n = Some n ->
    exec h pre (for_ idx prediction_display_body g) = (Done g', t) ->
    shown_labels t = take (length idx) (drop i res) /\
    Forall2 (fun s img => exists row, X !! s = Some row /\ picture_of row img)
      idx (shown_images t) /\
    subplot_positions t = map (fun k => (1, n, k)) (seq (S i) (length idx)) /\
    prediction_calls t = [] /\
    g' V.i = Some (i + length idx) /\
    g' V.result = Some res /\ g' V.sample_indices = g V.sample_indices.
Proof.
  induction idx as [|s idx IH]; intros pre i g g' t Hst Hn He; cbn [for_] in He.
  - apply exec_Ret_Done in He as [<- ->]. rewrite Nat.add_0_r.
    destruct Hst as (_ & _ & Hres & Hi). by repeat split; try constructor.
  - apply exec_bind_Done in He as (g1 & t1 & t2 & Hb & He & ->).
    destruct (prediction_display_body_shown _ _ _ _ _ _ _ _ _ _ _ Hst Hn Hb)
      as (ri & row & Hri & Hrow & Hl & Hi & Hw & Hp & Hpc & Hst1 & Hn1 & Hsi1).
    destruct (IH _ _ _ _ _ Hst1 Hn1 He) as (Hl2 & Hi2 & Hp2 & Hpc2 & Hc2 & Hr2 & Hsi2).
    rewrite shown_labels_app, shown_images_app, subplot_positions_app,
      prediction_calls_app, Hl, Hi, Hp, Hpc, Hpc2.
    simpl. split.
    { rewrite Hl2. rewrite (drop_S _ _ _ Hri). done. }
    split.
    { constructor; [|done]. exists row. split; [done|]. by apply picture_of_rows. }
    split; [by rewrite Hp2|]. split; [done|].
    split; [rewrite Hc2; f_equal; lia|]. split; [done|]. by rewrite Hsi2.
Qed.

Lemma pictures_of_samples (X : matrix) idx samples imgs :
  rows_at X idx samples ->
  Forall2 (fun s img => exists row, X !! s = Some row /\ picture_of row img) idx imgs ->
  Forall2 picture_of samples imgs.
Proof.
  unfold rows_at. intros Hs. revert imgs.
  induction Hs as [|s row idx samples Hrow Hs IH]; intros imgs Hi.
  - inversion Hi. constructor.
  - inversion Hi as [|? img ? imgs' (row' & Hrow' & Hpic) Hi']; subst.
    rewrite Hrow in Hrow'. injection Hrow' as <-. constructor; [done|by apply IH].
Qed.

(** X6: in the test cell, [predict] is called once, on the fitted model
    and on the rows of [X_digits] at [sample_indices]; [result] is what
    that call returned; the pictures shown are the 8x8 reshapes of exactly
    those rows, in the same order, the title of the k-th picture is the
    k-th predicted label, and the pictures fill positions 1, 2, ... of a
    1x30 grid. *)
Theorem prediction_display_shows_what_was_predicted (h : world) (pre : trace)
    (g g' : env) (t : trace) (X : matrix) (y : list Z) (m : model_t) :
  g V.X_digits = Some X -> g V.y_digits = Some y -> g V.fitted_model = Some m ->
  exec h pre (cell_test_model g) = (Done g', t) ->
  exists idx samples res,
    g' V.sample_indices = Some idx /\ rows_at X idx samples /\
    prediction_calls t = [(m, samples)] /\
    Entry (predict m samples) (inr res) ∈ t /\
    g' V.result = Some res /\
    shown_labels t = take (length samples) res /\
    Forall2 picture_of samples (shown_images t) /\
    subplot_positions t = map (fun k => (1, 30, k)) (seq 1 (length samples)).
Proof.
  intros HX Hy Hm He. unfold cell_test_model in He. repeat xstep He.
  apply exec_bind_Done in He as (g1 & t1 & t2 & Hloop & He & ->).
  repeat xstep He.
  repeat match goal with u : unit |- _ => destruct u end.
  eapply (prediction_display_loop_shown h X y _ 30) with (i := 0) in Hloop
    as (Hl & Hi & Hp & Hpc & Hc & Hres & Hsi);
    [|unfold display_state; by env_simpl|by env_simpl].
  env_simpl_in Hsi.
  match goal with
  | H : Forall2 (fun s row => X !! s = Some row) _ _ |- _ => rename H into Hrows
  end.
  pose proof (Forall2_length _ _ _ Hrows) as Hlen.
  eexists _, _, _. split; [exact Hsi|]. split; [exact Hrows|].
  rewrite !prediction_calls_app, !shown_labels_app, !shown_images_app,
    !subplot_positions_app, Hpc, Hl, Hp. simpl. rewrite !app_nil_r.
  split; [done|].
  split; [in_list|].
  split; [done|]. rewrite <- Hlen. split; [done|].
  split; [|done]. by eapply pictures_of_samples.
Qed.

Lemma prediction_display_shows_what_was_predicted_witness :
  let r := exec (world_answering 4) [] (cell_test_model trained_env) in
  exists idx samples res,
    env_of r.1 V.sample_indices = Some idx /\
    rows_at (data (blank_digits 3)) idx samples /\
    prediction_calls r.2 = [(ModelHandle 0, samples)] /\
    Entry (predict (ModelHandle 0) samples) (inr res) ∈ r.2 /\
    env_of r.1 V.result = Some res /\
    shown_labels r.2 = take (length samples) res /\
    Forall2 picture_of samples (shown_images r.2) /\
    subplot_positions r.2 = map (fun k => (1, 30, k)) (seq 1 (length samples)).
Proof.
  intros r.
  apply (prediction_display_shows_what_was_predicted (world_answering 4) []
           trained_env (env_of r.1) r.2 (data (blank_digits 3))
           (target (blank_digits 3)) (ModelHandle 0)).
  - reflexivity.
  - reflexivity.
  - reflexivity.
  - reflexivity.
Defined.

Lemma drawn_indices (l : list nat) x :
  l ≡ₚ seq 0 x ->
  NoDup (take 30 l) /\ length (take 30 l) = 30 `min` x /\
  Forall (fun i => i < x) (take 30 l).
Proof.
  intros Hp. split; [|split].
  - eapply sublist_NoDup; [|apply sublist_take]. rewrite Hp. apply NoDup_seq.
  - rewrite length_take, Hp, length_seq. done.
  - by apply permutation_in_range.
Qed.

(** X7: when [np.random.permutation] answers as documented, the rows the
    test cell draws are pairwise distinct rows of [X_digits]: their number
    is thirty, or the number of rows when there are fewer, every index is
    in range, and the one [predict] call receives that many rows. *)
Theorem test_draws_distinct_rows (h : world) (pre : trace) (g g' : env) (t : trace)
    (X : matrix) (y : list Z) (m : model_t) :
  obeys h library_contract ->
  g V.X_digits = Some X -> g V.y_digits = Some y -> g V.fitted_model = Some m ->
  exec h pre (cell_test_model g) = (Done g', t) ->
  exists idx samples,
    g' V.sample_indices = Some idx /\
    NoDup idx /\ length idx = 30 `min` length X /\
    Forall (fun s => s < length X) idx /\
    prediction_calls t = [(m, samples)] /\
    length samples = 30 `min` length X.
Proof.
  intros Hh HX Hy Hm He. unfold cell_test_model in He. repeat xstep He.
  apply exec_bind_Done in He as (g1 & t1 & t2 & Hloop & He & ->).
  repeat xstep He.
  match goal with
  | H : h _ _ (np_random_permutation _) = inr ?l |- _ =>
      apply Hh in H; simpl in H; destruct (drawn_indices _ _ H) as (Hnd & Hlen & Hlt)
  end.
  match goal with
  | H : Forall2 (fun s row => X !! s = Some row) _ _ |- _ =>
      pose proof (Forall2_length _ _ _ H) as Hrows
  end.
  eapply (prediction_display_loop_shown h X y _ 30) with (i := 0) in Hloop
    as (_ & _ & _ & Hpc & _ & _ & Hsi);
    [|unfold display_state; by env_simpl|by env_simpl].
  env_simpl_in Hsi.
  eexists _, _. split; [exact Hsi|]. split; [done|]. split; [done|]. split; [done|].
  rewrite !prediction_calls_app, Hpc. simpl.
  split; [done|]. by rewrite <- Hrows.
Qed.

Lemma test_draws_distinct_rows_witness :
  let r := exec quiet_world [] (cell_test_model trained_env) in
  exists idx samples,
    env_of r.1 V.sample_indices = Some idx /\
    NoDup idx /\ length idx = 30 `min` length (data (blank_digits 3)) /\
    Forall (fun s => s < length (data (blank_digits 3))) idx /\
    prediction_calls r.2 = [(ModelHandle 0, samples)] /\
    length samples = 30 `min` length (data (blank_digits 3)).
Proof.
  intros r.
  apply (test_draws_distinct_rows quiet_world [] trained_env (env_of r.1) r.2
           (data (blank_digits 3)) (target (blank_digits 3)) (ModelHandle 0)).
  - exact quiet_world_obeys.
  - reflexivity.
  - reflexivity.
  - reflexivity.
  - reflexivity.
Defined.

(** ** The tabulation cell's calls *)

Lemma queries_app t1 t2 : queries (t1 ++ t2) = queries t1 ++ queries t2.
Proof. apply omap_app. Qed.

Lemma children_calls_app t1 t2 :
  children_calls (t1 ++ t2) = children_calls t1 ++ children_calls t2.
Proof. apply omap_app. Qed.

Lemma dataframe_tables_app t1 t2 :
  dataframe_tables (t1 ++ t2) = dataframe_tables t1 ++ dataframe_tables t2.
Proof. apply omap_app. Qed.

Lemma import_statements_app t1 t2 :
  import_statements (t1 ++ t2) = import_statements t1 ++ import_statements t2.
Proof. apply omap_app. Qed.

Lemma tabulate_body_queries (h : world) pre r (g g' : env) t :
  exec h pre (tabulate_body r g) = (Done g', t) ->
  queries t = [Properties_of r; Metrics_of r] /\
  children_calls t = [] /\ dataframe_tables t = [] /\
  import_statements t = [] /\ length t = 2 /\
  g' V.children = g V.children.
Proof.
  intros He. unfold tabulate_body in He. repeat xstep He.
  simpl. by env_simpl.
Qed.

Lemma tabulate_loop_queries (h : world) ch :
  forall pre (g g' : env) t,
    exec h pre (for_ ch tabulate_body g) = (Done g', t) ->
    queries t = flat_map (fun r => [Properties_of r; Metrics_of r]) ch /\
    children_calls t = [] /\ dataframe_tables t = [] /\
    import_statements t = [] /\
    length t = 2 * length ch /\
    g' V.children = g V.children.
Proof.
  induction ch as [|r ch IH]; intros pre g g' t He; cbn [for_] in He.
  - apply exec_Ret_Done in He as [<- ->]. done.
  - apply exec_bind_Done in He as (g1 & t1 & t2 & Hb & He & ->).
    apply tabulate_body_queries in Hb as (Hq & Hc & Hd & Him & Hl & Hch).
    apply IH in He as (Hq2 & Hc2 & Hd2 & Him2 & Hl2 & Hch2).
    rewrite queries_app, children_calls_app, dataframe_tables_app,
      import_statements_app, length_app,
      Hq, Hc, Hd, Him, Hl, Hq2, Hc2, Hd2, Him2, Hl2, Hch2, Hch.
    simpl. repeat split; try done. lia.
Qed.

(** X8: the tabulation cell lists the children of [local_run] once,
    binds [children] to the answer, and
    then asks each child, in the order of that list, for its properties and
    then for its metrics, once each; it ends by importing pandas and
    showing one table, the dictionary [metricslist], sorted on axis 1.  It
    makes no other call: two per child, plus the listing, the import and
    the table. *)
Theorem tabulation_queries_each_child_once (h : world) (pre : trace)
    (g g' : env) (t : trace) (lr : run_t) :
  g V.local_run = Some lr ->
  exec h pre (cell_retrieve_iterations g) = (Done g', t) ->
  exists ch tbl,
    children_calls t = [lr] /\ t !! 0 = Some (Entry (get_children lr) (inr ch)) /\
    g' V.children = Some ch /\
    queries t = flat_map (fun r => [Properties_of r; Metrics_of r]) ch /\
    g' V.metricslist = Some tbl /\
    dataframe_tables t = [(tbl, 1%Z)] /\
    import_statements t = [("pandas", None)] /\
    length t = 2 * length ch + 3.
Proof.
  intros Hlr He. unfold cell_retrieve_iterations in He. repeat xstep He.
  apply exec_bind_Done in He as (g1 & t1 & t2 & Hloop & He & ->).
  repeat xstep He.
  apply tabulate_loop_queries in Hloop as (Hq & Hc & Hd & Him & Hl & Hch).
  env_simpl_in Hch.
  match type of Hch with _ = Some ?c => exists c end.
  eexists. rewrite !queries_app, !children_calls_app, !dataframe_tables_app,
    !import_statements_app, !length_app, Hq, Hc, Hd, Him, Hl.
  simpl. rewrite !app_nil_r. env_simpl.
  repeat split; first [done | lia].
Qed.

Lemma tabulation_queries_each_child_once_witness :
  let r := exec quiet_world [] (cell_retrieve_iterations submitted_env) in
  exists ch tbl,
    children_calls r.2 = [RunHandle 0] /\
    r.2 !! 0 = Some (Entry (get_children (RunHandle 0)) (inr ch)) /\
    env_of r.1 V.children = Some ch /\
    queries r.2 = flat_map (fun r => [Properties_of r; Metrics_of r]) ch /\
    env_of r.1 V.metricslist = Some tbl /\
    dataframe_tables r.2 = [(tbl, 1%Z)] /\
    import_statements r.2 = [("pandas", None)] /\
    length r.2 = 2 * length ch + 3.
Proof.
  intros r.
  apply (tabulation_queries_each_child_once quiet_world [] submitted_env
           (env_of r.1) r.2 (RunHandle 0)).
  - reflexivity.
  - reflexivity.
Defined.

(** ** A child run without an iteration number *)

Lemma tabulate_body_unnumbered (lr : run_t) ch props_of metrics_of r (g : env) :
  iteration_of (props_of r) = None -> is_Some (g V.metricslist) ->
  sat no_dataframe (history_contract lr ch props_of metrics_of) lookup_error
    (fun _ => False) (tabulate_body r g).
Proof.
  intros Hnone [tbl Htbl]. unfold tabulate_body. repeat sat_step;
    try (by left); try (by right).
  simpl in *. subst. unfold iteration_of in Hnone.
  match goal with H : props_of r !! "iteration" = Some _ |- _ => rewrite H in Hnone end.
  simpl in Hnone. congruence.
Qed.

Lemma tabulate_body_numbered (lr : run_t) ch props_of metrics_of r (g : env) :
  is_Some (g V.metricslist) ->
  sat no_dataframe (history_contract lr ch props_of metrics_of) lookup_error
    (fun g' : env => is_Some (g' V.metricslist)) (tabulate_body r g).
Proof.
  intros [tbl Htbl]. unfold tabulate_body. repeat sat_step;
    try (by left); try (by right).
  simpl. env_simpl. eauto.
Qed.

Lemma tabulate_loop_unnumbered (lr : run_t) ch0 props_of metrics_of ch bad :
  bad ∈ ch -> iteration_of (props_of bad) = None ->
  forall g : env, is_Some (g V.metricslist) ->
    sat no_dataframe (history_contract lr ch0 props_of metrics_of) lookup_error
      (fun _ => False) (for_ ch tabulate_body g).
Proof.
  intros Hin Hnone. induction ch as [|r ch IH]; intros g Hg; cbn [for_].
  { by apply elem_of_nil in Hin. }
  apply elem_of_cons in Hin as [<-|Hin].
  - eapply sat_bind; [by apply tabulate_body_unnumbered|]. done.
  - eapply sat_bind; [by apply tabulate_body_numbered|].
    intros g' Hg'. by apply IH.
Qed.

(** X9: a child run whose properties have no ['iteration'] entry, or one
    that [int] does not accept, stops the tabulation cell: the cell ends
    with [KeyError] or [ValueError], or earlier with the error of a library
    call that raised, and in no case is pandas imported or a table
    shown. *)
Theorem tabulation_stops_at_unnumbered_child (h : world) (pre : trace) (g : env)
    (o : outcome env) (t : trace) (lr : run_t) (ch : list run_t)
    (props_of : run_t -> gmap string string)
    (metrics_of : run_t -> gmap string pyval) (j : nat) (bad : run_t) :
  obeys h (history_contract lr ch props_of metrics_of) ->
  g V.local_run = Some lr ->
  ch !! j = Some bad -> iteration_of (props_of bad) = None ->
  exec h pre (cell_retrieve_iterations g) = (o, t) ->
  dataframe_tables t = [] /\ import_statements t = [] /\
  exists e, o = Err e /\ (e = KeyError \/ e = ValueError \/ exists msg, e = Sdk msg).
Proof.
  intros Hh Hlr Hin Hnone He. apply list_elem_of_lookup_2 in Hin.
  assert (Hs : sat no_dataframe (history_contract lr ch props_of metrics_of)
                 lookup_error (fun _ => False) (cell_retrieve_iterations g)).
  { unfold cell_retrieve_iterations. repeat sat_step.
    simpl in Ha. rewrite (Ha eq_refl).
    eapply sat_bind.
    - eapply tabulate_loop_unnumbered; [done|done|]. env_simpl. eauto.
    - done. }
  eapply sat_exec in He as (Ht & Hq & Hb); [|exact Hh|exact Hs].
  split; [|split].
  - clear -Ht. induction Ht as [|[R ev res] t Hev _ IH]; [done|].
    unfold dataframe_tables in *. destruct ev; simpl in *; done.
  - clear -Ht. induction Ht as [|[R ev res] t Hev _ IH]; [done|].
    unfold import_statements in *. destruct ev; simpl in *; done.
  - destruct o as [g'|e]; [by destruct (Hq g' eq_refl)|].
    exists e. split; [done|].
    destruct (Hb e eq_refl) as [[?|?]|(msg & _ & -> & _)]; eauto.
Qed.

Lemma unnumbered_world_history :
  obeys unnumbered_world
    (history_contract (RunHandle 0) [RunHandle 1; RunHandle 2]
       unnumbered_props quiet_metrics).
Proof.
  intros R pre ev r. destruct ev; simpl; try done; try by intros [= <-].
  destruct r0 as [k]. by intros [= <-].
Qed.

Lemma tabulation_stops_at_unnumbered_child_witness :
  let r := exec unnumbered_world [] (cell_retrieve_iterations submitted_env) in
  dataframe_tables r.2 = [] /\ import_statements r.2 = [] /\
  exists e, r.1 = Err e /\ (e = KeyError \/ e = ValueError \/ exists msg, e = Sdk msg).
Proof.
  intros r.
  apply (tabulation_stops_at_unnumbered_child unnumbered_world [] submitted_env
           r.1 r.2 (RunHandle 0) [RunHandle 1; RunHandle 2]
           unnumbered_props quiet_metrics 1 (RunHandle 2)).
  - exact unnumbered_world_history.
  - reflexivity.
  - reflexivity.
  - reflexivity.
  - reflexivity.
Defined.

(** ** What is handed from cell to cell *)

Lemma handovers_app t1 t2 : handovers (t1 ++ t2) = handovers t1 ++ handovers t2.
Proof. apply omap_app. Qed.

Lemma config_kwargs_app t1 t2 :
  config_kwargs (t1 ++ t2) = config_kwargs t1 ++ config_kwargs t2.
Proof. apply omap_app. Qed.

Lemma quiet_log t :
  Forall (on_event quiet_call) t -> handovers t = [] /\ config_kwargs t = [].
Proof.
  induction 1 as [|[R ev res] t Hev _ [IH1 IH2]]; [done|].
  unfold handovers, config_kwargs in *. destruct ev; simpl in *; done.
Qed.

Lemma imports_quiet g :
  sat quiet_call any_answer own_exn (fun _ => True) (cell_imports g).
Proof. unfold cell_imports. repeat sat_step. done. Qed.

Lemma sample_display_quiet g :
  sat quiet_call any_answer own_exn (fun _ => True) (cell_sample_display g).
Proof.
  eapply sat_weaken; [| | | |apply cell_sample_display_sat]; try done.
  intros R ev. by destruct ev; cbn.
Qed.

Lemma load_data_quiet g :
  sat quiet_call any_answer own_exn (fun _ => True) (cell_load_data g).
Proof.
  eapply sat_weaken; [| | | |apply cell_load_data_sat]; try done.
  intros R ev. by destruct ev; cbn.
Qed.

Lemma tabulate_loop_quiet ch g :
  sat quiet_call any_answer own_exn (fun _ => True) (for_ ch tabulate_body g).
Proof.
  apply sat_for with (I := fun _ => True); [|by apply Forall_true|done].
  intros r st _ _. unfold tabulate_body. repeat sat_step. done.
Qed.

Lemma prediction_loop_quiet idx g :
  sat quiet_call any_answer own_exn (fun _ => True) (for_ idx prediction_display_body g).
Proof.
  apply sat_for with (I := fun _ => True); [|by apply Forall_true|done].
  intros r st _ _. unfold prediction_display_body. repeat sat_step. done.
Qed.

Ltac units := repeat match goal with u : unit |- _ => destruct u end.

Ltac quiet_loop H lem :=
  let Ht := fresh "Hquiet" in let Hk := fresh "Hnokw" in
  eapply sat_exec in H as (Ht & _); [|apply obeys_any|apply lem];
  apply quiet_log in Ht as [Ht Hk].

Lemma cell_configure_workspace_handover (h : world) pre (g g' : env) t :
  exec h pre (cell_configure_workspace g) = (Done g', t) ->
  exists w, handovers t = [Loaded w] /\ config_kwargs t = [] /\
            g' V.ws = Some w /\
            g' V.experiment_name = Some "automl-classifier".
Proof.
  intros He. unfold cell_configure_workspace in He. repeat xstep He. units.
  eexists. split; [reflexivity|]. split; [reflexivity|]. by env_simpl.
Qed.

Lemma cell_configure_automl_handover (h : world) pre (g g' : env) t :
  exec h pre (cell_configure_automl g) = (Done g', t) ->
  exists c kw,
    handovers t = [Built c] /\ config_kwargs t = [kw] /\
    kwarg "exit_score" kw = Some (PFloat exit_score) /\
    g' V.Automl_config = Some c.
Proof.
  intros He. unfold cell_configure_automl in He. repeat xstep He.
  eexists _, _. split; [reflexivity|]. split; [reflexivity|].
  split; [reflexivity|]. by env_simpl.
Qed.

Lemma cell_submit_handover (h : world) pre (g g' : env) t w nm c :
  g V.ws = Some w -> g V.experiment_name = Some nm -> g V.Automl_config = Some c ->
  exec h pre (cell_submit g) = (Done g', t) ->
  exists e r, handovers t = [Created w nm e; Submitted e c true r] /\
              config_kwargs t = [] /\
              g' V.local_run = Some r.
Proof.
  intros Hw Hnm Hc He. unfold cell_submit in He. repeat xstep He.
  eexists _, _. split; [reflexivity|]. split; [reflexivity|]. by env_simpl.
Qed.

Lemma cell_widget_handover (h : world) pre (g g' : env) t r :
  g V.local_run = Some r ->
  exec h pre (cell_widget g) = (Done g', t) ->
  handovers t = [Widget_for r] /\ config_kwargs t = [].
Proof.
  intros Hr He. unfold cell_widget in He. repeat xstep He. units. done.
Qed.

Lemma cell_retrieve_iterations_handover (h : world) pre (g g' : env) t r :
  g V.local_run = Some r ->
  exec h pre (cell_retrieve_iterations g) = (Done g', t) ->
  handovers t = [Children_of r] /\ config_kwargs t = [].
Proof.
  intros Hr He. unfold cell_retrieve_iterations in He. repeat xstep He.
  apply exec_bind_Done in He as (g1 & t1 & t2 & Hloop & He & ->).
  repeat xstep He. quiet_loop Hloop tabulate_loop_quiet.
  rewrite !handovers_app, !config_kwargs_app, Hquiet, Hnokw. done.
Qed.

Lemma cell_register_model_handover (h : world) pre (g g' : env) t r :
  g V.local_run = Some r ->
  exec h pre (cell_register_model g) = (Done g', t) ->
  exists best m,
    handovers t = [Output_of r best m;
                   Registered r "Automated Machine Learning Model" PNone;
                   Model_id_of r] /\
    config_kwargs t = [] /\
    g' V.fitted_model = Some m.
Proof.
  intros Hr He. unfold cell_register_model in He. repeat xstep He. units.
  eexists _, _. split; [reflexivity|]. split; [reflexivity|]. by env_simpl.
Qed.

Lemma cell_test_model_handover (h : world) pre (g g' : env) t m :
  g V.fitted_model = Some m ->
  exec h pre (cell_test_model g) = (Done g', t) ->
  handovers t = [Predicted_with m] /\ config_kwargs t = [].
Proof.
  intros Hm He. unfold cell_test_model in He. repeat xstep He.
  apply exec_bind_Done in He as (g1 & t1 & t2 & Hloop & He & ->).
  repeat xstep He. quiet_loop Hloop prediction_loop_quiet.
  rewrite !handovers_app, !config_kwargs_app, Hquiet, Hnokw. done.
Qed.

Ltac frame_of H lem :=
  let Hw := fresh "Hframe" in
  pose proof H as Hw;
  eapply sat_exec in Hw as (_ & Hw & _); [|apply obeys_any|apply lem];
  specialize (Hw _ eq_refl); cbv beta in Hw.

Ltac next_cell He H :=
  let g := fresh "g" in let t := fresh "t" in let r := fresh "r" in
  apply exec_bind_Done in He as (g & t & r & H & He & ->).

(** The log of a completed run: what is handed on, and the one set of
    keyword arguments. *)
Lemma notebook_completed_log (h : world) (g : env) t :
  exec h [] notebook = (Done g, t) ->
  exists w c e r best m kw,
    handovers t =
      [ Loaded w; Built c; Created w "automl-classifier" e; Submitted e c true r;
        Widget_for r; Children_of r; Output_of r best m;
        Registered r "Automated Machine Learning Model" PNone; Model_id_of r;
        Predicted_with m ] /\
    config_kwargs t = [kw] /\
    kwarg "exit_score" kw = Some (PFloat exit_score).
Proof.
  intros He. unfold notebook, first_cells, later_cells, inspection_cells in He.
  cbn [seq_cells app] in He.
  next_cell He H0.
  next_cell He H1. next_cell He H2. next_cell He H3. next_cell He H4.
  next_cell He H5. next_cell He H6. next_cell He H7. next_cell He H8.
  next_cell He H9. inversion He; subst; clear He.
  frame_of H2 cell_load_data_writes. frame_of H3 cell_sample_display_writes.
  frame_of H4 cell_configure_automl_writes.
  frame_of H6 cell_widget_writes. frame_of H7 cell_retrieve_iterations_writes.
  quiet_loop H0 imports_quiet. rename Hquiet into Ht0. rename Hnokw into Hk0.
  apply cell_configure_workspace_handover in H1 as (w & Ht1 & Hk1 & Hws & Hnm).
  quiet_loop H2 load_data_quiet. rename Hquiet into Ht2. rename Hnokw into Hk2.
  quiet_loop H3 sample_display_quiet. rename Hquiet into Ht3. rename Hnokw into Hk3.
  apply cell_configure_automl_handover in H4 as (c & kw & Ht4 & Hk4 & Hkw & Hc).
  eapply cell_submit_handover in H5 as (e & r & Ht5 & Hk5 & Hr);
    [| |by use_writes|exact Hc].
  2: { use_writes. exact Hws. }
  eapply cell_widget_handover in H6 as [Ht6 Hk6]; [|exact Hr].
  eapply cell_retrieve_iterations_handover in H7 as [Ht7 Hk7]; [|by use_writes].
  eapply cell_register_model_handover in H8 as (best & m & Ht8 & Hk8 & Hm);
    [|by use_writes].
  eapply cell_test_model_handover in H9 as [Ht9 Hk9]; [|exact Hm].
  exists w, c, e, r, best, m, kw.
  rewrite !handovers_app, !config_kwargs_app, Ht0, Ht1, Ht2, Ht3, Ht4, Ht5, Ht6, Ht7,
    Ht8, Ht9, Hk0, Hk1, Hk2, Hk3, Hk4, Hk5, Hk6, Hk7, Hk8, Hk9.
  done.
Qed.

(** X10: in a run that reaches the end, each object is handed on to the
    call that needs it: the experiment is created on the loaded workspace
    under the name ['automl-classifier']; the submission receives that
    experiment and the configuration that [AutoMLConfig] returned, with
    [show_output=True]; the widget, the listing of children, [get_output],
    [register_model] and [model_id] are all called on the run the
    submission returned; the model is registered with the description
    ['Automated Machine Learning Model'] and no tags; and [predict] is
    called on the model that [get_output] returned.  These are the only
    calls on those objects, in this order. *)
Theorem notebook_hands_objects_on (h : world) (g : env) t :
  exec h [] notebook = (Done g, t) ->
  exists w c e r best m,
    handovers t =
      [ Loaded w; Built c; Created w "automl-classifier" e; Submitted e c true r;
        Widget_for r; Children_of r; Output_of r best m;
        Registered r "Automated Machine Learning Model" PNone; Model_id_of r;
        Predicted_with m ].
Proof.
  intros He.
  destruct (notebook_completed_log h g t He) as (w & c & e & r & best & m & kw & Ht & _).
  by exists w, c, e, r, best, m.
Qed.

Lemma notebook_hands_objects_on_witness :
  exists w c e r best m,
    handovers (exec quiet_world [] notebook).2 =
      [ Loaded w; Built c; Created w "automl-classifier" e; Submitted e c true r;
        Widget_for r; Children_of r; Output_of r best m;
        Registered r "Automated Machine Learning Model" PNone; Model_id_of r;
        Predicted_with m ].
Proof.
  apply (notebook_hands_objects_on quiet_world
           (env_of (exec quiet_world [] notebook).1)).
  reflexivity.
Defined.

(** ** Exceptions of the libraries *)

Lemma handover_operation (en : entry) (x : handover) (op : operation) :
  handover_of en = Some x -> operation_of x = Some op ->
  exists R (ev : event R) r, en = Entry ev (inr r) /\ is_operation op ev = true.
Proof.
  destruct en as [R ev [msg|r]]; destruct ev; simpl; intros Hx Ho;
    simplify_eq; simpl in Ho; simplify_eq; by repeat eexists.
Qed.

Lemma completed_run_calls_each_operation (h : world) (g : env) t (op : operation) :
  exec h [] notebook = (Done g, t) ->
  exists j R (ev : event R) r,
    t !! j = Some (Entry ev (inr r)) /\ is_operation op ev = true.
Proof.
  intros He.
  destruct (notebook_completed_log h g t He)
    as (w & c & e & r & best & m & kw & Ht & _).
  assert (exists x, x ∈ handovers t /\ operation_of x = Some op) as (x & Hx & Ho).
  { rewrite Ht.
    destruct op;
      [exists (Loaded w)|exists (Submitted e c true r)|exists (Children_of r)
      |exists (Registered r "Automated Machine Learning Model" PNone)
      |exists (Predicted_with m)];
      (split; [in_list|done]). }
  unfold handovers in Hx. apply list_elem_of_omap in Hx as (en & Hen & Hx).
  destruct (handover_operation en x op Hx Ho) as (R & ev & r' & -> & Hop).
  apply list_elem_of_lookup in Hen as [j Hj]. by exists j, R, ev, r'.
Qed.

Lemma last_snoc_inv {A} (l : list A) (x : A) :
  last l = Some x -> exists l0, l = l0 ++ [x].
Proof.
  intros Hl. destruct l as [|a l] using rev_ind; [done|].
  rewrite last_snoc in Hl. injection Hl as ->. by exists l.
Qed.

Lemma quiet_world_answers R pre (ev : event R) : exists r, quiet_world R pre ev = inr r.
Proof. destruct ev; simpl; eauto. Qed.

Lemma failing_world_fails op msg : fails_exactly op msg (failing_world op msg).
Proof.
  intros R pre ev. unfold failing_world.
  destruct (is_operation op ev); [done|apply quiet_world_answers].
Qed.

Lemma failing_world_contract op msg : obeys (failing_world op msg) notebook_contract.
Proof.
  intros R pre ev r. unfold failing_world.
  destruct (is_operation op ev); [done|apply quiet_world_contract].
Qed.

(** C6: no stage catches an exception.  The notebook contains no handler;
    in every run the log records what the libraries answered, and a call
    that raised is the last call of the run: the run ends with exactly
    that exception and nothing is called after it, no retry and no other
    branch.  A run that ends with a library's exception ends at the call
    that raised it.  And each of the five operations is reached: when the
    libraries keep their contracts and the workspace load (the
    submission, the metric retrieval, the model registration, the
    prediction) raises [msg] while nothing else raises, the run calls that
    operation, every call before it returned, and the run ends there with
    [msg]. *)
Theorem sdk_errors_propagate (h : world) (o : outcome env) (t : trace) :
  exec h [] notebook = (o, t) ->
  handler_free notebook /\
  (forall j en, t !! j = Some en ->
     answered h (take j t) en /\
     forall msg, raised en = Some msg -> o = Err (Sdk msg) /\ length t = S j) /\
  (forall msg, o = Err (Sdk msg) ->
     exists en, last t = Some en /\ raised en = Some msg) /\
  (forall op msg, obeys h notebook_contract -> fails_exactly op msg h ->
     o = Err (Sdk msg) /\
     exists t0 R (ev : event R),
       t = t0 ++ [Entry ev (inl msg)] /\ is_operation op ev = true /\
       Forall (fun en => raised en = None) t0).
Proof.
  intros He. pose proof notebook_handler_free as Hf.
  pose proof (exec_log h notebook [] o t Hf He) as Hlog. simpl in Hlog.
  split; [done|]. split; [exact Hlog|]. split.
  - intros msg ->.
    eapply sat_exec in He as (_ & _ & Hb); [|apply obeys_any|apply notebook_sat].
    destruct (Hb _ eq_refl) as [[]|(msg' & en & [= <-] & Hl & Hm)].
    by exists en.
  - intros op msg Hc Hfail.
    pose proof He as He'.
    eapply sat_exec in He' as (_ & _ & Hb); [|exact Hc|apply notebook_safe].
    destruct o as [g|e].
    { destruct (completed_run_calls_each_operation h g t op He)
        as (j & R & ev & r & Hj & Hop).
      destruct (Hlog j _ Hj) as [Ha _]. simpl in Ha.
      specialize (Hfail R (take j t) ev). rewrite Hop, Ha in Hfail. done. }
    destruct (Hb _ eq_refl) as [[[] _]|(msg' & en & -> & Hl & Hm)].
    apply last_snoc_inv in Hl as [t0 ->].
    destruct en as [R ev [m|r]]; simpl in Hm; [|done]. injection Hm as ->.
    destruct (Hlog (length t0) (Entry ev (inl msg'))) as [Ha _].
    { by apply list_lookup_middle. }
    simpl in Ha. specialize (Hfail R (take (length t0) (t0 ++ [Entry ev (inl msg')])) ev).
    destruct (is_operation op ev) eqn:Hop.
    + rewrite Ha in Hfail. injection Hfail as ->.
      split; [done|]. exists t0, R, ev. split; [done|]. split; [done|].
      apply Forall_lookup. intros j en Hj.
      destruct (raised en) as [m|] eqn:Hr; [|done].
      destruct (Hlog j en) as [_ Hstop].
      { rewrite (lookup_app_l t0); [done|by eapply lookup_lt_Some]. }
      destruct (Hstop m Hr) as [_ Hlen]. apply lookup_lt_Some in Hj.
      rewrite length_app in Hlen. simpl in Hlen. lia.
    + destruct Hfail as [r Hr]. by rewrite Ha in Hr.
Qed.

Lemma sdk_errors_propagate_witness :
  (exec (failing_world Workspace_load "no config.json") [] notebook).1
    = Err (Sdk "no config.json") /\
  (exec (failing_world Job_submission "quota exhausted") [] notebook).1
    = Err (Sdk "quota exhausted") /\
  (exec (failing_world Metric_retrieval "connection reset") [] notebook).1
    = Err (Sdk "connection reset") /\
  (exec (failing_world Model_registration "not authorized") [] notebook).1
    = Err (Sdk "not authorized") /\
  (exec (failing_world Prediction "not fitted") [] notebook).1
    = Err (Sdk "not fitted") /\
  exists t0 R (ev : event R),
    (exec (failing_world Job_submission "quota exhausted") [] notebook).2
      = t0 ++ [Entry ev (inl "quota exhausted")] /\
    is_operation Job_submission ev = true /\
    Forall (fun en => raised en = None) t0.
Proof.
  pose (run := fun op msg =>
    proj2 (proj2 (proj2
      (sdk_errors_propagate (failing_world op msg)
         (exec (failing_world op msg) [] notebook).1
         (exec (failing_world op msg) [] notebook).2 (surjective_pairing _))))
      op msg (failing_world_contract op msg) (failing_world_fails op msg)).
  split; [exact (proj1 (run Workspace_load "no config.json"))|].
  split; [exact (proj1 (run Job_submission "quota exhausted"))|].
  split; [exact (proj1 (run Metric_retrieval "connection reset"))|].
  split; [exact (proj1 (run Model_registration "not authorized"))|].
  split; [exact (proj1 (run Prediction "not fitted"))|].
  exact (proj2 (run Job_submission "quota exhausted")).
Defined.

(** ** The exit score *)

Lemma cell_configure_automl_forwards (g : env) :
  sat forwards_exit_score any_answer own_exn (keeps_arrays g) (cell_configure_automl g).
Proof. unfold cell_configure_automl. repeat sat_step. keeps_done. Qed.

Ltac no_config :=
  let R := fresh "R" in let ev := fresh "ev" in let Hev := fresh "Hev" in
  intros R ev Hev; destruct ev; first [exact I | discriminate Hev | by destruct Hev].

Lemma notebook_forwards :
  sat forwards_exit_score any_answer own_exn (fun _ => True) notebook.
Proof.
  unfold notebook, first_cells. cbn [seq_cells app].
  eapply sat_bind.
  { eapply sat_weaken; [| | | |apply cell_imports_sat]; try done.
    no_config. }
  intros g0 _. eapply sat_bind.
  { eapply sat_weaken; [| | | |apply cell_configure_workspace_sat]; try done.
    no_config. }
  intros g1 _. eapply sat_bind.
  { eapply sat_weaken; [| | | |apply cell_load_data_sat]; try done.
    no_config. }
  intros g2 _. eapply sat_weaken; [| | | |apply seq_cells_sat]; try done.
  intros c g' Hin. unfold later_cells, inspection_cells in Hin. simpl in Hin.
  repeat (apply elem_of_cons in Hin as [->|Hin]);
    [eapply sat_weaken; [| | | |apply cell_sample_display_sat]
    |apply cell_configure_automl_forwards
    |eapply sat_weaken; [| | | |apply cell_submit_sat]
    |eapply sat_weaken; [| | | |apply cell_widget_sat]
    |eapply sat_weaken; [| | | |apply cell_retrieve_iterations_sat]
    |eapply sat_weaken; [| | | |apply cell_register_model_sat]
    |eapply sat_weaken; [| | | |apply cell_test_model_results]
    |by apply elem_of_nil in Hin]; try done;
    no_config.
Qed.

Lemma exit_scores_differ :
  exit_score <> documented_exit_score /\
  PrimFloat.ltb documented_exit_score exit_score = true.
Proof.
  split; [|reflexivity]. intros H.
  assert (E : PrimFloat.ltb documented_exit_score exit_score
              = PrimFloat.ltb documented_exit_score documented_exit_score)
    by (by rewrite H).
  vm_compute in E. discriminate E.
Qed.

(** C9: in every run of the notebook, whatever the libraries answer, each
    [AutoMLConfig] call in the log carries the keyword [exit_score] with
    the float 0.9985.  A run that completes makes exactly one such call,
    and the configuration object that call returned is the one handed to
    [experiment.submit], so 0.9985 is the threshold the training service
    receives.  The settings table of the markdown cell above the call
    documents 0.995; as floats the two are different numbers, the
    documented one the smaller. *)
#[warnings="-inexact-float"]
Theorem exit_score_differs_from_documented (h : world) (o : outcome env) (t : trace) :
  exec h [] notebook = (o, t) ->
  (forall kw, kw ∈ config_kwargs t ->
     kwarg "exit_score" kw = Some (PFloat 0.9985%float)) /\
  (forall g, o = Done g ->
     exists kw c e r,
       config_kwargs t = [kw] /\
       Entry (AutoMLConfig kw) (inr c) ∈ t /\
       Entry (experiment_submit e c true) (inr r) ∈ t) /\
  documented_exit_score = 0.995%float /\
  exit_score <> documented_exit_score /\
  PrimFloat.ltb documented_exit_score exit_score = true.
Proof.
  intros He. split; [|split; [|split; [reflexivity|apply exit_scores_differ]]].
  - intros kw Hkw.
    eapply sat_exec in He as (Hall & _); [|apply obeys_any|apply notebook_forwards].
    unfold config_kwargs in Hkw. apply list_elem_of_omap in Hkw as (en & Hen & Hkw).
    rewrite Forall_forall in Hall. specialize (Hall en Hen).
    destruct en as [R ev res]. destruct ev; simpl in Hkw; try done.
    injection Hkw as ->. exact Hall.
  - intros g ->.
    destruct (notebook_completed_log h g t He)
      as (w & c & e & r & best & m & kw & Ht & Hkw & _).
    assert (Hin : forall x, x ∈ handovers t -> exists en, en ∈ t /\ handover_of en = Some x).
    { intros x Hx. unfold handovers in Hx. by apply list_elem_of_omap in Hx. }
    destruct (Hin (Built c)) as (en1 & Hen1 & H1); [rewrite Ht; in_list|].
    destruct (Hin (Submitted e c true r)) as (en2 & Hen2 & H2); [rewrite Ht; in_list|].
    assert (exists kw', en1 = Entry (AutoMLConfig kw') (inr c)) as [kw' ->].
    { destruct en1 as [R ev [msg|res]]; destruct ev; simpl in H1; simplify_eq.
      by eexists. }
    assert (en2 = Entry (experiment_submit e c true) (inr r)) as ->.
    { destruct en2 as [R ev [msg|res]]; destruct ev; simpl in H2; by simplify_eq. }
    assert (kw' ∈ config_kwargs t) as Hk.
    { unfold config_kwargs. apply list_elem_of_omap.
      by exists (Entry (AutoMLConfig kw') (inr c)). }
    rewrite Hkw in Hk. apply list_elem_of_singleton in Hk as ->.
    by exists kw, c, e, r.
Qed.

#[warnings="-inexact-float"]
Lemma exit_score_differs_from_documented_witness :
  completed (exec quiet_world [] notebook).1 /\
  exists kw, config_kwargs (exec quiet_world [] notebook).2 = [kw] /\
             kwarg "exit_score" kw = Some (PFloat 0.9985%float).
Proof.
  split; [exact I|].
  destruct (exit_score_differs_from_documented quiet_world
              (exec quiet_world [] notebook).1 (exec quiet_world [] notebook).2
              eq_refl) as (Hall & Hone & _).
  destruct (Hone (env_of (exec quiet_world [] notebook).1) eq_refl)
    as (kw & c & e & r & Hkw & _).
  exists kw. split; [exact Hkw|]. apply Hall. rewrite Hkw. apply list_elem_of_here.
Defined.
